(** * Tendis server coordinator ([server_entry.cpp]): a shallow embedding

    The development follows [src/tendisplus/server/server_entry.cpp].
    Unsigned 64-bit quantities are integers of [Z] with the wrap-around
    written out, C++ containers are stdpp maps and lists, objects held
    through [shared_ptr] live in a store indexed by address, and the
    methods that call into other subsystems run in a small monad that
    threads the coordinator state, may stop on a failed assertion, and
    records the calls made to collaborators. *)

From Stdlib Require Import ZArith String List Lia Bool.
From stdpp Require Import base option list gmap strings pretty functions sorting.

Open Scope Z_scope.

(** ** Unsigned 64-bit arithmetic ([uint64_t]) *)

Definition U64_MOD : Z := 2 ^ 64.

Definition wrap64 (z : Z) : Z := z mod U64_MOD.

Definition add64 (a b : Z) : Z := wrap64 (a + b).
Definition sub64 (a b : Z) : Z := wrap64 (a - b).
Definition mul64 (a b : Z) : Z := wrap64 (a * b).

Definition is_u64 (z : Z) : Prop := 0 <= z < U64_MOD.

(** Conversion to [uint32_t]. *)
Definition wrap32 (z : Z) : Z := z mod 2 ^ 32.

(** [std::to_string] on an unsigned integer: its decimal digits. *)
Definition to_string (z : Z) : string := pretty z.

(** ** ServerStat: the sampled rate metrics *)

(** Modelled from the spec: [STATS_METRIC_SAMPLES] is a constant of
    [server_entry.h]; the spec gives the ring of an instantaneous metric
    16 entries. *)
Definition STATS_METRIC_SAMPLES : Z := 16.

(** One element of [ServerStat::instMetric]. *)
Record InstMetric := mkInstMetric {
  lastSampleTime : Z;
  lastSampleCount : Z;
  samples : list Z;
  idx : Z
}.

(** The counters of [ServerStat] that this file reads or writes, and the
    array [instMetric]. *)
Record ServerStat := mkServerStat {
  expiredkeys : Z;
  keyspaceHits : Z;
  keyspaceMisses : Z;
  keyspaceIncorrectEp : Z;
  rejectedConn : Z;
  syncFull : Z;
  syncPartialOk : Z;
  syncPartialErr : Z;
  netInputBytes : Z;
  netOutputBytes : Z;
  instMetric : list InstMetric
}.

(** [memset(&instMetric, 0, sizeof(instMetric))] on one element. *)
Definition zeroInstMetric : InstMetric :=
  mkInstMetric 0 0 (replicate (Z.to_nat STATS_METRIC_SAMPLES) 0) 0.

Definition set_instMetric (f : list InstMetric -> list InstMetric)
    (s : ServerStat) : ServerStat :=
  mkServerStat (expiredkeys s) (keyspaceHits s) (keyspaceMisses s)
    (keyspaceIncorrectEp s) (rejectedConn s) (syncFull s) (syncPartialOk s)
    (syncPartialErr s) (netInputBytes s) (netOutputBytes s)
    (f (instMetric s)).

(** [ServerStat::reset]: every counter and every sample back to zero. *)
Definition ServerStat_reset (s : ServerStat) : ServerStat :=
  mkServerStat 0 0 0 0 0 0 0 0 0 0
    (replicate (length (instMetric s)) zeroInstMetric).

(** The [for] loop of [getInstantaneousMetric]: [sum += samples[j]] in
    [uint64_t], over the positions the loop visits. *)
Definition sum_samples (l : list Z) : Z :=
  foldl (fun sum x => add64 sum x) 0 l.

(** [ServerStat::getInstantaneousMetric].  [None] stands for an index
    outside the array [instMetric], which C++ leaves undefined. *)
Definition getInstantaneousMetric (metric : nat) (s : ServerStat)
    : option Z :=
  m ← instMetric s !! metric;
  Some (sum_samples (take (Z.to_nat STATS_METRIC_SAMPLES) (samples m))
        / STATS_METRIC_SAMPLES).

(** [ServerStat::trackInstantaneousMetric].  The function reads
    [msSinceEpoch()] twice: [now1] is the first reading, [now2] the
    second. *)
Definition trackInstantaneousMetric (metric : nat) (current_reading : Z)
    (now1 now2 : Z) (s : ServerStat) : option ServerStat :=
  m ← instMetric s !! metric;
  let t := sub64 now1 (lastSampleTime m) in
  let ops := sub64 current_reading (lastSampleCount m) in
  let ops_sec := if 0 <? t then mul64 ops 1000 / t else 0 in
  let samples' := <[Z.to_nat (idx m) := ops_sec]> (samples m) in
  let idx' := (idx m + 1) mod STATS_METRIC_SAMPLES in
  Some (set_instMetric
          (fun a => <[metric := mkInstMetric now2 current_reading samples' idx']> a)
          s).

(** The shape the array elements keep: 16 samples and a ring index
    inside them. *)
Definition inst_wf (m : InstMetric) : Prop :=
  length (samples m) = Z.to_nat STATS_METRIC_SAMPLES /\
  0 <= idx m < STATS_METRIC_SAMPLES.

(** The sum of a list of integers, without wrap-around. *)
Definition sumZ (l : list Z) : Z := foldr Z.add 0 l.

(** ** Status and Expected *)

(** Modelled from the spec: the enumeration [ErrorCodes] lives in
    [status.h].  The coordinator names four of its codes; every other
    code of the enumeration is [ERR_UNLISTED]. *)
Inductive ErrorCodes :=
| ERR_OK
| ERR_INTERNAL
| ERR_NOTFOUND
| ERR_BUSY
| ERR_UNLISTED (tag : Z).

Record Status := mkStatus { code : ErrorCodes; msg : string }.

Definition Status_ok (s : Status) : bool :=
  match code s with ERR_OK => true | _ => false end.

Definition OK : Status := mkStatus ERR_OK EmptyString.

(** [Expected<T>]: a value, or the status that explains its absence. *)
Inductive Expected (A : Type) :=
| Unexpected (s : Status)
| Value (v : A).
Arguments Unexpected {A} s.
Arguments Value {A} v.

(** ** Collaborating objects

    The classes below are declared outside [server_entry.cpp]; each
    record keeps the attributes that the coordinator reads or changes. *)

(** Modelled from the spec: [KVStore::StoreMode] has the three modes
    [READ_WRITE], [REPLICATE_ONLY] and [STORE_NONE]. *)
Inductive StoreMode := READ_WRITE | REPLICATE_ONLY | STORE_NONE.

Global Instance StoreMode_eq_dec : EqDecision StoreMode.
Proof. solve_decision. Defined.

Inductive LockMode := LOCK_IS | LOCK_X.

(** Modelled from the spec: a shard is an LSM instance with a
    stringly-typed id, a mode, a paused flag and the queries [isEmpty]
    and [isPaused]; [destroy] leaves it in mode [STORE_NONE]. *)
Record KVStore := mkKVStore {
  dbId : string;
  store_mode : StoreMode;
  store_paused : bool;
  store_empty : bool;
  store_destroyed : bool
}.

(** Modelled from the spec: [StoreMainMeta] is [{storeId, storeMode}],
    persisted in the catalog. *)
Record StoreMainMeta := mkStoreMainMeta { meta_id : Z; storeMode : StoreMode }.

(** Modelled from the spec: the catalog is a metadata shard holding the
    per-store mode records, constructed with the number of stores and
    the chunk size. *)
Record Catalog := mkCatalog {
  cat_metas : gmap Z StoreMode;
  cat_kvStoreCount : Z;
  cat_chunkSize : Z
}.

Record SegmentMgr := mkSegmentMgr { seg_stores : nat; seg_chunkSize : Z }.
Record PessimisticMgr := mkPessimisticMgr { pm_size : Z }.
Inductive MGLockMgr := mkMGLockMgr.

(** A TCP socket as a value that can be moved out of its owner. *)
Inductive socket := Socket (fd : Z) | SocketMoved.

(** Modelled from the spec: the replication manager takes over the
    sockets of [FULLSYNC] and [INCRSYNC] sessions and keeps per-shard
    replica state that [stopStore] shuts down. *)
Record ReplManager := mkReplManager {
  repl_conns : list socket;
  repl_stopped : list Z
}.

Record IndexManager := mkIndexManager { index_stopped : list Z }.

Record NetworkAsio := mkNetworkAsio {
  net_ip : string;
  net_port : Z;
  net_ioThreads : Z;
  net_accepting : bool
}.

(** A worker pool: its name and the number of threads it was started
    with. *)
Record WorkerPool := mkWorkerPool { pool_name : string; pool_threads : Z }.

(** The keys of [ServerParams] that the modelled methods consume. *)
Record ServerParams := mkServerParams {
  kvStoreCount : Z;
  chunkSize : Z;
  noexpire : bool;
  executorThreadNum : Z;
  bindIp : string;
  port : Z;
  netIoThreadNum : Z;
  generalLog : bool;
  slowlogPath : string;
  slowlogLogSlowerThan : Z;
  slowlogFlushInterval : Z
}.

Record NetworkMatrix := mkNetworkMatrix {
  stickyPackets : Z;
  connCreated : Z;
  connReleased : Z;
  invalidPackets : Z
}.

Record PoolMatrix := mkPoolMatrix {
  inQueue : Z;
  executed : Z;
  queueTime : Z;
  executeTime : Z
}.

Record RequestMatrix := mkRequestMatrix {
  processed : Z;
  processCost : Z;
  sendPacketCost : Z
}.

(** What the coordinator hands to the slow-log stream, in order: the
    inserted text and the calls of [flush].  [os_path] is the file the
    stream is open on, if any. *)
Inductive stream_op := Put (s : string) | Flush.

Record ofstream := mkOfstream { os_path : option string; os_out : list stream_op }.

(** ** Sessions *)

Inductive SessionType := NetSessionT | LocalSessionT.

Record SessionCtx := mkSessionCtx { ctx_dbId : Z; ctx_isMonitor : bool }.

(** Modelled from the spec: a session has an id, a remote address, a
    per-connection context (current database id, monitor flag), a
    pending argument vector and a response buffer; a network session
    also owns its socket and a close-after-response mark. *)
Record Session := mkSession {
  sess_id : Z;
  sess_type : SessionType;
  sess_remote : string;
  sess_ctx : option SessionCtx;
  sess_args : list string;
  sess_resp : string;
  sess_closeAfterRsp : bool;
  sess_sock : socket
}.

(** Modelled from the spec: [Session::setResponse] appends to the
    response buffer. *)
Definition Session_setResponse (r : string) (s : Session) : Session :=
  mkSession (sess_id s) (sess_type s) (sess_remote s) (sess_ctx s)
    (sess_args s) (sess_resp s +:+ r) (sess_closeAfterRsp s) (sess_sock s).

Definition Session_setCloseAfterRsp (s : Session) : Session :=
  mkSession (sess_id s) (sess_type s) (sess_remote s) (sess_ctx s)
    (sess_args s) (sess_resp s) true (sess_sock s).

(** Modelled from the spec: [NetSession::borrowConn] moves the socket
    out of the session. *)
Definition Session_borrowConn (s : Session) : socket * Session :=
  (sess_sock s,
   mkSession (sess_id s) (sess_type s) (sess_remote s) (sess_ctx s)
     (sess_args s) (sess_resp s) (sess_closeAfterRsp s) SocketMoved).

(** ** The coordinator state

    The fields of [ServerEntry], and [sessObjs], the session objects
    that the [shared_ptr]s of [_sessions] and [_monitors] and the raw
    [Session*] arguments point to, indexed by address. *)
Record State := mkState {
  _isRunning : bool;
  _isStopped : bool;
  _isShutdowned : bool;
  _sessions : gmap Z N;
  _monitors : list N;
  _serverStat : ServerStat;
  _netMatrix : NetworkMatrix;
  _poolMatrix : PoolMatrix;
  _reqMatrix : RequestMatrix;
  _catalog : option Catalog;
  _kvstores : list KVStore;
  _segmentMgr : option SegmentMgr;
  _pessimisticMgr : option PessimisticMgr;
  _mgLockMgr : option MGLockMgr;
  _replMgr : option ReplManager;
  _indexMgr : option IndexManager;
  _network : option NetworkAsio;
  _executorList : list WorkerPool;
  _cfg : option ServerParams;
  _cronThd : bool;
  _slowLog : ofstream;
  _slowlogId : Z;
  sessObjs : N -> Session
}.

Definition with_isRunning (v : bool) (st : State) : State :=
  mkState v (_isStopped st) (_isShutdowned st) (_sessions st) (_monitors st)
    (_serverStat st) (_netMatrix st) (_poolMatrix st) (_reqMatrix st)
    (_catalog st) (_kvstores st) (_segmentMgr st) (_pessimisticMgr st)
    (_mgLockMgr st) (_replMgr st) (_indexMgr st) (_network st)
    (_executorList st) (_cfg st) (_cronThd st) (_slowLog st) (_slowlogId st)
    (sessObjs st).

Definition with_isStopped (v : bool) (st : State) : State :=
  mkState (_isRunning st) v (_isShutdowned st) (_sessions st) (_monitors st)
    (_serverStat st) (_netMatrix st) (_poolMatrix st) (_reqMatrix st)
    (_catalog st) (_kvstores st) (_segmentMgr st) (_pessimisticMgr st)
    (_mgLockMgr st) (_replMgr st) (_indexMgr st) (_network st)
    (_executorList st) (_cfg st) (_cronThd st) (_slowLog st) (_slowlogId st)
    (sessObjs st).

Definition with_sessions (v : gmap Z N) (st : State) : State :=
  mkState (_isRunning st) (_isStopped st) (_isShutdowned st) v
    (_monitors st) (_serverStat st) (_netMatrix st) (_poolMatrix st)
    (_reqMatrix st) (_catalog st) (_kvstores st) (_segmentMgr st)
    (_pessimisticMgr st) (_mgLockMgr st) (_replMgr st) (_indexMgr st)
    (_network st) (_executorList st) (_cfg st) (_cronThd st) (_slowLog st)
    (_slowlogId st) (sessObjs st).

Definition with_monitors (v : list N) (st : State) : State :=
  mkState (_isRunning st) (_isStopped st) (_isShutdowned st) (_sessions st)
    v (_serverStat st) (_netMatrix st) (_poolMatrix st) (_reqMatrix st)
    (_catalog st) (_kvstores st) (_segmentMgr st) (_pessimisticMgr st)
    (_mgLockMgr st) (_replMgr st) (_indexMgr st) (_network st)
    (_executorList st) (_cfg st) (_cronThd st) (_slowLog st) (_slowlogId st)
    (sessObjs st).

Definition with_serverStat (v : ServerStat) (st : State) : State :=
  mkState (_isRunning st) (_isStopped st) (_isShutdowned st) (_sessions st)
    (_monitors st) v (_netMatrix st) (_poolMatrix st) (_reqMatrix st)
    (_catalog st) (_kvstores st) (_segmentMgr st) (_pessimisticMgr st)
    (_mgLockMgr st) (_replMgr st) (_indexMgr st) (_network st)
    (_executorList st) (_cfg st) (_cronThd st) (_slowLog st) (_slowlogId st)
    (sessObjs st).

Definition with_catalog (v : option Catalog) (st : State) : State :=
  mkState (_isRunning st) (_isStopped st) (_isShutdowned st) (_sessions st)
    (_monitors st) (_serverStat st) (_netMatrix st) (_poolMatrix st)
    (_reqMatrix st) v (_kvstores st) (_segmentMgr st) (_pessimisticMgr st)
    (_mgLockMgr st) (_replMgr st) (_indexMgr st) (_network st)
    (_executorList st) (_cfg st) (_cronThd st) (_slowLog st) (_slowlogId st)
    (sessObjs st).

Definition with_kvstores (v : list KVStore) (st : State) : State :=
  mkState (_isRunning st) (_isStopped st) (_isShutdowned st) (_sessions st)
    (_monitors st) (_serverStat st) (_netMatrix st) (_poolMatrix st)
    (_reqMatrix st) (_catalog st) v (_segmentMgr st) (_pessimisticMgr st)
    (_mgLockMgr st) (_replMgr st) (_indexMgr st) (_network st)
    (_executorList st) (_cfg st) (_cronThd st) (_slowLog st) (_slowlogId st)
    (sessObjs st).

Definition with_segmentMgr (v : option SegmentMgr) (st : State) : State :=
  mkState (_isRunning st) (_isStopped st) (_isShutdowned st) (_sessions st)
    (_monitors st) (_serverStat st) (_netMatrix st) (_poolMatrix st)
    (_reqMatrix st) (_catalog st) (_kvstores st) v (_pessimisticMgr st)
    (_mgLockMgr st) (_replMgr st) (_indexMgr st) (_network st)
    (_executorList st) (_cfg st) (_cronThd st) (_slowLog st) (_slowlogId st)
    (sessObjs st).

Definition with_pessimisticMgr (v : option PessimisticMgr) (st : State) : State :=
  mkState (_isRunning st) (_isStopped st) (_isShutdowned st) (_sessions st)
    (_monitors st) (_serverStat st) (_netMatrix st) (_poolMatrix st)
    (_reqMatrix st) (_catalog st) (_kvstores st) (_segmentMgr st) v
    (_mgLockMgr st) (_replMgr st) (_indexMgr st) (_network st)
    (_executorList st) (_cfg st) (_cronThd st) (_slowLog st) (_slowlogId st)
    (sessObjs st).

Definition with_mgLockMgr (v : option MGLockMgr) (st : State) : State :=
  mkState (_isRunning st) (_isStopped st) (_isShutdowned st) (_sessions st)
    (_monitors st) (_serverStat st) (_netMatrix st) (_poolMatrix st)
    (_reqMatrix st) (_catalog st) (_kvstores st) (_segmentMgr st)
    (_pessimisticMgr st) v (_replMgr st) (_indexMgr st) (_network st)
    (_executorList st) (_cfg st) (_cronThd st) (_slowLog st) (_slowlogId st)
    (sessObjs st).

Definition with_replMgr (v : option ReplManager) (st : State) : State :=
  mkState (_isRunning st) (_isStopped st) (_isShutdowned st) (_sessions st)
    (_monitors st) (_serverStat st) (_netMatrix st) (_poolMatrix st)
    (_reqMatrix st) (_catalog st) (_kvstores st) (_segmentMgr st)
    (_pessimisticMgr st) (_mgLockMgr st) v (_indexMgr st) (_network st)
    (_executorList st) (_cfg st) (_cronThd st) (_slowLog st) (_slowlogId st)
    (sessObjs st).

Definition with_indexMgr (v : option IndexManager) (st : State) : State :=
  mkState (_isRunning st) (_isStopped st) (_isShutdowned st) (_sessions st)
    (_monitors st) (_serverStat st) (_netMatrix st) (_poolMatrix st)
    (_reqMatrix st) (_catalog st) (_kvstores st) (_segmentMgr st)
    (_pessimisticMgr st) (_mgLockMgr st) (_replMgr st) v (_network st)
    (_executorList st) (_cfg st) (_cronThd st) (_slowLog st) (_slowlogId st)
    (sessObjs st).

Definition with_network (v : option NetworkAsio) (st : State) : State :=
  mkState (_isRunning st) (_isStopped st) (_isShutdowned st) (_sessions st)
    (_monitors st) (_serverStat st) (_netMatrix st) (_poolMatrix st)
    (_reqMatrix st) (_catalog st) (_kvstores st) (_segmentMgr st)
    (_pessimisticMgr st) (_mgLockMgr st) (_replMgr st) (_indexMgr st) v
    (_executorList st) (_cfg st) (_cronThd st) (_slowLog st) (_slowlogId st)
    (sessObjs st).

Definition with_executorList (v : list WorkerPool) (st : State) : State :=
  mkState (_isRunning st) (_isStopped st) (_isShutdowned st) (_sessions st)
    (_monitors st) (_serverStat st) (_netMatrix st) (_poolMatrix st)
    (_reqMatrix st) (_catalog st) (_kvstores st) (_segmentMgr st)
    (_pessimisticMgr st) (_mgLockMgr st) (_replMgr st) (_indexMgr st)
    (_network st) v (_cfg st) (_cronThd st) (_slowLog st) (_slowlogId st)
    (sessObjs st).

Definition with_cronThd (v : bool) (st : State) : State :=
  mkState (_isRunning st) (_isStopped st) (_isShutdowned st) (_sessions st)
    (_monitors st) (_serverStat st) (_netMatrix st) (_poolMatrix st)
    (_reqMatrix st) (_catalog st) (_kvstores st) (_segmentMgr st)
    (_pessimisticMgr st) (_mgLockMgr st) (_replMgr st) (_indexMgr st)
    (_network st) (_executorList st) (_cfg st) v (_slowLog st)
    (_slowlogId st) (sessObjs st).

Definition with_slowLog (v : ofstream) (st : State) : State :=
  mkState (_isRunning st) (_isStopped st) (_isShutdowned st) (_sessions st)
    (_monitors st) (_serverStat st) (_netMatrix st) (_poolMatrix st)
    (_reqMatrix st) (_catalog st) (_kvstores st) (_segmentMgr st)
    (_pessimisticMgr st) (_mgLockMgr st) (_replMgr st) (_indexMgr st)
    (_network st) (_executorList st) (_cfg st) (_cronThd st) v
    (_slowlogId st) (sessObjs st).

Definition with_slowlogId (v : Z) (st : State) : State :=
  mkState (_isRunning st) (_isStopped st) (_isShutdowned st) (_sessions st)
    (_monitors st) (_serverStat st) (_netMatrix st) (_poolMatrix st)
    (_reqMatrix st) (_catalog st) (_kvstores st) (_segmentMgr st)
    (_pessimisticMgr st) (_mgLockMgr st) (_replMgr st) (_indexMgr st)
    (_network st) (_executorList st) (_cfg st) (_cronThd st) (_slowLog st) v
    (sessObjs st).

Definition with_sessObjs (v : N -> Session) (st : State) : State :=
  mkState (_isRunning st) (_isStopped st) (_isShutdowned st) (_sessions st)
    (_monitors st) (_serverStat st) (_netMatrix st) (_poolMatrix st)
    (_reqMatrix st) (_catalog st) (_kvstores st) (_segmentMgr st)
    (_pessimisticMgr st) (_mgLockMgr st) (_replMgr st) (_indexMgr st)
    (_network st) (_executorList st) (_cfg st) (_cronThd st) (_slowLog st)
    (_slowlogId st) v.

Definition with_syncFull (v : Z) (s : ServerStat) : ServerStat :=
  mkServerStat (expiredkeys s) (keyspaceHits s) (keyspaceMisses s)
    (keyspaceIncorrectEp s) (rejectedConn s) v (syncPartialOk s)
    (syncPartialErr s) (netInputBytes s) (netOutputBytes s) (instMetric s).

Definition with_syncPartialOk (v : Z) (s : ServerStat) : ServerStat :=
  mkServerStat (expiredkeys s) (keyspaceHits s) (keyspaceMisses s)
    (keyspaceIncorrectEp s) (rejectedConn s) (syncFull s) v
    (syncPartialErr s) (netInputBytes s) (netOutputBytes s) (instMetric s).

Definition with_syncPartialErr (v : Z) (s : ServerStat) : ServerStat :=
  mkServerStat (expiredkeys s) (keyspaceHits s) (keyspaceMisses s)
    (keyspaceIncorrectEp s) (rejectedConn s) (syncFull s) (syncPartialOk s)
    v (netInputBytes s) (netOutputBytes s) (instMetric s).

(** ** Calls to collaborators

    The calls a method makes into other subsystems, in the order it
    makes them. *)
Inductive event :=
| EvSetNoExpire (b : bool)
| EvChangeCommand (what : string)
| EvSessionStart (p : N)
| EvPrecheck (p : N)
| EvSetResponse (p : N) (r : string)
| EvSetCloseAfterRsp (p : N)
| EvBorrowConn (p : N)
| EvSupplyFullSync (c : socket) (a1 a2 a3 : string)
| EvRegisterIncrSync (c : socket) (a1 a2 a3 a4 a5 : string)
| EvRunSessionCmd (p : N)
| EvGetDb (storeId : Z) (mode : LockMode)
| EvGetStoreMainMeta (id : Z)
| EvSetStoreMainMeta (m : StoreMainMeta)
| EvStoreDestroy (h : nat)
| EvStoreSetMode (h : nat) (m : StoreMode)
| EvReplStopStore (id : Z)
| EvIndexStopStore (id : Z)
| EvExecutorStartup (name : string) (threads : Z)
| EvNetworkPrepare (ip : string) (port : Z) (ioThreads : Z)
| EvReplStartup
| EvIndexStartup
| EvNetworkRun
| EvCronSpawn
| EvSlowlogOpen (path : string).

(** ** The monad of coordinator methods

    A method takes the state and returns its result, the state it
    leaves and the calls it made.  It stops early on a failed
    [INVARIANT], on [LOG(FATAL)], and where C++ leaves the behaviour
    undefined (a null or dangling handle, a division by zero).  Other
    [glog] output is not part of the state. *)
Inductive abort :=
| InvariantFailed
| FatalLogged
| NullPointer
| DanglingHandle
| BadExpectedAccess
| DivisionByZero.

Inductive result (A : Type) :=
| Done (a : A)
| Abort (why : abort).
Arguments Done {A} a.
Arguments Abort {A} why.

Definition M (A : Type) : Type := State -> result A * State * list event.

Global Instance M_ret : MRet M := fun A a st => (Done a, st, []).

Global Instance M_bind : MBind M := fun A B (k : A -> M B) (m : M A) st =>
  match m st with
  | (Done a, st1, e1) =>
      match k a st1 with (r, st2, e2) => (r, st2, e1 ++ e2) end
  | (Abort why, st1, e1) => (Abort why, st1, e1)
  end.

Definition get : M State := fun st => (Done st, st, []).
Definition modify (f : State -> State) : M unit := fun st => (Done tt, f st, []).
Definition emit (e : event) : M unit := fun st => (Done tt, st, [e]).
Definition stop {A} (why : abort) : M A := fun st => (Abort why, st, []).

(** Dereferencing an owning pointer of the coordinator. *)
Definition deref {A} (field : State -> option A) : M A := fun st =>
  match field st with
  | Some a => (Done a, st, [])
  | None => (Abort NullPointer, st, [])
  end.

Fixpoint for_each {A} (f : A -> M unit) (l : list A) : M unit :=
  match l with
  | [] => mret tt
  | x :: rest => f x ;; for_each f rest
  end.

(** ** What the collaborators answer

    The results of the functions this file calls but does not define.
    Pure helpers are functions; [precheck] and [runSessionCmd] may
    change any part of the state; for the other fallible calls the
    class gives the status they report, and the model applies their
    effect exactly when that status is OK. *)
Class Collab := mkCollab {
  Status_toString : Status -> string;
  errorReply : string -> string;
  fmtErr : string -> string;
  fmtOK : string;
  stoul : string -> Expected Z;
  Command_precheck : N -> State -> result (Expected string) * State;
  Command_runSessionCmd : N -> State -> result (Expected string) * State;
  SegmentMgr_getDb : State -> N -> Z -> LockMode -> Expected nat;
  registerIncrSync_ret : ReplManager -> socket -> list string -> bool;
  ReplManager_stopStore_status : ReplManager -> Z -> Status;
  IndexManager_stopStore_status : IndexManager -> Z -> Status;
  KVStore_destroy_status : KVStore -> Status;
  KVStore_setMode_status : KVStore -> StoreMode -> Status;
  Catalog_read_status : Catalog -> Z -> Status;
  Catalog_write_status : Catalog -> StoreMainMeta -> Status;
  Catalog_on_disk : gmap Z StoreMode;
  KVStore_on_disk : Z -> KVStore;
  hardware_concurrency : Z;
  WorkerPool_startup_status : string -> Z -> Status;
  NetworkAsio_prepare_status : string -> Z -> Z -> Status;
  ReplManager_startup_status : Status;
  IndexManager_startup_status : Status;
  NetworkAsio_run_status : Status;
  ofstream_open_ok : string -> bool;
  kbps_text : Z -> string
}.

Definition CRLF : string := String (Ascii.ascii_of_nat 13) (String (Ascii.ascii_of_nat 10) EmptyString).
Definition LF : string := String (Ascii.ascii_of_nat 10) EmptyString.
Definition DQUOTE : string := String (Ascii.ascii_of_nat 34) EmptyString.

Section Coordinator.
Context `{Collab}.

(** *** Session objects *)

Definition sessObj (p : N) : M Session := fun st => (Done (sessObjs st p), st, []).

(** [p->setResponse(r)]. *)
Definition setResponse (p : N) (r : string) : M unit :=
  emit (EvSetResponse p r) ;;
  modify (fun st => with_sessObjs (<[p := Session_setResponse r (sessObjs st p)]> (sessObjs st)) st).

(** [dynamic_cast<NetSession*>(sess)] followed by
    [INVARIANT(ns != nullptr)]. *)
Definition as_NetSession (p : N) : M N :=
  s ← sessObj p;
  match sess_type s with
  | NetSessionT => mret p
  | LocalSessionT => stop InvariantFailed
  end.

Definition setCloseAfterRsp (p : N) : M unit :=
  emit (EvSetCloseAfterRsp p) ;;
  modify (fun st => with_sessObjs (<[p := Session_setCloseAfterRsp (sessObjs st p)]> (sessObjs st)) st).

Definition borrowConn (p : N) : M socket :=
  emit (EvBorrowConn p) ;;
  s ← sessObj p;
  modify (fun st => with_sessObjs (<[p := snd (Session_borrowConn s)]> (sessObjs st)) st) ;;
  mret (fst (Session_borrowConn s)).

(** *** Session registry *)

(** [ServerEntry::addSession]: [sess->start()] comes first, and a
    duplicate id ends in [LOG(FATAL)]. *)
Definition addSession (sess : N) : M bool :=
  st ← get;
  if negb (_isRunning st) then mret false else
  emit (EvSessionStart sess) ;;
  s ← sessObj sess;
  let id := sess_id s in
  match _sessions st !! id with
  | Some _ => stop FatalLogged
  | None =>
      modify (fun st => with_sessions (<[id := sess]> (_sessions st)) st) ;;
      mret true
  end.

(** [ServerEntry::getSessionCount]. *)
Definition getSessionCount (st : State) : nat := size (_sessions st).

(** The loop of [DelMonitorNoLock]: erase the first entry whose
    session has the id, and stop. *)
Fixpoint erase_first_id (objs : N -> Session) (connId : Z) (l : list N) : list N :=
  match l with
  | [] => []
  | m :: rest =>
      if sess_id (objs m) =? connId then rest
      else m :: erase_first_id objs connId rest
  end.

(** [ServerEntry::DelMonitorNoLock]. *)
Definition DelMonitorNoLock (connId : Z) : M unit :=
  modify (fun st => with_monitors (erase_first_id (sessObjs st) connId (_monitors st)) st).

(** [ServerEntry::endSession]: an unknown id ends in [LOG(FATAL)],
    a session without context in a failed [INVARIANT]. *)
Definition endSession (connId : Z) : M unit :=
  st ← get;
  if negb (_isRunning st) then mret tt else
  match _sessions st !! connId with
  | None => stop FatalLogged
  | Some it =>
      s ← sessObj it;
      match sess_ctx s with
      | None => stop InvariantFailed
      | Some pCtx =>
          (if ctx_isMonitor pCtx then DelMonitorNoLock connId else mret tt) ;;
          modify (fun st => with_sessions (delete connId (_sessions st)) st)
      end
  end.

(** [ServerEntry::AddMonitor]: return when a monitor has the id,
    return when the id is not registered, else [push_back]. *)
Definition AddMonitor (sessId : Z) : M unit :=
  st ← get;
  if existsb (fun monSess => sess_id (sessObjs st monSess) =? sessId) (_monitors st)
  then mret tt
  else
    match _sessions st !! sessId with
    | None => mret tt
    | Some it => modify (fun st => with_monitors (_monitors st ++ [it]) st)
    end.

(** *** Monitor fan-out *)

(** The loop of [replyMonitors] over the arguments: each one in
    double quotes, a space after each but the last. *)
Fixpoint quoteArgs (args : list string) : string :=
  match args with
  | [] => EmptyString
  | a :: rest =>
      DQUOTE +:+ a +:+ DQUOTE +:+
      (match rest with [] => EmptyString | _ => " " end) +:+ quoteArgs rest
  end.

Definition monitorLine (timestamp dbId : Z) (remote : string)
    (args : list string) : string :=
  "+" +:+ to_string (timestamp / 1000000) +:+ "." +:+
  to_string (timestamp mod 1000000) +:+
  " [" +:+ to_string dbId +:+ " " +:+ remote +:+ "] " +:+
  quoteArgs args +:+ CRLF.

(** [ServerEntry::replyMonitors]; [now_us] is the reading of the
    system clock in microseconds. *)
Definition replyMonitors (now_us : Z) (sess : N) : M unit :=
  st ← get;
  if (length (_monitors st) <=? 0)%nat then mret tt else
  s ← sessObj sess;
  match sess_ctx s with
  | None => stop InvariantFailed
  | Some pCtx =>
      let info := monitorLine (wrap64 now_us) (ctx_dbId pCtx)
                    (sess_remote s) (sess_args s) in
      st' ← get;
      for_each (fun it => setResponse it info) (_monitors st')
  end.

(** *** Calls into the command layer and the replication manager *)

Definition precheck (sess : N) : M (Expected string) := fun st =>
  match Command_precheck sess st with
  | (r, st') => (r, st', [EvPrecheck sess])
  end.

Definition runSessionCmd (sess : N) : M (Expected string) := fun st =>
  match Command_runSessionCmd sess st with
  | (r, st') => (r, st', [EvRunSessionCmd sess])
  end.

(** [_replMgr->supplyFullSync(conn, a1, a2, a3)]: the manager now owns
    the socket. *)
Definition supplyFullSync (c : socket) (a1 a2 a3 : string) : M unit :=
  r ← deref _replMgr;
  emit (EvSupplyFullSync c a1 a2 a3) ;;
  modify (with_replMgr (Some (mkReplManager (repl_conns r ++ [c]) (repl_stopped r)))).

(** [_replMgr->registerIncrSync(conn, a1, ..., a5)]. *)
Definition registerIncrSync (c : socket) (a1 a2 a3 a4 a5 : string) : M bool :=
  r ← deref _replMgr;
  emit (EvRegisterIncrSync c a1 a2 a3 a4 a5) ;;
  modify (with_replMgr (Some (mkReplManager (repl_conns r ++ [c]) (repl_stopped r)))) ;;
  mret (registerIncrSync_ret r c [a1; a2; a3; a4; a5]).

Definition incrStat (rd : ServerStat -> Z) (wr : Z -> ServerStat -> ServerStat) : M unit :=
  modify (fun st => with_serverStat (wr (add64 (rd (_serverStat st)) 1) (_serverStat st)) st).

(** *** The request dispatcher *)

(** [ServerEntry::processRequest].  [logGeneral] only writes to the
    log; [now_us] is the clock reading of the fan-out. *)
Definition processRequest (now_us : Z) (sess : N) : M bool :=
  st ← get;
  if negb (_isRunning st) then mret false else
  expCmdName ← precheck sess;
  match expCmdName with
  | Unexpected status =>
      setResponse sess (errorReply (Status_toString status)) ;;
      mret true
  | Value name =>
      replyMonitors now_us sess ;;
      if String.eqb name "fullsync" then
        ns ← as_NetSession sess;
        s ← sessObj ns;
        match sess_args s with
        | [_; a1; a2; a3] =>
            c ← borrowConn ns;
            supplyFullSync c a1 a2 a3 ;;
            incrStat syncFull with_syncFull ;;
            mret false
        | _ => stop InvariantFailed
        end
      else if String.eqb name "incrsync" then
        ns ← as_NetSession sess;
        s ← sessObj ns;
        match sess_args s with
        | [_; a1; a2; a3; a4; a5] =>
            c ← borrowConn ns;
            ret ← registerIncrSync c a1 a2 a3 a4 a5;
            (if ret : bool then incrStat syncPartialOk with_syncPartialOk
             else incrStat syncPartialErr with_syncPartialErr) ;;
            mret false
        | _ => stop InvariantFailed
        end
      else if String.eqb name "quit" then
        ns ← as_NetSession sess;
        setCloseAfterRsp ns ;;
        setResponse ns fmtOK ;;
        mret true
      else
        expect ← runSessionCmd sess;
        match expect with
        | Unexpected status =>
            setResponse sess (fmtErr (Status_toString status)) ;;
            mret true
        | Value v =>
            setResponse sess v ;;
            mret true
        end
  end.

(** *** INFO statistics *)

(** Modelled from the spec: the metric indices [STATS_METRIC_COMMAND],
    [STATS_METRIC_NET_INPUT] and [STATS_METRIC_NET_OUTPUT] are the three
    sampled rates, declared in [server_entry.h]. *)
Definition STATS_METRIC_COMMAND : nat := 0.
Definition STATS_METRIC_NET_INPUT : nat := 1.
Definition STATS_METRIC_NET_OUTPUT : nat := 2.
Definition STATS_METRIC_COUNT : nat := 3.

(** The lines [getStatInfo] writes, as pairs of key and printed value;
    [kbps_text x] is what the stream prints for
    [static_cast<float>(x)/1024].  [None] only when [instMetric] lacks
    one of the three metrics. *)
Definition statInfoLines (st : State) : option (list (string * string)) :=
  let net := _netMatrix st in
  let pool := _poolMatrix st in
  let req := _reqMatrix st in
  let stat := _serverStat st in
  ops ← getInstantaneousMetric STATS_METRIC_COMMAND stat;
  inp ← getInstantaneousMetric STATS_METRIC_NET_INPUT stat;
  outp ← getInstantaneousMetric STATS_METRIC_NET_OUTPUT stat;
  let executed0 := processed req in
  let allCost := add64 (add64 (executeTime pool) (queueTime pool)) (sendPacketCost req) in
  let divisor := if executed0 =? 0 then 1 else executed0 in
  Some
  [ ("total_connections_received", to_string (connCreated net));
    ("total_connections_released", to_string (connReleased net));
    ("total_commands_processed", to_string executed0);
    ("instantaneous_ops_per_sec", to_string ops);
    ("total_commands_cost(ns)", to_string allCost);
    ("total_commands_workpool_queue_cost(ns)", to_string (queueTime pool));
    ("total_commands_workpool_execute_cost(ns)", to_string (executeTime pool));
    ("total_commands_send_packet_cost(ns)", to_string (sendPacketCost req));
    ("total_commands_execute_cost(ns)", to_string (processCost req));
    ("avg_commands_cost(ns)", to_string (allCost / divisor));
    ("avg_commands_workpool_queue_cost(ns)", to_string (queueTime pool / divisor));
    ("avg_commands_workpool_execute_cost(ns)", to_string (executeTime pool / divisor));
    ("avg_commands_send_packet_cost(ns)", to_string (sendPacketCost req / divisor));
    ("avg_commands_execute_cost(ns)", to_string (processCost req / divisor));
    ("commands_in_queue", to_string (inQueue pool));
    ("commands_executed_in_workpool", to_string (executed pool));
    ("total_stricky_packets", to_string (stickyPackets net));
    ("total_invalid_packets", to_string (invalidPackets net));
    ("total_net_input_bytes", to_string (netInputBytes stat));
    ("total_net_output_bytes", to_string (netOutputBytes stat));
    ("instantaneous_input_kbps", kbps_text inp);
    ("instantaneous_output_kbps", kbps_text outp);
    ("rejected_connections", to_string (rejectedConn stat));
    ("sync_full", to_string (syncFull stat));
    ("sync_partial_ok", to_string (syncPartialOk stat));
    ("sync_partial_err", to_string (syncPartialErr stat));
    ("keyspace_hits", to_string (keyspaceHits stat));
    ("keyspace_misses", to_string (keyspaceMisses stat));
    ("keyspace_wrong_versionep", to_string (keyspaceIncorrectEp stat)) ].

Definition renderLine (kv : string * string) : string :=
  fst kv +:+ ":" +:+ snd kv +:+ CRLF.

(** [ServerEntry::getStatInfo]: the text appended to the stream. *)
Definition getStatInfo (st : State) : option string :=
  lines ← statInfoLines st;
  Some (foldr (fun kv acc => renderLine kv +:+ acc) EmptyString lines).

(** The value printed for a key. *)
Fixpoint field (key : string) (lines : list (string * string)) : option string :=
  match lines with
  | [] => None
  | (k, v) :: rest => if String.eqb k key then Some v else field key rest
  end.

(** *** Catalog, stores and managers *)

(** [getCatalog()->getStoreMainMeta(id)]. *)
Definition getStoreMainMeta (id : Z) : M (Expected StoreMainMeta) :=
  c ← deref _catalog;
  emit (EvGetStoreMainMeta id) ;;
  let s := Catalog_read_status c id in
  if negb (Status_ok s) then mret (Unexpected s) else
  match cat_metas c !! id with
  | Some m => mret (Value (mkStoreMainMeta id m))
  | None => mret (Unexpected (mkStatus ERR_NOTFOUND EmptyString))
  end.

(** [getCatalog()->setStoreMainMeta(meta)]. *)
Definition setStoreMainMeta (meta : StoreMainMeta) : M Status :=
  c ← deref _catalog;
  emit (EvSetStoreMainMeta meta) ;;
  let s := Catalog_write_status c meta in
  (if Status_ok s
   then modify (with_catalog (Some (mkCatalog
                  (<[meta_id meta := storeMode meta]> (cat_metas c))
                  (cat_kvStoreCount c) (cat_chunkSize c))))
   else mret tt) ;;
  mret s.

(** The store object behind a [PStore] handle: its position in
    [_kvstores]. *)
Definition storeObj (h : nat) : M KVStore := fun st =>
  match _kvstores st !! h with
  | Some s => (Done s, st, [])
  | None => (Abort DanglingHandle, st, [])
  end.

(** [store->destroy()]. *)
Definition KVStore_destroy (h : nat) : M Status :=
  s ← storeObj h;
  emit (EvStoreDestroy h) ;;
  let status := KVStore_destroy_status s in
  (if Status_ok status
   then modify (fun st => with_kvstores
                  (<[h := mkKVStore (dbId s) STORE_NONE (store_paused s)
                            (store_empty s) true]> (_kvstores st)) st)
   else mret tt) ;;
  mret status.

(** [store->setMode(mode)]. *)
Definition KVStore_setMode (h : nat) (mode : StoreMode) : M Status :=
  s ← storeObj h;
  emit (EvStoreSetMode h mode) ;;
  let status := KVStore_setMode_status s mode in
  (if Status_ok status
   then modify (fun st => with_kvstores
                  (<[h := mkKVStore (dbId s) mode (store_paused s)
                            (store_empty s) (store_destroyed s)]> (_kvstores st)) st)
   else mret tt) ;;
  mret status.

(** [getSegmentMgr()->getDb(sess, storeId, mode)], reduced to the
    store handle of the result. *)
Definition getDb (sess : N) (storeId : Z) (mode : LockMode) : M (Expected nat) :=
  _ ← deref _segmentMgr;
  emit (EvGetDb storeId mode) ;;
  st ← get;
  mret (SegmentMgr_getDb st sess storeId mode).

(** [_replMgr->stopStore(storeId)]. *)
Definition ReplManager_stopStore (storeId : Z) : M Status :=
  r ← deref _replMgr;
  emit (EvReplStopStore storeId) ;;
  let status := ReplManager_stopStore_status r storeId in
  (if Status_ok status
   then modify (with_replMgr (Some (mkReplManager (repl_conns r) (repl_stopped r ++ [storeId]))))
   else mret tt) ;;
  mret status.

(** [_indexMgr->stopStore(storeId)]. *)
Definition IndexManager_stopStore (storeId : Z) : M Status :=
  r ← deref _indexMgr;
  emit (EvIndexStopStore storeId) ;;
  let status := IndexManager_stopStore_status r storeId in
  (if Status_ok status
   then modify (with_indexMgr (Some (mkIndexManager (index_stopped r ++ [storeId]))))
   else mret tt) ;;
  mret status.

(** *** Store lifecycle *)

(** [ServerEntry::destroyStore].  The branch on [READ_WRITE] is
    empty in the source, and [INVARIANT_D] is compiled in debug builds
    only. *)
Definition destroyStore (sess : N) (storeId : Z) (isForce : bool) : M Status :=
  expdb ← getDb sess storeId LOCK_X;
  match expdb with
  | Unexpected status => mret status
  | Value store =>
      s ← storeObj store;
      if negb isForce && negb (store_empty s)
      then mret (mkStatus ERR_INTERNAL "try to close an unempty store")
      else if negb (store_paused s)
      then mret (mkStatus ERR_INTERNAL "please pausestore first before destroystore")
      else
        meta ← getStoreMainMeta storeId;
        match meta with
        | Unexpected status => mret status
        | Value m =>
            status ← setStoreMainMeta (mkStoreMainMeta (meta_id m) STORE_NONE);
            if negb (Status_ok status) then mret status else
            status ← KVStore_destroy store;
            if negb (Status_ok status) then mret status else
            status ← ReplManager_stopStore storeId;
            if negb (Status_ok status) then mret status else
            status ← IndexManager_stopStore storeId;
            mret status
        end
  end.

(** [ServerEntry::setStoreMode].  A failing [setMode] ends in
    [LOG(FATAL)]; [meta.value()] on a failed read has no value to
    give. *)
Definition setStoreMode (store : nat) (mode : StoreMode) : M Status :=
  s ← storeObj store;
  if decide (store_mode s = mode) then mret OK else
  status ← KVStore_setMode store mode;
  if negb (Status_ok status) then stop FatalLogged else
  s' ← storeObj store;
  match stoul (dbId s') with
  | Unexpected status => mret status
  | Value storeId =>
      meta ← getStoreMainMeta storeId;
      match meta with
      | Unexpected _ => stop BadExpectedAccess
      | Value m => setStoreMainMeta (mkStoreMainMeta (meta_id m) mode)
      end
  end.

(** *** Slow log *)

Definition slowPut (s : string) : M unit :=
  modify (fun st => with_slowLog
            (mkOfstream (os_path (_slowLog st)) (os_out (_slowLog st) ++ [Put s])) st).

Definition slowFlush : M unit :=
  modify (fun st => with_slowLog
            (mkOfstream (os_path (_slowLog st)) (os_out (_slowLog st) ++ [Flush])) st).

(** [ServerEntry::initSlowlog]. *)
Definition initSlowlog (logPath : string) : M Status :=
  emit (EvSlowlogOpen logPath) ;;
  if ofstream_open_ok logPath
  then modify (fun st => with_slowLog (mkOfstream (Some logPath) (os_out (_slowLog st))) st) ;;
       mret OK
  else mret (mkStatus ERR_INTERNAL ("open:" +:+ logPath +:+ " failed")).

(** [ServerEntry::slowlogPushEntryIfNeeded].  One [slowPut] per
    statement of the source; taking the remainder by a zero flush
    interval is undefined. *)
Definition slowlogPushEntryIfNeeded (time duration : Z) (args : list string) : M unit :=
  cfg ← deref _cfg;
  if slowlogLogSlowerThan cfg <? duration then
    st ← get;
    slowPut ("#Id: " +:+ to_string (_slowlogId st) +:+ LF) ;;
    slowPut ("#Time: " +:+ to_string time +:+ LF) ;;
    slowPut ("#Query_time: " +:+ to_string duration +:+ LF) ;;
    for_each (fun a => slowPut (a +:+ " ")) args ;;
    slowPut LF ;;
    slowPut ("#argc: " +:+ to_string (Z.of_nat (length args)) +:+ LF +:+ LF) ;;
    (if slowlogFlushInterval cfg =? 0 then stop DivisionByZero
     else if _slowlogId st mod slowlogFlushInterval cfg =? 0 then slowFlush
     else mret tt) ;;
    modify (fun st => with_slowlogId (add64 (_slowlogId st) 1) st)
  else mret tt.

(** The text a sequence of stream operations inserts, and the number
    of its flushes. *)
Fixpoint stream_text (ops : list stream_op) : string :=
  match ops with
  | [] => EmptyString
  | Put s :: rest => s +:+ stream_text rest
  | Flush :: rest => stream_text rest
  end.

(** The slow-log record of the specification:
    [#Id: <n>\n#Time: <t>\n#Query_time: <d>\n<arg0> <arg1> ...\n#argc: <k>\n\n],
    every argument followed by one space. *)
Definition slowlogRecord (n t d : Z) (args : list string) : string :=
  "#Id: " +:+ to_string n +:+ LF +:+
  "#Time: " +:+ to_string t +:+ LF +:+
  "#Query_time: " +:+ to_string d +:+ LF +:+
  foldr (fun a acc => a +:+ " " +:+ acc) EmptyString args +:+ LF +:+
  "#argc: " +:+ to_string (Z.of_nat (length args)) +:+ LF +:+ LF.

(** The insertions of one record, statement by statement. *)
Definition recordPuts (n t d : Z) (args : list string) : list stream_op :=
  [Put ("#Id: " +:+ to_string n +:+ LF);
   Put ("#Time: " +:+ to_string t +:+ LF);
   Put ("#Query_time: " +:+ to_string d +:+ LF)] ++
  map (fun a => Put (a +:+ " ")) args ++
  [Put LF; Put ("#argc: " +:+ to_string (Z.of_nat (length args)) +:+ LF +:+ LF)].

Fixpoint stream_flushes (ops : list stream_op) : nat :=
  match ops with
  | [] => O
  | Put _ :: rest => stream_flushes rest
  | Flush :: rest => S (stream_flushes rest)
  end.

(** *** Construction and startup *)

(** [ServerEntry::ServerEntry(cfg)]: nothing installed, not running,
    stopped.  [objs] are the session objects of the process. *)
Definition newServerEntry (cfg : ServerParams) (objs : N -> Session) : State :=
  mkState false true false ∅ []
    (mkServerStat 0 0 0 0 0 0 0 0 0 0 (replicate STATS_METRIC_COUNT zeroInstMetric))
    (mkNetworkMatrix 0 0 0 0) (mkPoolMatrix 0 0 0 0) (mkRequestMatrix 0 0 0)
    None [] None None None None None None [] (Some cfg) false
    (mkOfstream None []) 0 objs.

(** The store loop of [startup]: read the mode of shard [i] from the
    catalog, write the default when the record is absent, and open the
    shard in that mode. *)
Fixpoint openStores (ids : list nat) : M (list KVStore) :=
  match ids with
  | [] => mret []
  | i :: rest =>
      meta ← getStoreMainMeta (Z.of_nat i);
      mode ← match meta with
             | Value m => mret (storeMode m)
             | Unexpected status =>
                 match code status with
                 | ERR_NOTFOUND =>
                     s ← setStoreMainMeta (mkStoreMainMeta (Z.of_nat i) READ_WRITE);
                     if negb (Status_ok s) then stop FatalLogged
                     else mret READ_WRITE
                 | _ => stop FatalLogged
                 end
             end;
      let disk := KVStore_on_disk (Z.of_nat i) in
      let store := mkKVStore (to_string (Z.of_nat i)) mode (store_paused disk)
                     (store_empty disk) (store_destroyed disk) in
      tmpStores ← openStores rest;
      mret (store :: tmpStores)
  end.

(** The executor loop of [startup]: pool [i] is named
    [req-exec-<i>] and started with one thread; the first failure ends
    the loop with its status. *)
Fixpoint startExecutors (ids : list nat) : M Status :=
  match ids with
  | [] => mret OK
  | i :: rest =>
      let name := "req-exec-" +:+ to_string (Z.of_nat i) in
      emit (EvExecutorStartup name 1) ;;
      let s := WorkerPool_startup_status name 1 in
      if negb (Status_ok s) then mret s else
      modify (fun st => with_executorList (_executorList st ++ [mkWorkerPool name 1]) st) ;;
      startExecutors rest
  end.

(** The number of pools [startup] asks for. *)
Definition executorCount (cfg : ServerParams) (cpuNum : Z) : Z :=
  let threadnum := wrap32 (Z.max 4 (cpuNum / 2)) in
  if negb (executorThreadNum cfg =? 0) then executorThreadNum cfg else threadnum.

(** [ServerEntry::startup].  The catalog found on disk is
    [Catalog_on_disk]; the block cache has no state of its own here,
    and [INVARIANT_D] is compiled in debug builds only. *)
Definition startup (cfg : ServerParams) : M Status :=
  emit (EvSetNoExpire (noexpire cfg)) ;;
  emit (EvChangeCommand "rename") ;;
  emit (EvChangeCommand "mapping") ;;
  modify (with_catalog (Some (mkCatalog Catalog_on_disk (kvStoreCount cfg) (chunkSize cfg)))) ;;
  tmpStores ← openStores (seq 0 (Z.to_nat (kvStoreCount cfg)));
  modify (with_kvstores tmpStores) ;;
  modify (with_segmentMgr (Some (mkSegmentMgr (length tmpStores) (chunkSize cfg)))) ;;
  modify (with_pessimisticMgr (Some (mkPessimisticMgr (kvStoreCount cfg)))) ;;
  modify (with_mgLockMgr (Some mkMGLockMgr)) ;;
  let cpuNum := hardware_concurrency in
  if cpuNum =? 0
  then mret (mkStatus ERR_INTERNAL "cpu num cannot be detected")
  else
    s ← startExecutors (seq 0 (Z.to_nat (executorCount cfg cpuNum)));
    if negb (Status_ok s) then mret s else
    modify (with_network (Some (mkNetworkAsio EmptyString 0 0 false))) ;;
    emit (EvNetworkPrepare (bindIp cfg) (port cfg) (netIoThreadNum cfg)) ;;
    let s := NetworkAsio_prepare_status (bindIp cfg) (port cfg) (netIoThreadNum cfg) in
    if negb (Status_ok s) then mret s else
    modify (with_network (Some (mkNetworkAsio (bindIp cfg) (port cfg) (netIoThreadNum cfg) false))) ;;
    modify (with_replMgr (Some (mkReplManager [] []))) ;;
    emit EvReplStartup ;;
    let s := ReplManager_startup_status in
    if negb (Status_ok s) then mret s else
    s ← (if negb (noexpire cfg)
         then modify (with_indexMgr (Some (mkIndexManager []))) ;;
              emit EvIndexStartup ;;
              mret IndexManager_startup_status
         else mret OK);
    if negb (Status_ok s) then mret s else
    emit EvNetworkRun ;;
    let s := NetworkAsio_run_status in
    if negb (Status_ok s) then mret s else
    modify (with_network (Some (mkNetworkAsio (bindIp cfg) (port cfg) (netIoThreadNum cfg) true))) ;;
    modify (with_isRunning true) ;;
    modify (with_isStopped false) ;;
    emit EvCronSpawn ;;
    modify (with_cronThd true) ;;
    initSlowlog (slowlogPath cfg) ;;
    mret OK.

End Coordinator.

(** ** Invariants of the session registry *)

(** The id of the session a monitor entry points to. *)
Definition mon_id (st : State) (m : N) : Z := sess_id (sessObjs st m).

(** [_sessions] files every session under its own id. *)
Definition keyed_by_id (st : State) : Prop :=
  forall k p, _sessions st !! k = Some p -> sess_id (sessObjs st p) = k.

(** The monitor list is duplicate-free by session id. *)
Definition monitors_nodup (st : State) : Prop :=
  NoDup (mon_id st <$> _monitors st).

(** Every monitor is the session registered under its id. *)
Definition monitors_registered (st : State) : Prop :=
  forall m, m ∈ _monitors st -> _sessions st !! mon_id st m = Some m.

(** For every [m] in the monitor list, [m.id] is a key of the session
    map. *)
Definition monitors_subset (st : State) : Prop :=
  forall m, m ∈ _monitors st -> is_Some (_sessions st !! mon_id st m).

Definition registry_inv (st : State) : Prop :=
  keyed_by_id st /\ monitors_nodup st /\ monitors_registered st.


(** ** The monitor fan-out as a function on the session objects *)

(** The session objects after [info] was appended to the response
    buffer of every entry of [ms], in order. *)
Definition broadcast (info : string) (ms : list N) (objs : N -> Session)
    : N -> Session :=
  foldl (fun o m => <[m := Session_setResponse info (o m)]> o) objs ms.

(** Two session objects that differ at most in their response
    buffers. *)
Definition same_but_resp (a b : Session) : Prop :=
  sess_id a = sess_id b /\ sess_type a = sess_type b /\
  sess_remote a = sess_remote b /\ sess_ctx a = sess_ctx b /\
  sess_args a = sess_args b /\ sess_closeAfterRsp a = sess_closeAfterRsp b /\
  sess_sock a = sess_sock b.

(** The strings of [l] separated by [sep]. *)
Fixpoint sepBy (sep : string) (l : list string) : string :=
  match l with
  | [] => EmptyString
  | [a] => a
  | a :: rest => a +:+ sep +:+ sepBy sep rest
  end.

(** What may come first after the fan-out: the socket is borrowed, the
    session is marked for closing, or the command is handed to the
    worker pools. *)
Definition starts_dispatch (sess : N) (rest : list event) : Prop :=
  match rest with
  | [] => False
  | e :: _ =>
      e = EvBorrowConn sess \/ e = EvSetCloseAfterRsp sess \/ e = EvRunSessionCmd sess
  end.

(** The session objects [processRequest] leaves in [st'] when its
    dispatcher went to work on [st2], the state after the fan-out.  The
    replication commands move the socket out of the issuing session;
    [quit] marks it for closing and appends the OK reply; any other
    command is run on [st2], and the reply is appended to what the
    command left of the issuing session.  No other session object is
    written by the dispatcher. *)
Definition dispatched `{Collab} (name : string) (sess : N) (st2 st' : State) : Prop :=
  if String.eqb name "fullsync" || String.eqb name "incrsync" then
    sessObjs st' sess = snd (Session_borrowConn (sessObjs st2 sess)) /\
    (forall p, p <> sess -> sessObjs st' p = sessObjs st2 p)
  else if String.eqb name "quit" then
    sessObjs st' sess =
      Session_setResponse fmtOK (Session_setCloseAfterRsp (sessObjs st2 sess)) /\
    (forall p, p <> sess -> sessObjs st' p = sessObjs st2 p)
  else
    exists r3 st3,
      Command_runSessionCmd sess st2 = (r3, st3) /\
      sessObjs st' sess =
        match r3 with
        | Done (Value v) => Session_setResponse v (sessObjs st3 sess)
        | Done (Unexpected status) =>
            Session_setResponse (fmtErr (Status_toString status)) (sessObjs st3 sess)
        | Abort _ => sessObjs st3 sess
        end /\
      (forall p, p <> sess -> sessObjs st' p = sessObjs st3 p).

(** The calls of a complete [destroyStore], in order. *)
Definition destroyCalls (storeId : Z) (h : nat) : list event :=
  [EvGetDb storeId LOCK_X;
   EvGetStoreMainMeta storeId;
   EvSetStoreMainMeta (mkStoreMainMeta storeId STORE_NONE);
   EvStoreDestroy h;
   EvReplStopStore storeId;
   EvIndexStopStore storeId].


(** The worker pool the specification asks for at position [i]. *)
Definition poolAt (i : nat) : WorkerPool :=
  mkWorkerPool ("req-exec-" +:+ to_string (Z.of_nat i)) 1.

(** The [WorkerPool::startup] calls among the calls of a run, in
    order: the name of the pool and the number of threads asked for. *)
Definition executorStartups (evs : list event) : list (string * Z) :=
  omap (fun e => match e with
                 | EvExecutorStartup name threads => Some (name, threads)
                 | _ => None
                 end) evs.

(** [startup(1)] on each of the pools [req-exec-0], ...,
    [req-exec-<k-1>]. *)
Definition oneThreadStartups (k : nat) : list (string * Z) :=
  (fun i => ("req-exec-" +:+ to_string (Z.of_nat i), 1)) <$> seq 0 k.

(** ** A concrete deployment

    Collaborators that always succeed, used to run the model on
    concrete requests. *)

Definition demo_stoul (s : string) : Expected Z :=
  if String.eqb s "0" then Value 0
  else if String.eqb s "1" then Value 1
  else if String.eqb s "2" then Value 2
  else Unexpected (mkStatus ERR_INTERNAL "not a number").

Definition demo_precheck (p : N) (st : State) : result (Expected string) * State :=
  match sess_args (sessObjs st p) with
  | name :: _ => (Done (Value name), st)
  | [] => (Done (Unexpected (mkStatus ERR_INTERNAL "empty command")), st)
  end.

Definition demo_getDb (st : State) (p : N) (storeId : Z) (mode : LockMode) : Expected nat :=
  if (0 <=? storeId) && (storeId <? Z.of_nat (length (_kvstores st)))
  then Value (Z.to_nat storeId)
  else Unexpected (mkStatus ERR_INTERNAL "invalid instance id").

Definition demoCollab : Collab :=
  mkCollab
    msg
    (fun s => "-ERR " +:+ s +:+ CRLF)
    (fun s => "-ERR " +:+ s +:+ CRLF)
    ("+OK" +:+ CRLF)
    demo_stoul
    demo_precheck
    (fun p st => (Done (Value ("+PONG" +:+ CRLF)), st))
    demo_getDb
    (fun _ _ _ => true)
    (fun _ _ => OK)
    (fun _ _ => OK)
    (fun _ => OK)
    (fun _ _ => OK)
    (fun _ _ => OK)
    (fun _ _ => OK)
    ∅
    (fun _ => mkKVStore EmptyString READ_WRITE false true false)
    8
    (fun _ _ => OK)
    (fun _ _ _ => OK)
    OK OK OK
    (fun _ => true)
    (fun x => to_string (x / 1024)).

Definition demoCfg : ServerParams :=
  mkServerParams 3 16 false 0 "127.0.0.1" 6379 2 false "slowlog" 1000 1000.

(** A network session with the given id and arguments. *)
Definition demoSession (id : Z) (args : list string) : Session :=
  mkSession id NetSessionT "10.0.0.7:51234" (Some (mkSessionCtx 0 false)) args
    EmptyString false (Socket id).

(** The session objects of the scenario: address [n] holds session
    [n]; session 1 sends [FULLSYNC], session 2 [INCRSYNC], session 3
    [QUIT], session 4 [SET], and the others [PING]. *)
Definition demoObjs (p : N) : Session :=
  let id := Z.of_N p in
  if (p =? 1)%N then demoSession id ["fullsync"; "0"; "10.0.0.7"; "6380"]
  else if (p =? 2)%N then demoSession id ["incrsync"; "0"; "7"; "42"; "10.0.0.7"; "6380"]
  else if (p =? 3)%N then demoSession id ["quit"]
  else if (p =? 4)%N then demoSession id ["SET"; "x"; "1"]
  else demoSession id ["PING"].

(** The state after a successful startup of the scenario. *)
Definition demoRunning : State :=
  snd (fst (@startup demoCollab demoCfg (newServerEntry demoCfg demoObjs))).

(** A sampler that last saw the counter at 100, a millisecond clock of
    1000000, and sits at ring position 0. *)
Definition demoMetric : InstMetric :=
  mkInstMetric 1000000 100 (replicate 16 0) 0.

Definition demoStat : ServerStat :=
  mkServerStat 0 0 0 0 0 0 0 0 0 0 [demoMetric; zeroInstMetric; zeroInstMetric].

(** Session 6 has sent [MONITOR]: its context is flagged, and it is
    on the monitor list; session 4 is an ordinary client. *)
Definition demoMonitorObjs : N -> Session :=
  <[6%N := mkSession 6 NetSessionT "10.0.0.9:40000" (Some (mkSessionCtx 0 true))
             ["monitor"] EmptyString false (Socket 6)]> demoObjs.

Definition demoMonitoring : State :=
  with_monitors [6%N]
    (with_sessions (<[4 := 4%N]> (<[6 := 6%N]> ∅))
       (with_sessObjs demoMonitorObjs demoRunning)).

(** Shard 2 paused and holding data. *)
Definition demoPaused : State :=
  with_kvstores (<[2%nat := mkKVStore "2" READ_WRITE true false false]> (_kvstores demoRunning))
    demoRunning.

(** ** Further methods of the coordinator

    The methods of [server_entry.cpp] beyond the dispatcher, the store
    lifecycle and startup: repeated sampling, the cron gate, session
    cancellation, the aggregated shard queries and shutdown. *)

Definition with_isShutdowned (v : bool) (st : State) : State :=
  mkState (_isRunning st) (_isStopped st) v (_sessions st) (_monitors st)
    (_serverStat st) (_netMatrix st) (_poolMatrix st) (_reqMatrix st)
    (_catalog st) (_kvstores st) (_segmentMgr st) (_pessimisticMgr st)
    (_mgLockMgr st) (_replMgr st) (_indexMgr st) (_network st)
    (_executorList st) (_cfg st) (_cronThd st) (_slowLog st) (_slowlogId st)
    (sessObjs st).

(** *** Repeated sampling *)

(** Successive calls of [trackInstantaneousMetric] on one metric, as
    the cron thread makes them.  A tick holds the counter reading and
    the two clock readings of one call. *)
Fixpoint trackMany (metric : nat) (ticks : list (Z * Z * Z)) (s : ServerStat)
    : option ServerStat :=
  match ticks with
  | [] => Some s
  | (reading, now1, now2) :: rest =>
      s' ← trackInstantaneousMetric metric reading now1 now2 s;
      trackMany metric rest s'
  end.

(** Ticks at a constant pace: every call finds the counter [ops]
    above the last recorded reading and the clock [t] milliseconds
    after the last recorded time ([count] and [time] are the values
    recorded before the first tick). *)
Fixpoint steady (ops t count time : Z) (ticks : list (Z * Z * Z)) : Prop :=
  match ticks with
  | [] => True
  | (reading, now1, now2) :: rest =>
      sub64 reading count = ops /\ sub64 now1 time = t /\
      steady ops t reading now2 rest
  end.

(** *** The cron gate *)

(** [auto interval = 100ms; uint64_t hz = 1000ms / interval]. *)
Definition cron_interval_ms : Z := 100.
Definition cron_hz : Z := 1000 / cron_interval_ms.

(** The condition of the macro [run_with_period(_ms_)]:
    [(_ms_ <= 1000/hz) || !(cronLoop%((_ms_)/(1000/hz)))].  The
    remainder is evaluated only when the first disjunct is false. *)
Definition run_with_period (cronLoop ms : Z) : bool :=
  (ms <=? 1000 / cron_hz) || (cronLoop mod (ms / (1000 / cron_hz)) =? 0).

(** The locals of [serverCron]: the tick counter and the snapshots of
    the three matrices. *)
Record CronThread := mkCronThread {
  cronLoop : Z;
  oldNetMatrix : NetworkMatrix;
  oldPoolMatrix : PoolMatrix;
  oldReqMatrix : RequestMatrix
}.

(** [serverCron] before its loop. *)
Definition serverCron_enter (st : State) : CronThread :=
  mkCronThread 0 (_netMatrix st) (_poolMatrix st) (_reqMatrix st).

(** The body of the loop of [serverCron] once [wait_for] has timed out
    on a running server.  [ftmcEnabled] is the value read from
    [_ftmcEnabled]; [a], [b] and [c] are the pairs of clock readings of
    the three calls of [trackInstantaneousMetric].  The deltas of the
    matrices only go to the log.  [None] as for
    [trackInstantaneousMetric]. *)
Definition serverCron_body (ftmcEnabled : bool) (a b c : Z * Z)
    (cron : CronThread) (st : State) : option (State * CronThread) :=
  stat ← (if run_with_period (cronLoop cron) 100 then
            s1 ← trackInstantaneousMetric STATS_METRIC_COMMAND
                   (processed (_reqMatrix st)) (fst a) (snd a) (_serverStat st);
            s2 ← trackInstantaneousMetric STATS_METRIC_NET_INPUT
                   (netInputBytes s1) (fst b) (snd b) s1;
            trackInstantaneousMetric STATS_METRIC_NET_OUTPUT
              (netOutputBytes s2) (fst c) (snd c) s2
          else Some (_serverStat st));
  let collect := run_with_period (cronLoop cron) 1000 && ftmcEnabled in
  Some (with_serverStat stat st,
        mkCronThread (add64 (cronLoop cron) 1)
          (if collect then _netMatrix st else oldNetMatrix cron)
          (if collect then _poolMatrix st else oldPoolMatrix cron)
          (if collect then _reqMatrix st else oldReqMatrix cron)).

(** *** Sessions and shards as seen by the remaining methods *)

(** What sessions and shards answer to the calls of the methods below:
    [Session::cancel] returns a status and may change the session;
    [getIntProperty] and [getProperty] return [false] ([None]) or fill
    in a value. *)
Class Probes := mkProbes {
  Session_cancel : Session -> Session * Status;
  KVStore_getIntProperty : KVStore -> string -> option Z;
  KVStore_getProperty : KVStore -> string -> option string
}.

Section Registry.
Context `{Probes}.

(** [ServerEntry::cancelSession]. *)
Definition cancelSession (connId : Z) : M Status :=
  st ← get;
  if negb (_isRunning st)
  then mret (mkStatus ERR_BUSY "server is shutting down")
  else
    match _sessions st !! connId with
    | None =>
        mret (mkStatus ERR_NOTFOUND ("session not found:" +:+ to_string connId))
    | Some it =>
        s ← sessObj it;
        modify (fun st => with_sessObjs
                  (<[it := fst (Session_cancel s)]> (sessObjs st)) st) ;;
        mret (snd (Session_cancel s))
    end.

End Registry.

(** Entries of the session map in the order of their ids. *)
Definition by_id (a b : Z * N) : Prop := a.1 <= b.1.

#[global] Instance by_id_dec : RelDecision by_id := fun a b => decide (a.1 <= b.1).

(** [ServerEntry::getAllSessions]: the values of [_sessions] in the
    order the map is iterated, which is ascending in the session id.
    The warning about the time taken only goes to the log. *)
Definition getAllSessions (st : State) : list N :=
  (merge_sort by_id (map_to_list (_sessions st))).*2.

(** *** Aggregated shard queries *)

Section ShardQueries.
Context `{Collab} `{Probes}.

(** [ServerEntry::getKVStoreCount]. *)
Definition getKVStoreCount : M Z :=
  c ← deref _catalog;
  mret (cat_kvStoreCount c).

(** The loop of [getTotalIntProperty] from shard [i] on; the result is
    the returned flag and the contents of [*value]. *)
Fixpoint totalIntLoop (sess : N) (property : string) (ids : list nat)
    (value : Z) : M (bool * Z) :=
  match ids with
  | [] => mret (true, value)
  | i :: rest =>
      expdb ← getDb sess (Z.of_nat i) LOCK_IS;
      match expdb with
      | Unexpected _ => mret (false, value)
      | Value store =>
          s ← storeObj store;
          match KVStore_getIntProperty s property with
          | None => mret (false, value)
          | Some tmp => totalIntLoop sess property rest (add64 value tmp)
          end
      end
  end.

(** [ServerEntry::getTotalIntProperty]: [*value = 0], then the loop
    over the shards [0 .. getKVStoreCount()-1].  The loop bound is read
    once: nothing in the loop changes the catalog. *)
Definition getTotalIntProperty (sess : N) (property : string) : M (bool * Z) :=
  n ← getKVStoreCount;
  totalIntLoop sess property (seq 0 (Z.to_nat n)) 0.

(** The loop of [getAllProperty]; [ss] is the text collected so far,
    and [None] the return of [false]. *)
Fixpoint allPropertyLoop (sess : N) (property : string) (ids : list nat)
    (ss : string) : M (option string) :=
  match ids with
  | [] => mret (Some ss)
  | i :: rest =>
      expdb ← getDb sess (Z.of_nat i) LOCK_IS;
      match expdb with
      | Unexpected _ => mret None
      | Value store =>
          s ← storeObj store;
          match KVStore_getProperty s property with
          | None => mret None
          | Some tmp =>
              allPropertyLoop sess property rest
                (ss +:+ "store_" +:+ dbId s +:+ ":" +:+ tmp +:+ CRLF)
          end
      end
  end.

(** [ServerEntry::getAllProperty]: [Some text] stands for [true] with
    [*value = text]; on [false] the function has not written
    [*value]. *)
Definition getAllProperty (sess : N) (property : string) : M (option string) :=
  n ← getKVStoreCount;
  allPropertyLoop sess property (seq 0 (Z.to_nat n)) EmptyString.

(** The loop of [resetRocksdbStats]; the result lists the handles of
    the stores whose [resetStatistics] was called, in order. *)
Fixpoint resetStatsLoop (sess : N) (ids : list nat) : M (list nat) :=
  match ids with
  | [] => mret []
  | i :: rest =>
      expdb ← getDb sess (Z.of_nat i) LOCK_IS;
      match expdb with
      | Unexpected _ => resetStatsLoop sess rest
      | Value store =>
          _ ← storeObj store;
          done ← resetStatsLoop sess rest;
          mret (store :: done)
      end
  end.

(** [ServerEntry::resetRocksdbStats]. *)
Definition resetRocksdbStats (sess : N) : M (list nat) :=
  n ← getKVStoreCount;
  resetStatsLoop sess (seq 0 (Z.to_nat n)).

End ShardQueries.

(** The line of [getAllProperty] for one shard. *)
Definition propertyLine (id value : string) : string :=
  "store_" +:+ id +:+ ":" +:+ value +:+ CRLF.

(** Concatenation of a list of strings. *)
Definition sconcat (l : list string) : string :=
  foldr String.append EmptyString l.

(** The calls of [getDb] for the shards [0 .. n-1] under the
    intention-shared lock. *)
Definition probeCalls (n : nat) : list event :=
  (fun i => EvGetDb (Z.of_nat i) LOCK_IS) <$> seq 0 n.

(** *** Slow log: a sequence of commands *)

Section SlowlogRuns.
Context `{Collab}.

(** [slowlogPushEntryIfNeeded] called for each command of a list; an
    entry is the start time, the duration and the arguments. *)
Definition slowlogPushAll (entries : list (Z * Z * list string)) : M unit :=
  for_each (fun e => slowlogPushEntryIfNeeded (fst (fst e)) (snd (fst e)) (snd e))
    entries.

End SlowlogRuns.

(** The entries slower than the threshold. *)
Definition slowEntries (threshold : Z) (entries : list (Z * Z * list string))
    : list (Z * Z * list string) :=
  List.filter (fun e => threshold <? snd (fst e)) entries.

(** The records of a list of entries, numbered [n], [n+1], ... *)
Fixpoint slowlogRecords (n : Z) (entries : list (Z * Z * list string))
    : list string :=
  match entries with
  | [] => []
  | e :: rest =>
      slowlogRecord n (fst (fst e)) (snd (fst e)) (snd e) :: slowlogRecords (n + 1) rest
  end.

(** How many of the [k] ids [n], [n+1], ... are multiples of
    [interval]. *)
Fixpoint flushesDue (interval n : Z) (k : nat) : nat :=
  match k with
  | O => O
  | S k' =>
      let due := n mod interval =? 0 in
      let rest := flushesDue interval (n + 1) k' in
      if due then S rest else rest
  end.

(** *** Shutdown *)

(** [ServerEntry::handleShutdownCmd]. *)
Definition handleShutdownCmd (st : State) : State := with_isShutdowned true st.

(** The calls [ServerEntry::stop] makes, in order. *)
Inductive teardown :=
| TdNotifyAll
| TdNetworkStop
| TdExecutorStop (name : string)
| TdReplStop
| TdIndexStop
| TdCatalogStop
| TdStoreStop (id : string)
| TdCronJoin
| TdSlowlogClose.

(** [ServerEntry::stop].  A call through an empty handle ends the
    run.  Modelled from the spec: stopping the network refuses new
    connections.  [executor.reset()] on every entry leaves a vector of
    empty handles; [_executorList] lists the pools the coordinator still
    owns, so it becomes empty.  The statuses of [_catalog->stop()] and
    [store->stop()] only go to the log. *)
Definition ServerEntry_stop (st : State) : result unit * State * list teardown :=
  if negb (_isRunning st) then (Done tt, st, []) else
  let st := with_isRunning false st in
  match _network st with
  | None => (Abort NullPointer, st, [TdNotifyAll])
  | Some net =>
      let st := with_network (Some (mkNetworkAsio (net_ip net) (net_port net)
                                      (net_ioThreads net) false)) st in
      let calls := [TdNotifyAll; TdNetworkStop] ++
                   ((fun e => TdExecutorStop (pool_name e)) <$> _executorList st) in
      match _replMgr st with
      | None => (Abort NullPointer, st, calls)
      | Some _ =>
          match _indexMgr st with
          | None => (Abort NullPointer, st, calls ++ [TdReplStop])
          | Some _ =>
              let st := with_sessions ∅ st in
              let st :=
                if _isShutdowned st then st
                else with_segmentMgr None (with_mgLockMgr None
                       (with_pessimisticMgr None (with_indexMgr None
                          (with_replMgr None (with_executorList []
                             (with_network None st)))))) in
              match _catalog st with
              | None => (Abort NullPointer, st, calls ++ [TdReplStop; TdIndexStop])
              | Some _ =>
                  let calls := calls ++ [TdReplStop; TdIndexStop; TdCatalogStop] ++
                               ((fun s => TdStoreStop (dbId s)) <$> _kvstores st) in
                  if negb (_cronThd st) then (Abort NullPointer, st, calls) else
                  (Done tt,
                   with_isStopped true
                     (with_slowLog (mkOfstream None (os_out (_slowLog st))) st),
                   calls ++ [TdCronJoin; TdSlowlogClose; TdNotifyAll])
              end
          end
      end
  end.

(** ** Further scenarios *)

(** Sessions that accept cancellation, and shards that report their
    id as every integer property and as every text property. *)
Definition demoProbes : Probes :=
  mkProbes
    (fun s => (s, OK))
    (fun s _ => match demo_stoul (dbId s) with Value v => Some (v + 10) | _ => None end)
    (fun s _ => Some (dbId s)).

(** The collaborators of the concrete deployment, except for the
    outcome of the catalog write, of [destroy], of the calls for
    shard locks and of opening the slow log. *)
Definition scenarioCollab (write_status : StoreMainMeta -> Status)
    (destroy_status : Status) (getDbOf : Z -> Expected nat)
    (open_ok : bool) : Collab :=
  mkCollab
    msg
    (fun s => "-ERR " +:+ s +:+ CRLF)
    (fun s => "-ERR " +:+ s +:+ CRLF)
    ("+OK" +:+ CRLF)
    demo_stoul
    demo_precheck
    (fun p st => (Done (Value ("+PONG" +:+ CRLF)), st))
    (fun _ _ storeId _ => getDbOf storeId)
    (fun _ _ _ => true)
    (fun _ _ => OK)
    (fun _ _ => OK)
    (fun _ => destroy_status)
    (fun _ _ => OK)
    (fun _ _ => OK)
    (fun _ m => write_status m)
    ∅
    (fun _ => mkKVStore EmptyString READ_WRITE false true false)
    8
    (fun _ _ => OK)
    (fun _ _ _ => OK)
    OK OK OK
    (fun _ => open_ok)
    (fun x => to_string (x / 1024)).

(** The deployment with the expiry subsystem switched off. *)
Definition demoCfgNoExpire : ServerParams :=
  mkServerParams 3 16 true 0 "127.0.0.1" 6379 2 false "slowlog" 1000 1000.

Definition demoRunningNoExpire : State :=
  snd (fst (@startup demoCollab demoCfgNoExpire (newServerEntry demoCfgNoExpire demoObjs))).

(** A local session: it has no socket of its own. *)
Definition demoLocalObjs : N -> Session :=
  <[7%N := mkSession 7 LocalSessionT "local" (Some (mkSessionCtx 0 false))
             ["quit"] EmptyString false SocketMoved]> demoObjs.

(** Sixteen ticks of the cron thread, 100 ms apart, during which the
    counter of [demoMetric] grows by 50 per tick. *)
Definition demoTicks : list (Z * Z * Z) :=
  (fun i => (100 + 50 * Z.of_nat (S i),
             1000000 + 100 * Z.of_nat (S i),
             1000000 + 100 * Z.of_nat (S i))) <$> seq 0 16.

(** Shard 2 of the deployment without expiry, paused and empty. *)
Definition demoPausedNoExpire : State :=
  with_kvstores (<[2%nat := mkKVStore "2" READ_WRITE true true false]>
                   (_kvstores demoRunningNoExpire))
    demoRunningNoExpire.

(** Collaborators whose [destroy] fails, and collaborators whose
    catalog cannot be written. *)
Definition failingDestroy : Collab :=
  scenarioCollab (fun _ => OK) (mkStatus ERR_INTERNAL "destroy failed")
    (fun id => Value (Z.to_nat id)) true.

Definition failingWrite : Collab :=
  scenarioCollab (fun _ => mkStatus ERR_INTERNAL "catalog is read-only") OK
    (fun id => Value (Z.to_nat id)) true.

(** The handle [getDb] hands out for shard [i] under the
    intention-shared lock, if it hands one out. *)
Definition lockedStore `{Collab} (st : State) (sess : N) (i : nat) : option nat :=
  match SegmentMgr_getDb st sess (Z.of_nat i) LOCK_IS with
  | Value h => Some h
  | Unexpected _ => None
  end.

(** Collaborators that refuse the lock of shard 1. *)
Definition shardOneLocked : Collab :=
  scenarioCollab (fun _ => OK) OK
    (fun id => if id =? 1 then Unexpected (mkStatus ERR_BUSY "locked")
               else Value (Z.to_nat id)) true.

Section ShardAnswers.
Context `{Collab} `{Probes}.

(** A shard that answers the integer property with [v]. *)
Definition answersInt (st : State) (sess : N) (property : string) (i : nat) (v : Z)
    : Prop :=
  exists h s,
    SegmentMgr_getDb st sess (Z.of_nat i) LOCK_IS = Value h /\
    _kvstores st !! h = Some s /\
    KVStore_getIntProperty s property = Some v.

(** A shard whose lock or whose property cannot be had. *)
Definition refusesInt (st : State) (sess : N) (property : string) (i : nat) : Prop :=
  (exists e, SegmentMgr_getDb st sess (Z.of_nat i) LOCK_IS = Unexpected e) \/
  (exists h s,
     SegmentMgr_getDb st sess (Z.of_nat i) LOCK_IS = Value h /\
     _kvstores st !! h = Some s /\
     KVStore_getIntProperty s property = None).

(** A shard with id [id] that answers the text property with [v]. *)
Definition answersText (st : State) (sess : N) (property : string) (i : nat)
    (id v : string) : Prop :=
  exists h s,
    SegmentMgr_getDb st sess (Z.of_nat i) LOCK_IS = Value h /\
    _kvstores st !! h = Some s /\
    dbId s = id /\
    KVStore_getProperty s property = Some v.

Definition refusesText (st : State) (sess : N) (property : string) (i : nat) : Prop :=
  (exists e, SegmentMgr_getDb st sess (Z.of_nat i) LOCK_IS = Unexpected e) \/
  (exists h s,
     SegmentMgr_getDb st sess (Z.of_nat i) LOCK_IS = Value h /\
     _kvstores st !! h = Some s /\
     KVStore_getProperty s property = None).

End ShardAnswers.

(** *** The calls of a startup *)

(** Reads and writes of the catalog. *)
Definition is_catalog_call (e : event) : bool :=
  match e with
  | EvGetStoreMainMeta _ | EvSetStoreMainMeta _ => true
  | _ => false
  end.

(** [startup(1)] of the pools [req-exec-<i>] for the given indices. *)
Definition startCalls (ids : list nat) : list event :=
  (fun i => EvExecutorStartup (pool_name (poolAt i)) 1) <$> ids.

(** The calls of a successful startup around those of the store loop
    ([cat]) and of the [pools] executors. *)
Definition startupCalls (cfg : ServerParams) (cat : list event) (pools : nat)
    : list event :=
  [EvSetNoExpire (noexpire cfg); EvChangeCommand "rename"; EvChangeCommand "mapping"]
  ++ cat ++ startCalls (seq 0 pools) ++
  [EvNetworkPrepare (bindIp cfg) (port cfg) (netIoThreadNum cfg); EvReplStartup] ++
  (if noexpire cfg then [] else [EvIndexStartup]) ++
  [EvNetworkRun; EvCronSpawn; EvSlowlogOpen (slowlogPath cfg)].

(** Collaborators that cannot open the slow log. *)
Definition noSlowlog : Collab :=
  scenarioCollab (fun _ => OK) OK (fun id => Value (Z.to_nat id)) false.

(** Every collaborator of [startup] reports success and the machine
    reports a processor. *)
Definition startup_healthy `{Collab} (cfg : ServerParams) : Prop :=
  (forall c id, Status_ok (Catalog_read_status c id) = true) /\
  (forall c m, Status_ok (Catalog_write_status c m) = true) /\
  hardware_concurrency <> 0 /\
  (forall i, Status_ok (WorkerPool_startup_status (pool_name (poolAt i)) 1) = true) /\
  Status_ok (NetworkAsio_prepare_status (bindIp cfg) (port cfg) (netIoThreadNum cfg)) = true /\
  Status_ok ReplManager_startup_status = true /\
  (noexpire cfg = false -> Status_ok IndexManager_startup_status = true) /\
  Status_ok NetworkAsio_run_status = true.

(** Three commands, of which the first and the last are slower than
    the threshold of the deployment. *)
Definition demoEntries : list (Z * Z * list string) :=
  [(1700000000, 2000, ["SET"; "x"; "1"]);
   (1700000001, 10, ["GET"; "x"]);
   (1700000002, 5000, ["KEYS"; "*"])].

(** The deployment with a flush interval of zero. *)
Definition demoCfgNoFlush : ServerParams :=
  mkServerParams 3 16 false 0 "127.0.0.1" 6379 2 false "slowlog" 1000 0.

Definition demoRunningNoFlush : State :=
  snd (fst (@startup demoCollab demoCfgNoFlush (newServerEntry demoCfgNoFlush demoObjs))).

(** The calls of a [stop] that runs to its end, for the given pools
    and stores. *)
Definition stopCalls (pools : list WorkerPool) (stores : list KVStore)
    : list teardown :=
  [TdNotifyAll; TdNetworkStop] ++
  ((fun e => TdExecutorStop (pool_name e)) <$> pools) ++
  [TdReplStop; TdIndexStop; TdCatalogStop] ++
  ((fun s => TdStoreStop (dbId s)) <$> stores) ++
  [TdCronJoin; TdSlowlogClose; TdNotifyAll].

(** A cron thread at its tenth turn, holding the snapshots taken at
    its start. *)
Definition demoCron : CronThread :=
  mkCronThread 10 (mkNetworkMatrix 0 0 0 0) (mkPoolMatrix 0 0 0 0)
    (mkRequestMatrix 0 0 0).

(** The running deployment after seven commands. *)
Definition demoBusy : State :=
  mkState true false false (_sessions demoMonitoring) (_monitors demoMonitoring)
    (_serverStat demoRunning) (mkNetworkMatrix 0 2 0 0) (mkPoolMatrix 0 7 70 700)
    (mkRequestMatrix 7 7000 70)
    (_catalog demoRunning) (_kvstores demoRunning) (_segmentMgr demoRunning)
    (_pessimisticMgr demoRunning) (_mgLockMgr demoRunning) (_replMgr demoRunning)
    (_indexMgr demoRunning) (_network demoRunning) (_executorList demoRunning)
    (_cfg demoRunning) (_cronThd demoRunning) (_slowLog demoRunning)
    (_slowlogId demoRunning) demoMonitorObjs.

(** * Properties *)

(** ** Unsigned arithmetic *)

Lemma wrap64_range z : 0 <= wrap64 z < U64_MOD.
Proof. unfold wrap64, U64_MOD. apply Z.mod_pos_bound. lia. Qed.

Lemma wrap64_small z : 0 <= z < U64_MOD -> wrap64 z = z.
Proof. intros Hz. unfold wrap64. apply Z.mod_small. exact Hz. Qed.

Lemma add64_wrap_l a x : add64 (wrap64 a) x = wrap64 (a + x).
Proof. unfold add64, wrap64. apply Zplus_mod_idemp_l. Qed.

(** ** Strings *)

Lemma sapp_cons ch (a b : string) : String ch a +:+ b = String ch (a +:+ b).
Proof. reflexivity. Qed.

Lemma sapp_assoc (a b c : string) : (a +:+ b) +:+ c = a +:+ (b +:+ c).
Proof.
  induction a as [|ch a IH]; [reflexivity |].
  rewrite !sapp_cons. f_equal. exact IH.
Qed.

Lemma sapp_nil_r (a : string) : a +:+ EmptyString = a.
Proof.
  induction a as [|ch a IH]; [reflexivity |].
  rewrite sapp_cons. f_equal. exact IH.
Qed.

(** ** The rate samplers *)

Lemma sum_samples_from a l :
  foldl (fun sum x => add64 sum x) (wrap64 a) l = wrap64 (a + sumZ l).
Proof.
  revert a. induction l as [|x l IH]; intros a; simpl.
  - f_equal. lia.
  - rewrite add64_wrap_l, IH. f_equal. lia.
Qed.

Lemma sum_samples_wrap l : sum_samples l = wrap64 (sumZ l).
Proof.
  unfold sum_samples. change 0 with (wrap64 0) at 1.
  rewrite sum_samples_from. reflexivity.
Qed.

Lemma getInstantaneousMetric_mean metric s m :
  instMetric s !! metric = Some m ->
  length (samples m) = Z.to_nat STATS_METRIC_SAMPLES ->
  getInstantaneousMetric metric s = Some (wrap64 (sumZ (samples m)) / 16).
Proof.
  intros Hm Hlen. unfold getInstantaneousMetric. rewrite Hm. simpl.
  rewrite take_ge by lia. rewrite sum_samples_wrap. reflexivity.
Qed.

Lemma inst_wf_zero : inst_wf zeroInstMetric.
Proof. split; [reflexivity | unfold STATS_METRIC_SAMPLES; simpl; lia]. Qed.

(** C4.  On an element of [instMetric] with its 16 samples and ring
    index in range, [trackInstantaneousMetric metric reading] stores at
    the current ring index the value [ops*1000/t], computed in
    [uint64_t] from [ops = reading - lastSampleCount] and
    [t = now - lastSampleTime], and 0 when [t = 0]; every other sample
    keeps its value; the index advances to [(idx+1) mod 16];
    [lastSampleTime] and [lastSampleCount] take the clock and the
    reading; and [getInstantaneousMetric] returns the sum of the 16
    samples (in [uint64_t]) divided by 16, before and after.  Where
    nothing wraps, these are the quotients of the integers. *)
Theorem C4_track_and_mean (metric : nat) (reading now1 now2 : Z)
    (s : ServerStat) (m : InstMetric) :
  instMetric s !! metric = Some m ->
  inst_wf m ->
  let t := sub64 now1 (lastSampleTime m) in
  let ops := sub64 reading (lastSampleCount m) in
  exists s' m',
    trackInstantaneousMetric metric reading now1 now2 s = Some s' /\
    instMetric s' !! metric = Some m' /\
    samples m' !! Z.to_nat (idx m)
      = Some (if t =? 0 then 0 else mul64 ops 1000 / t) /\
    (forall j, j <> Z.to_nat (idx m) -> samples m' !! j = samples m !! j) /\
    idx m' = (idx m + 1) mod 16 /\
    lastSampleTime m' = now2 /\
    lastSampleCount m' = reading /\
    inst_wf m' /\
    getInstantaneousMetric metric s = Some (wrap64 (sumZ (samples m)) / 16) /\
    getInstantaneousMetric metric s' = Some (wrap64 (sumZ (samples m')) / 16) /\
    (0 <= sumZ (samples m') < U64_MOD ->
       getInstantaneousMetric metric s' = Some (sumZ (samples m') / 16)) /\
    (0 < now1 - lastSampleTime m < U64_MOD ->
     0 <= reading - lastSampleCount m ->
     (reading - lastSampleCount m) * 1000 < U64_MOD ->
       samples m' !! Z.to_nat (idx m)
         = Some ((reading - lastSampleCount m) * 1000 / (now1 - lastSampleTime m))).
Proof.
  intros Hm [Hlen Hidx] t ops.
  assert (Hlt : (metric < length (instMetric s))%nat)
    by (eapply lookup_lt_Some; exact Hm).
  assert (Hi : (Z.to_nat (idx m) < length (samples m))%nat)
    by (rewrite Hlen; unfold STATS_METRIC_SAMPLES in *; lia).
  set (v := if 0 <? t then mul64 ops 1000 / t else 0).
  set (m' := mkInstMetric now2 reading (<[Z.to_nat (idx m) := v]> (samples m))
               ((idx m + 1) mod STATS_METRIC_SAMPLES)).
  assert (Hv : v = if t =? 0 then 0 else mul64 ops 1000 / t).
  { subst v. pose proof (wrap64_range (now1 - lastSampleTime m)) as Ht.
    fold (sub64 now1 (lastSampleTime m)) in Ht. fold t in Ht.
    destruct (Z.ltb_spec 0 t), (Z.eqb_spec t 0); try reflexivity; lia. }
  assert (Hwf : inst_wf m').
  { split; simpl.
    - rewrite length_insert. exact Hlen.
    - apply Z.mod_pos_bound. reflexivity. }
  assert (Hget' : instMetric (set_instMetric (fun a => <[metric := m']> a) s) !! metric
                  = Some m').
  { simpl. apply list_lookup_insert_eq. exact Hlt. }
  exists (set_instMetric (fun a => <[metric := m']> a) s), m'.
  split; [| split; [exact Hget' | ]].
  { unfold trackInstantaneousMetric. rewrite Hm. reflexivity. }
  split. { simpl. rewrite list_lookup_insert_eq by exact Hi. f_equal. exact Hv. }
  split. { intros j Hj. simpl. apply list_lookup_insert_ne. congruence. }
  split; [reflexivity |]. split; [reflexivity |]. split; [reflexivity |].
  split; [exact Hwf |].
  split. { apply getInstantaneousMetric_mean; assumption. }
  split. { apply getInstantaneousMetric_mean; [exact Hget' | apply Hwf]. }
  split.
  { intros Hsum. rewrite (getInstantaneousMetric_mean _ _ m' Hget' (proj1 Hwf)).
    rewrite wrap64_small by exact Hsum. reflexivity. }
  intros Ht Hops Hmul. simpl. rewrite list_lookup_insert_eq by exact Hi.
  f_equal. rewrite Hv. subst t ops. unfold sub64, mul64.
  rewrite (wrap64_small (now1 - lastSampleTime m)) by lia.
  rewrite (wrap64_small (reading - lastSampleCount m)) by (unfold U64_MOD in *; lia).
  rewrite wrap64_small by lia.
  destruct (Z.eqb_spec (now1 - lastSampleTime m) 0); [lia | reflexivity].
Qed.

Lemma C4_track_and_mean_witness :
  instMetric demoStat !! 0%nat = Some demoMetric /\
  inst_wf demoMetric /\
  exists s' m',
    trackInstantaneousMetric 0 250 1000100 1000101 demoStat = Some s' /\
    instMetric s' !! 0%nat = Some m' /\
    samples m' !! 0%nat = Some 1500 /\
    idx m' = 1 /\
    getInstantaneousMetric 0 s' = Some 93.
Proof.
  assert (Hm : instMetric demoStat !! 0%nat = Some demoMetric) by reflexivity.
  assert (Hwf : inst_wf demoMetric) by (split; [reflexivity | vm_compute; split; congruence]).
  split; [exact Hm | split; [exact Hwf |]].
  destruct (C4_track_and_mean 0 250 1000100 1000101 demoStat demoMetric Hm Hwf)
    as (s' & m' & Htrack & Hget & Hsample & _ & Hidx & _ & _ & _ & _ & Hmean & _).
  exists s', m'.
  split; [exact Htrack |]. split; [exact Hget |].
  split; [exact Hsample |]. split; [exact Hidx |].
  rewrite Hmean. vm_compute in Htrack. injection Htrack as <-.
  vm_compute in Hget. injection Hget as <-. reflexivity.
Defined.

(** ** Running the monad *)

Lemma run_bind {A B} (m : M A) (k : A -> M B) st :
  (m ≫= k) st =
  match m st with
  | (Done a, st1, e1) =>
      match k a st1 with (r, st2, e2) => (r, st2, e1 ++ e2) end
  | (Abort why, st1, e1) => (Abort why, st1, e1)
  end.
Proof. reflexivity. Qed.

Lemma run_ret {A} (a : A) st : (mret a : M A) st = (Done a, st, []).
Proof. reflexivity. Qed.

Lemma run_get st : get st = (Done st, st, []).
Proof. reflexivity. Qed.

Lemma run_modify f st : modify f st = (Done tt, f st, []).
Proof. reflexivity. Qed.

Lemma run_emit e st : emit e st = (Done tt, st, [e]).
Proof. reflexivity. Qed.

Lemma run_stop {A} why st : @stop A why st = (Abort why, st, []).
Proof. reflexivity. Qed.

Lemma run_deref {A} (field : State -> option A) st a :
  field st = Some a -> deref field st = (Done a, st, []).
Proof. intros Hf. unfold deref. rewrite Hf. reflexivity. Qed.

Lemma run_deref_null {A} (field : State -> option A) st :
  field st = None -> deref field st = (Abort NullPointer, st, []).
Proof. intros Hf. unfold deref. rewrite Hf. reflexivity. Qed.

Lemma run_sessObj p st : sessObj p st = (Done (sessObjs st p), st, []).
Proof. reflexivity. Qed.

Lemma run_storeObj h st s :
  _kvstores st !! h = Some s -> storeObj h st = (Done s, st, []).
Proof. intros Hs. unfold storeObj. rewrite Hs. reflexivity. Qed.

(** One step of symbolic execution. *)
Ltac mstep :=
  first [ rewrite run_bind | rewrite run_ret | rewrite run_get
        | rewrite run_modify | rewrite run_emit | rewrite run_stop
        | rewrite run_sessObj ];
  cbv beta iota.

Ltac mrun := repeat mstep.

(** ** The slow log *)

Lemma stream_text_app a b : stream_text (a ++ b) = stream_text a +:+ stream_text b.
Proof.
  induction a as [|[s|] a IH]; simpl.
  - reflexivity.
  - rewrite IH, sapp_assoc. reflexivity.
  - exact IH.
Qed.

Lemma stream_flushes_app a b :
  stream_flushes (a ++ b) = (stream_flushes a + stream_flushes b)%nat.
Proof. induction a as [|[s|] a IH]; simpl; lia. Qed.

Lemma run_slowPut s st :
  slowPut s st =
  (Done tt,
   with_slowLog (mkOfstream (os_path (_slowLog st)) (os_out (_slowLog st) ++ [Put s])) st,
   []).
Proof. reflexivity. Qed.

Lemma for_each_slowPut (f : string -> string) args st :
  exists st',
    for_each (fun a => slowPut (f a)) args st = (Done tt, st', []) /\
    _slowLog st' = mkOfstream (os_path (_slowLog st))
                     (os_out (_slowLog st) ++ map (fun a => Put (f a)) args) /\
    _slowlogId st' = _slowlogId st /\ _cfg st' = _cfg st.
Proof.
  revert st. induction args as [|a args IH]; intros st.
  - exists st. simpl. rewrite app_nil_r. destruct (_slowLog st).
    repeat split; reflexivity.
  - destruct (IH (with_slowLog (mkOfstream (os_path (_slowLog st))
                   (os_out (_slowLog st) ++ [Put (f a)])) st))
      as (st' & Hrun & Hlog & Hid & Hcfg).
    exists st'. cbn [for_each]. rewrite run_bind, run_slowPut. cbv beta iota.
    rewrite Hrun. split; [reflexivity |].
    rewrite Hlog. simpl. rewrite <- app_assoc. repeat split; assumption.
Qed.

Lemma stream_text_args args :
  stream_text (map (fun a => Put (a +:+ " ")) args)
  = foldr (fun a acc => a +:+ " " +:+ acc) EmptyString args.
Proof.
  induction args as [|a args IH]; simpl; [reflexivity |].
  rewrite IH, sapp_assoc. reflexivity.
Qed.

Lemma stream_flushes_args (f : string -> string) args :
  stream_flushes (map (fun a => Put (f a)) args) = O.
Proof. induction args as [|a args IH]; simpl; [reflexivity | exact IH]. Qed.

Lemma recordPuts_text n t d args :
  stream_text (recordPuts n t d args) = slowlogRecord n t d args.
Proof.
  unfold recordPuts, slowlogRecord.
  rewrite !stream_text_app, stream_text_args. simpl.
  rewrite !sapp_assoc, sapp_nil_r. reflexivity.
Qed.

Lemma recordPuts_flushes n t d args : stream_flushes (recordPuts n t d args) = O.
Proof.
  unfold recordPuts. rewrite !stream_flushes_app, stream_flushes_args. reflexivity.
Qed.

Lemma run_slowFlush st :
  slowFlush st =
  (Done tt,
   with_slowLog (mkOfstream (os_path (_slowLog st)) (os_out (_slowLog st) ++ [Flush])) st,
   []).
Proof. reflexivity. Qed.

Lemma slowlog_summary out puts (b : bool) final :
  final = out ++ puts ++ (if b then [Flush] else []) ->
  stream_flushes puts = O ->
  stream_text final = stream_text out +:+ stream_text puts /\
  stream_flushes final = (stream_flushes out + (if b then 1 else 0))%nat.
Proof.
  intros -> Hp. rewrite !stream_text_app, !stream_flushes_app, Hp.
  destruct b; simpl; rewrite ?sapp_nil_r; split; (reflexivity || lia).
Qed.

(** C5.  With the configuration installed and a non-zero flush
    interval, [slowlogPushEntryIfNeeded time duration args] writes a
    record exactly when [duration > slowlogLogSlowerThan]: the inserted
    text is [#Id: <n>\n#Time: <t>\n#Query_time: <d>\n<arg0> <arg1> ...\n#argc: <k>\n\n]
    with [n] the current [_slowlogId]; the stream is flushed, after the
    record, exactly when [n] is a multiple of [slowlogFlushInterval];
    and [_slowlogId] is then incremented by one (from 0 to 1 on the
    first record).  Otherwise the state is unchanged. *)
Theorem C5_slowlog_record (time duration : Z) (args : list string)
    (st : State) (cfg : ServerParams) :
  _cfg st = Some cfg ->
  slowlogFlushInterval cfg <> 0 ->
  let n := _slowlogId st in
  let flushNow := n mod slowlogFlushInterval cfg =? 0 in
  exists st',
    slowlogPushEntryIfNeeded time duration args st = (Done tt, st', []) /\
    (slowlogLogSlowerThan cfg < duration ->
       exists puts,
         os_out (_slowLog st') =
           os_out (_slowLog st) ++ puts ++ (if flushNow then [Flush] else []) /\
         stream_text puts = slowlogRecord n time duration args /\
         stream_flushes puts = O /\
         stream_text (os_out (_slowLog st')) =
           stream_text (os_out (_slowLog st)) +:+ slowlogRecord n time duration args /\
         stream_flushes (os_out (_slowLog st')) =
           (stream_flushes (os_out (_slowLog st)) + (if flushNow then 1 else 0))%nat /\
         _slowlogId st' = add64 n 1 /\
         (n = 0 -> _slowlogId st' = 1) /\
         (0 <= n < U64_MOD - 1 -> _slowlogId st' = n + 1)) /\
    (duration <= slowlogLogSlowerThan cfg -> st' = st).
Proof.
  intros Hcfg Hint n flushNow. unfold slowlogPushEntryIfNeeded.
  rewrite run_bind, (run_deref _ _ _ Hcfg). cbv beta iota.
  destruct (Z.ltb_spec (slowlogLogSlowerThan cfg) duration) as [Hlt | Hge].
  2:{ exists st. rewrite run_ret. split; [reflexivity |]. split; [lia | reflexivity]. }
  rewrite run_bind, run_get. cbv beta iota.
  rewrite run_bind, run_slowPut. cbv beta iota.
  rewrite run_bind, run_slowPut. cbv beta iota.
  rewrite run_bind, run_slowPut. cbv beta iota.
  rewrite run_bind.
  match goal with
  | |- context [for_each _ args ?s] =>
      destruct (for_each_slowPut (fun a => a +:+ " ") args s)
        as (st1 & Hrun & Hlog & Hid & _)
  end.
  cbv beta in Hrun. rewrite Hrun. cbv beta iota.
  rewrite run_bind, run_slowPut. cbv beta iota.
  rewrite run_bind, run_slowPut. cbv beta iota.
  destruct (Z.eqb_spec (slowlogFlushInterval cfg) 0) as [Hz | _]; [contradiction |].
  fold n. fold flushNow.
  assert (Hout : os_out (_slowLog st1)
                 = os_out (_slowLog st) ++
                   [Put ("#Id: " +:+ to_string n +:+ LF);
                    Put ("#Time: " +:+ to_string time +:+ LF);
                    Put ("#Query_time: " +:+ to_string duration +:+ LF)] ++
                   map (fun a => Put (a +:+ " ")) args).
  { rewrite Hlog. simpl. rewrite <- !app_assoc. reflexivity. }
  assert (Hid' : _slowlogId st1 = n) by (rewrite Hid; reflexivity).
  assert (Hadd : (n = 0 -> add64 n 1 = 1) /\ (0 <= n < U64_MOD - 1 -> add64 n 1 = n + 1)).
  { split.
    - intros ->. reflexivity.
    - intros Hn. unfold add64. apply wrap64_small. lia. }
  assert (Hsum : forall st',
    os_out (_slowLog st') =
      os_out (_slowLog st) ++ recordPuts n time duration args ++
      (if flushNow then [Flush] else []) ->
    _slowlogId st' = add64 n 1 ->
    slowlogLogSlowerThan cfg < duration ->
    exists puts,
      os_out (_slowLog st') =
        os_out (_slowLog st) ++ puts ++ (if flushNow then [Flush] else []) /\
      stream_text puts = slowlogRecord n time duration args /\
      stream_flushes puts = O /\
      stream_text (os_out (_slowLog st')) =
        stream_text (os_out (_slowLog st)) +:+ slowlogRecord n time duration args /\
      stream_flushes (os_out (_slowLog st')) =
        (stream_flushes (os_out (_slowLog st)) + (if flushNow then 1 else 0))%nat /\
      _slowlogId st' = add64 n 1 /\
      (n = 0 -> _slowlogId st' = 1) /\
      (0 <= n < U64_MOD - 1 -> _slowlogId st' = n + 1)).
  { intros st' Hout' Hid'' _. exists (recordPuts n time duration args).
    destruct (slowlog_summary _ _ _ _ Hout' (recordPuts_flushes n time duration args))
      as [Htext Hfl].
    rewrite recordPuts_text in Htext.
    split; [exact Hout' |]. split; [apply recordPuts_text |].
    split; [apply recordPuts_flushes |]. split; [exact Htext |].
    split; [exact Hfl |]. split; [exact Hid'' |].
    rewrite Hid''. exact Hadd. }
  rewrite run_bind.
  destruct flushNow.
  - rewrite run_slowFlush. cbv beta iota. rewrite run_modify.
    eexists. split; [reflexivity |]. split; [| intros; lia].
    apply Hsum; simpl; rewrite ?Hout, ?Hid'; [| reflexivity].
    unfold recordPuts. rewrite <- !app_assoc. reflexivity.
  - rewrite run_ret. cbv beta iota. rewrite run_modify.
    eexists. split; [reflexivity |]. split; [| intros; lia].
    apply Hsum; simpl; rewrite ?Hout, ?Hid'; [| reflexivity].
    unfold recordPuts. rewrite <- !app_assoc. reflexivity.
Qed.

Lemma C5_slowlog_record_witness :
  _cfg demoRunning = Some demoCfg /\
  slowlogFlushInterval demoCfg <> 0 /\
  exists st',
    slowlogPushEntryIfNeeded 1700000000 2000 ["SET"; "x"; "1"] demoRunning
      = (Done tt, st', []) /\
    stream_text (os_out (_slowLog st')) =
      "#Id: 0" +:+ LF +:+ "#Time: 1700000000" +:+ LF +:+ "#Query_time: 2000" +:+ LF +:+
      "SET x 1 " +:+ LF +:+ "#argc: 3" +:+ LF +:+ LF /\
    stream_flushes (os_out (_slowLog st')) = 1%nat /\
    _slowlogId st' = 1.
Proof.
  assert (Hcfg : _cfg demoRunning = Some demoCfg) by reflexivity.
  assert (Hint : slowlogFlushInterval demoCfg <> 0) by (simpl; lia).
  split; [exact Hcfg | split; [exact Hint |]].
  destruct (C5_slowlog_record 1700000000 2000 ["SET"; "x"; "1"] demoRunning demoCfg
              Hcfg Hint) as (st' & Hrun & Hwrite & _).
  destruct Hwrite as (puts & _ & _ & _ & Htext & Hfl & _ & Hone & _);
    [simpl; lia |].
  exists st'. split; [exact Hrun |].
  split; [rewrite Htext; reflexivity |].
  split; [rewrite Hfl; reflexivity |].
  apply Hone. reflexivity.
Defined.

(** ** INFO statistics *)



(** ** The session registry *)


Lemma erase_first_sublist objs id l : erase_first_id objs id l `sublist_of` l.
Proof.
  induction l as [|m l IH]; simpl.
  - constructor.
  - destruct (sess_id (objs m) =? id).
    + apply sublist_cons. reflexivity.
    + apply sublist_skip. exact IH.
Qed.




Lemma existsb_mon_id st id :
  existsb (fun monSess => sess_id (sessObjs st monSess) =? id) (_monitors st) = true
  <-> id ∈ mon_id st <$> _monitors st.
Proof.
  rewrite existsb_exists, list_elem_of_fmap. split.
  - intros (m & Hin & Heq). exists m. apply Z.eqb_eq in Heq.
    split; [symmetry; exact Heq | apply list_elem_of_In; exact Hin].
  - intros (m & Heq & Hin). exists m.
    split; [apply list_elem_of_In; exact Hin | apply Z.eqb_eq; symmetry; exact Heq].
Qed.

Lemma registry_inv_subset st : registry_inv st -> monitors_subset st.
Proof. intros (_ & _ & Hreg) m Hm. rewrite (Hreg m Hm). eauto. Qed.


Lemma AddMonitor_run id st :
  AddMonitor id st =
  (Done tt,
   (if existsb (fun monSess => sess_id (sessObjs st monSess) =? id) (_monitors st)
    then st
    else match _sessions st !! id with
         | None => st
         | Some it => with_monitors (_monitors st ++ [it]) st
         end),
   []).
Proof.
  unfold AddMonitor. rewrite run_bind, run_get. cbv beta iota.
  destruct (existsb _ _); [reflexivity |].
  destruct (_sessions st !! id); reflexivity.
Qed.




Lemma addSession_run sess st :
  addSession sess st =
  if negb (_isRunning st) then (Done false, st, [])
  else match _sessions st !! sess_id (sessObjs st sess) with
       | Some _ => (Abort FatalLogged, st, [EvSessionStart sess])
       | None =>
           (Done true,
            with_sessions (<[sess_id (sessObjs st sess) := sess]> (_sessions st)) st,
            [EvSessionStart sess])
       end.
Proof.
  unfold addSession. rewrite run_bind, run_get. cbv beta iota.
  destruct (_isRunning st); [| reflexivity]. cbn [negb].
  rewrite run_bind, run_emit. cbv beta iota.
  rewrite run_bind, run_sessObj. cbv beta iota.
  destruct (_sessions st !! sess_id (sessObjs st sess)); reflexivity.
Qed.

Lemma endSession_run id st :
  endSession id st =
  if negb (_isRunning st) then (Done tt, st, [])
  else match _sessions st !! id with
       | None => (Abort FatalLogged, st, [])
       | Some it =>
           match sess_ctx (sessObjs st it) with
           | None => (Abort InvariantFailed, st, [])
           | Some pCtx =>
               (Done tt,
                with_sessions (delete id (_sessions st))
                  (if ctx_isMonitor pCtx
                   then with_monitors (erase_first_id (sessObjs st) id (_monitors st)) st
                   else st),
                [])
           end
       end.
Proof.
  unfold endSession. rewrite run_bind, run_get. cbv beta iota.
  destruct (_isRunning st); [| reflexivity]. cbn [negb].
  destruct (_sessions st !! id) as [it|]; [| reflexivity].
  rewrite run_bind, run_sessObj. cbv beta iota.
  destruct (sess_ctx (sessObjs st it)) as [pCtx|]; [| reflexivity].
  destruct (ctx_isMonitor pCtx); reflexivity.
Qed.


Lemma demoMonitoring_inv : registry_inv demoMonitoring.
Proof.
  split; [| split].
  - intros k p Hk.
    change ((<[4 := 4%N]> (<[6 := 6%N]> (∅ : gmap Z N))) !! k = Some p) in Hk.
    apply lookup_insert_Some in Hk. destruct Hk as [[<- <-] | [_ Hk]]; [reflexivity |].
    apply lookup_insert_Some in Hk. destruct Hk as [[<- <-] | [_ Hk]]; [reflexivity |].
    rewrite lookup_empty in Hk. discriminate.
  - change (NoDup [6]). apply NoDup_singleton.
  - intros m Hm. change (m ∈ [6%N]) in Hm. apply list_elem_of_singleton in Hm.
    subst m. reflexivity.
Qed.


(** ** The monitor fan-out *)

Lemma with_sessObjs_id st : with_sessObjs (sessObjs st) st = st.
Proof. destruct st. reflexivity. Qed.

Lemma run_setResponse p r st :
  setResponse p r st =
  (Done tt,
   with_sessObjs (<[p := Session_setResponse r (sessObjs st p)]> (sessObjs st)) st,
   [EvSetResponse p r]).
Proof. reflexivity. Qed.

Lemma for_each_setResponse info ms st :
  for_each (fun it => setResponse it info) ms st =
  (Done tt, with_sessObjs (broadcast info ms (sessObjs st)) st,
   (fun m => EvSetResponse m info) <$> ms).
Proof.
  revert st. induction ms as [|m ms IH]; intros st.
  - cbn [for_each]. rewrite run_ret. cbn. rewrite with_sessObjs_id. reflexivity.
  - cbn [for_each]. rewrite run_bind, run_setResponse. cbv beta iota.
    rewrite IH. reflexivity.
Qed.

Lemma same_but_resp_refl a : same_but_resp a a.
Proof. repeat split. Qed.

Lemma same_but_resp_trans a b c :
  same_but_resp a b -> same_but_resp b c -> same_but_resp a c.
Proof.
  intros (H1 & H2 & H3 & H4 & H5 & H6 & H7) (K1 & K2 & K3 & K4 & K5 & K6 & K7).
  repeat split; congruence.
Qed.

Lemma setResponse_same r s : same_but_resp (Session_setResponse r s) s.
Proof. repeat split. Qed.

Lemma broadcast_same info ms objs p : same_but_resp (broadcast info ms objs p) (objs p).
Proof.
  revert objs. induction ms as [|m ms IH]; intros objs.
  - apply same_but_resp_refl.
  - cbn [broadcast foldl]. eapply same_but_resp_trans; [apply IH |].
    destruct (decide (m = p)) as [-> | Hne].
    + rewrite fn_lookup_insert. apply setResponse_same.
    + rewrite fn_lookup_insert_ne by exact Hne. apply same_but_resp_refl.
Qed.

Lemma broadcast_other info ms objs p : p ∉ ms -> broadcast info ms objs p = objs p.
Proof.
  revert objs. induction ms as [|m ms IH]; intros objs Hp; [reflexivity |].
  apply not_elem_of_cons in Hp. destruct Hp as [Hne Hp].
  cbn [broadcast foldl]. fold (broadcast info ms (<[m := Session_setResponse info (objs m)]> objs)).
  rewrite IH by exact Hp. apply fn_lookup_insert_ne. congruence.
Qed.

Lemma broadcast_once info ms objs p :
  NoDup ms -> p ∈ ms ->
  broadcast info ms objs p = Session_setResponse info (objs p).
Proof.
  revert objs. induction ms as [|m ms IH]; intros objs Hnd Hp; [inversion Hp |].
  apply list.NoDup_cons in Hnd. destruct Hnd as [Hm Hnd].
  cbn [broadcast foldl]. fold (broadcast info ms (<[m := Session_setResponse info (objs m)]> objs)).
  apply elem_of_cons in Hp. destruct Hp as [-> | Hp].
  - rewrite broadcast_other by exact Hm. apply fn_lookup_insert.
  - rewrite IH by assumption. rewrite fn_lookup_insert_ne; [reflexivity |].
    intros ->. contradiction.
Qed.

Lemma replyMonitors_run now sess st pCtx :
  sess_ctx (sessObjs st sess) = Some pCtx ->
  let info := monitorLine (wrap64 now) (ctx_dbId pCtx)
                (sess_remote (sessObjs st sess)) (sess_args (sessObjs st sess)) in
  replyMonitors now sess st =
  (Done tt, with_sessObjs (broadcast info (_monitors st) (sessObjs st)) st,
   (fun m => EvSetResponse m info) <$> _monitors st).
Proof.
  intros Hctx info. unfold replyMonitors.
  rewrite run_bind, run_get. cbv beta iota.
  destruct (_monitors st) as [|m ms] eqn:Hms.
  - cbn. rewrite with_sessObjs_id. reflexivity.
  - cbn [length Nat.leb].
    rewrite run_bind, run_sessObj. cbv beta iota. rewrite Hctx.
    rewrite run_bind, run_get. cbv beta iota.
    rewrite Hms, for_each_setResponse. reflexivity.
Qed.

Lemma replyMonitors_empty now sess st :
  _monitors st = [] -> replyMonitors now sess st = (Done tt, st, []).
Proof.
  intros Hms. unfold replyMonitors. rewrite run_bind, run_get. cbv beta iota.
  rewrite Hms. reflexivity.
Qed.

Lemma bind_events {A B} (m : M A) (k : A -> M B) st r st' e :
  (m ≫= k) st = (r, st', e) -> exists e', e = snd (m st) ++ e'.
Proof.
  rewrite run_bind. destruct (m st) as [[[a | why] s1] e1]; simpl.
  - destruct (k a s1) as [[r2 s2] e2]. intros [= _ _ <-]. eauto.
  - intros [= _ _ <-]. exists []. rewrite app_nil_r. reflexivity.
Qed.

Lemma quoteArgs_sepBy args :
  quoteArgs args = sepBy " " ((fun a => DQUOTE +:+ a +:+ DQUOTE) <$> args).
Proof.
  induction args as [|a [|b rest] IH].
  - reflexivity.
  - cbn. rewrite !sapp_nil_r. reflexivity.
  - change (quoteArgs (a :: b :: rest))
      with (DQUOTE +:+ a +:+ DQUOTE +:+ " " +:+ quoteArgs (b :: rest)).
    rewrite IH. cbn [fmap list_fmap sepBy]. rewrite !sapp_assoc. reflexivity.
Qed.

(** ** The request dispatcher *)

Section Dispatch.
Context `{Collab}.

Lemma run_precheck sess st r st1 :
  Command_precheck sess st = (r, st1) ->
  precheck sess st = (r, st1, [EvPrecheck sess]).
Proof. intros Hp. unfold precheck. rewrite Hp. reflexivity. Qed.

Lemma run_runSessionCmd sess st r st1 :
  Command_runSessionCmd sess st = (r, st1) ->
  runSessionCmd sess st = (r, st1, [EvRunSessionCmd sess]).
Proof. intros Hp. unfold runSessionCmd. rewrite Hp. reflexivity. Qed.

Lemma run_as_NetSession p st :
  sess_type (sessObjs st p) = NetSessionT ->
  as_NetSession p st = (Done p, st, []).
Proof.
  intros Ht. unfold as_NetSession. rewrite run_bind, run_sessObj. cbv beta iota.
  rewrite Ht. reflexivity.
Qed.

Lemma run_as_NetSession_local p st :
  sess_type (sessObjs st p) = LocalSessionT ->
  as_NetSession p st = (Abort InvariantFailed, st, []).
Proof.
  intros Ht. unfold as_NetSession. rewrite run_bind, run_sessObj. cbv beta iota.
  rewrite Ht. reflexivity.
Qed.

Lemma run_borrowConn p st :
  borrowConn p st =
  (Done (sess_sock (sessObjs st p)),
   with_sessObjs (<[p := snd (Session_borrowConn (sessObjs st p))]> (sessObjs st)) st,
   [EvBorrowConn p]).
Proof. reflexivity. Qed.

Lemma run_setCloseAfterRsp p st :
  setCloseAfterRsp p st =
  (Done tt,
   with_sessObjs (<[p := Session_setCloseAfterRsp (sessObjs st p)]> (sessObjs st)) st,
   [EvSetCloseAfterRsp p]).
Proof. reflexivity. Qed.

Lemma run_supplyFullSync c a1 a2 a3 st r :
  _replMgr st = Some r ->
  supplyFullSync c a1 a2 a3 st =
  (Done tt,
   with_replMgr (Some (mkReplManager (repl_conns r ++ [c]) (repl_stopped r))) st,
   [EvSupplyFullSync c a1 a2 a3]).
Proof.
  intros Hr. unfold supplyFullSync.
  rewrite run_bind, (run_deref _ _ _ Hr). cbv beta iota. reflexivity.
Qed.

Lemma run_registerIncrSync c a1 a2 a3 a4 a5 st r :
  _replMgr st = Some r ->
  registerIncrSync c a1 a2 a3 a4 a5 st =
  (Done (registerIncrSync_ret r c [a1; a2; a3; a4; a5]),
   with_replMgr (Some (mkReplManager (repl_conns r ++ [c]) (repl_stopped r))) st,
   [EvRegisterIncrSync c a1 a2 a3 a4 a5]).
Proof.
  intros Hr. unfold registerIncrSync.
  rewrite run_bind, (run_deref _ _ _ Hr). cbv beta iota. reflexivity.
Qed.

Lemma run_incrStat rd wr st :
  incrStat rd wr st =
  (Done tt, with_serverStat (wr (add64 (rd (_serverStat st)) 1) (_serverStat st)) st, []).
Proof. reflexivity. Qed.

(** Entering the dispatcher on a running server whose precheck
    resolved the command. *)
Ltac enter_dispatch Hrun Hpre Hfan :=
  unfold processRequest;
  rewrite run_bind, run_get; cbv beta iota;
  rewrite Hrun; cbn [negb];
  rewrite run_bind, (run_precheck _ _ _ _ Hpre); cbv beta iota;
  rewrite run_bind, Hfan; cbv beta iota.

(** C1.  On a running server, let precheck resolve the command to
    [fullsync] or [incrsync], let the monitor fan-out have run, and
    let the session be a network session with exactly 4 arguments
    ([fullsync]) or exactly 6 ([incrsync]).  Then [processRequest]
    moves the socket out of the session with [borrowConn] and hands it
    to the replication manager: with [supplyFullSync], and [syncFull]
    one higher, for [fullsync]; with [registerIncrSync] for
    [incrsync], and [syncPartialOk] one higher when it returned true,
    [syncPartialErr] one higher when it returned false.  In both cases
    [processRequest] returns false. *)
Theorem C1_replication_hijack (now : Z) (sess : N) (st st1 st2 : State)
    (name : string) (mon : list event) (r : ReplManager) :
  _isRunning st = true ->
  Command_precheck sess st = (Done (Value name), st1) ->
  replyMonitors now sess st1 = (Done tt, st2, mon) ->
  sess_type (sessObjs st2 sess) = NetSessionT ->
  _replMgr st2 = Some r ->
  let s := sessObjs st2 sess in
  let stat := _serverStat st2 in
  let handed := Some (mkReplManager (repl_conns r ++ [sess_sock s]) (repl_stopped r)) in
  (name = "fullsync" ->
   forall a0 a1 a2 a3, sess_args s = [a0; a1; a2; a3] ->
   exists st',
     processRequest now sess st =
       (Done false, st',
        EvPrecheck sess :: mon ++
        [EvBorrowConn sess; EvSupplyFullSync (sess_sock s) a1 a2 a3]) /\
     sess_sock (sessObjs st' sess) = SocketMoved /\
     (forall p, p <> sess -> sessObjs st' p = sessObjs st2 p) /\
     _replMgr st' = handed /\
     _serverStat st' = with_syncFull (add64 (syncFull stat) 1) stat) /\
  (name = "incrsync" ->
   forall a0 a1 a2 a3 a4 a5, sess_args s = [a0; a1; a2; a3; a4; a5] ->
   let ret := registerIncrSync_ret r (sess_sock s) [a1; a2; a3; a4; a5] in
   exists st',
     processRequest now sess st =
       (Done false, st',
        EvPrecheck sess :: mon ++
        [EvBorrowConn sess; EvRegisterIncrSync (sess_sock s) a1 a2 a3 a4 a5]) /\
     sess_sock (sessObjs st' sess) = SocketMoved /\
     (forall p, p <> sess -> sessObjs st' p = sessObjs st2 p) /\
     _replMgr st' = handed /\
     _serverStat st' =
       (if ret then with_syncPartialOk (add64 (syncPartialOk stat) 1) stat
        else with_syncPartialErr (add64 (syncPartialErr stat) 1) stat)).
Proof.
  intros Hrun Hpre Hfan Htype Hrepl s stat handed.
  split.
  - intros -> a0 a1 a2 a3 Hargs.
    enter_dispatch Hrun Hpre Hfan.
    cbn [String.eqb Ascii.eqb Bool.eqb].
    rewrite run_bind, (run_as_NetSession _ _ Htype). cbv beta iota.
    rewrite run_bind, run_sessObj. cbv beta iota.
    fold s. rewrite Hargs.
    rewrite run_bind, run_borrowConn. cbv beta iota.
    rewrite run_bind. erewrite run_supplyFullSync by exact Hrepl. cbv beta iota.
    rewrite run_bind, run_incrStat. cbv beta iota. rewrite run_ret.
    eexists. split; [rewrite !app_nil_r; reflexivity |].
    split; [cbn; rewrite fn_lookup_insert; reflexivity |].
    split; [intros p Hp; cbn; apply fn_lookup_insert_ne; congruence |].
    split; reflexivity.
  - intros -> a0 a1 a2 a3 a4 a5 Hargs ret.
    enter_dispatch Hrun Hpre Hfan.
    cbn [String.eqb Ascii.eqb Bool.eqb].
    rewrite run_bind, (run_as_NetSession _ _ Htype). cbv beta iota.
    rewrite run_bind, run_sessObj. cbv beta iota.
    fold s. rewrite Hargs.
    rewrite run_bind, run_borrowConn. cbv beta iota.
    rewrite run_bind. erewrite run_registerIncrSync by exact Hrepl. cbv beta iota.
    fold s. fold ret. rewrite run_bind.
    destruct ret; rewrite run_incrStat; cbv beta iota; rewrite run_ret;
      (eexists; split; [rewrite !app_nil_r; reflexivity |];
       split; [cbn; rewrite fn_lookup_insert; reflexivity |];
       split; [intros p Hp; cbn; apply fn_lookup_insert_ne; congruence |];
       split; reflexivity).
Qed.

(** C3, as stated, fails on the replication commands: the server is
    running, precheck resolves the command of session 1 to [fullsync],
    which is not [quit], and [processRequest] returns false without
    calling [runSessionCmd]. *)
Lemma C3_counterexample :
  _isRunning demoRunning = true /\
  @Command_precheck demoCollab 1%N demoRunning = (Done (Value "fullsync"), demoRunning) /\
  "fullsync" <> "quit" /\
  ~ (exists st' evs,
       @processRequest demoCollab 0 1%N demoRunning = (Done true, st', evs)) /\
  exists st' evs,
    @processRequest demoCollab 0 1%N demoRunning = (Done false, st', evs) /\
    EvRunSessionCmd 1%N ∉ evs.
Proof.
  split; [reflexivity |]. split; [reflexivity |]. split; [discriminate |].
  split.
  { intros (st' & evs & Hrun). vm_compute in Hrun. discriminate Hrun. }
  eexists _, _. split; [vm_compute; reflexivity |].
  intros Hin. repeat (apply elem_of_cons in Hin; destruct Hin as [Hin | Hin];
                      [discriminate |]).
  inversion Hin.
Qed.

(** C3, amended.  [processRequest] returns false and leaves the state
    as it is when the server is not running.  On a running server:
    when precheck fails it appends the error reply to the session's
    response and returns true; when the resolved command is [quit] (on
    a network session, after the monitor fan-out) it marks the session
    close-after-response, appends the OK reply and returns true; and
    when the resolved command is none of [fullsync], [incrsync] and
    [quit] it calls [runSessionCmd] and returns true, appending to the
    session's response the returned reply on success and the formatted
    error on failure. *)
Theorem C3_dispatch_outcomes (now : Z) (sess : N) (st : State) :
  (_isRunning st = false -> processRequest now sess st = (Done false, st, [])) /\
  (_isRunning st = true ->
   forall status st1,
     Command_precheck sess st = (Done (Unexpected status), st1) ->
     let reply := errorReply (Status_toString status) in
     exists st',
       processRequest now sess st =
         (Done true, st', [EvPrecheck sess; EvSetResponse sess reply]) /\
       sessObjs st' sess = Session_setResponse reply (sessObjs st1 sess) /\
       (forall p, p <> sess -> sessObjs st' p = sessObjs st1 p)) /\
  (_isRunning st = true ->
   forall name st1 st2 mon,
     Command_precheck sess st = (Done (Value name), st1) ->
     replyMonitors now sess st1 = (Done tt, st2, mon) ->
     (name = "quit" ->
      sess_type (sessObjs st2 sess) = NetSessionT ->
      exists st',
        processRequest now sess st =
          (Done true, st',
           EvPrecheck sess :: mon ++ [EvSetCloseAfterRsp sess; EvSetResponse sess fmtOK]) /\
        sessObjs st' sess =
          Session_setResponse fmtOK (Session_setCloseAfterRsp (sessObjs st2 sess)) /\
        (forall p, p <> sess -> sessObjs st' p = sessObjs st2 p)) /\
     (name <> "fullsync" -> name <> "incrsync" -> name <> "quit" ->
      forall expect st3,
        Command_runSessionCmd sess st2 = (Done expect, st3) ->
        let reply := match expect with
                     | Value v => v
                     | Unexpected status => fmtErr (Status_toString status)
                     end in
        exists st',
          processRequest now sess st =
            (Done true, st',
             EvPrecheck sess :: mon ++ [EvRunSessionCmd sess; EvSetResponse sess reply]) /\
          sessObjs st' sess = Session_setResponse reply (sessObjs st3 sess) /\
          (forall p, p <> sess -> sessObjs st' p = sessObjs st3 p))).
Proof.
  split; [| split].
  - intros Hrun. unfold processRequest. rewrite run_bind, run_get. cbv beta iota.
    rewrite Hrun. reflexivity.
  - intros Hrun status st1 Hpre reply. unfold processRequest.
    rewrite run_bind, run_get. cbv beta iota. rewrite Hrun. cbn [negb].
    rewrite run_bind, (run_precheck _ _ _ _ Hpre). cbv beta iota.
    rewrite run_bind, run_setResponse. cbv beta iota. rewrite run_ret.
    eexists. split; [reflexivity |]. split.
    + cbn. apply fn_lookup_insert.
    + intros p Hp. cbn. apply fn_lookup_insert_ne. congruence.
  - intros Hrun name st1 st2 mon Hpre Hfan. split.
    + intros -> Htype.
      enter_dispatch Hrun Hpre Hfan.
      cbn [String.eqb Ascii.eqb Bool.eqb].
      rewrite run_bind, (run_as_NetSession _ _ Htype). cbv beta iota.
      rewrite run_bind, run_setCloseAfterRsp. cbv beta iota.
      rewrite run_bind, run_setResponse. cbv beta iota. rewrite run_ret.
      eexists. split; [rewrite !app_nil_r; reflexivity |]. split.
      * cbn. rewrite !fn_lookup_insert. reflexivity.
      * intros p Hp. cbn. rewrite !fn_lookup_insert_ne by congruence. reflexivity.
    + intros Hf Hi Hq expect st3 Hcmd reply.
      enter_dispatch Hrun Hpre Hfan.
      apply String.eqb_neq in Hf, Hi, Hq. rewrite Hf, Hi, Hq.
      rewrite run_bind, (run_runSessionCmd _ _ _ _ Hcmd). cbv beta iota.
      destruct expect as [status | v];
        rewrite run_bind, run_setResponse; cbv beta iota; rewrite run_ret;
        (eexists; split; [rewrite !app_nil_r; reflexivity |]; split;
         [cbn; apply fn_lookup_insert
         | intros p Hp; cbn; apply fn_lookup_insert_ne; congruence]).
Qed.

Lemma run_supplyFullSync_null c a1 a2 a3 st :
  _replMgr st = None ->
  supplyFullSync c a1 a2 a3 st = (Abort NullPointer, st, []).
Proof.
  intros Hr. unfold supplyFullSync. rewrite run_bind, (run_deref_null _ _ Hr). reflexivity.
Qed.

Lemma run_registerIncrSync_null c a1 a2 a3 a4 a5 st :
  _replMgr st = None ->
  registerIncrSync c a1 a2 a3 a4 a5 st = (Abort NullPointer, st, []).
Proof.
  intros Hr. unfold registerIncrSync. rewrite run_bind, (run_deref_null _ _ Hr). reflexivity.
Qed.

(** The session objects after the socket was borrowed, whatever the
    replication manager and the counters became. *)
Lemma borrowed_objs sess st2 st' :
  sessObjs st' = <[sess := snd (Session_borrowConn (sessObjs st2 sess))]> (sessObjs st2) ->
  sessObjs st' sess = snd (Session_borrowConn (sessObjs st2 sess)) /\
  (forall p, p <> sess -> sessObjs st' p = sessObjs st2 p).
Proof.
  intros ->. split; [apply fn_lookup_insert |].
  intros p Hp. apply fn_lookup_insert_ne. congruence.
Qed.

(** After the fan-out the dispatcher works on the state the fan-out
    left: it either stops there on a failed assertion before calling
    anything, or its first call is [borrowConn], [setCloseAfterRsp] or
    [runSessionCmd] and the final session objects are those of
    [dispatched]. *)
Lemma processRequest_outcome now sess st name st1 pCtx :
  _isRunning st = true ->
  Command_precheck sess st = (Done (Value name), st1) ->
  sess_ctx (sessObjs st1 sess) = Some pCtx ->
  let s := sessObjs st1 sess in
  let info := monitorLine (wrap64 now) (ctx_dbId pCtx) (sess_remote s) (sess_args s) in
  let mon := (fun m => EvSetResponse m info) <$> _monitors st1 in
  let st2 := with_sessObjs (broadcast info (_monitors st1) (sessObjs st1)) st1 in
  exists r st' rest,
    processRequest now sess st = (r, st', EvPrecheck sess :: mon ++ rest) /\
    ((rest = [] /\ r = Abort InvariantFailed /\ st' = st2) \/
     (starts_dispatch sess rest /\ dispatched name sess st2 st')).
Proof.
  intros Hrun Hpre Hctx s info mon st2.
  pose proof (replyMonitors_run now sess st1 pCtx Hctx) as Hfan. cbv zeta in Hfan.
  enter_dispatch Hrun Hpre Hfan. fold s info mon st2.
  match goal with
  | |- context [ (if String.eqb name "fullsync" then ?A else ?B) ?S ] =>
      destruct ((if String.eqb name "fullsync" then A else B) S)
        as [[r st'] rest] eqn:HK
  end.
  exists r, st', rest. split; [reflexivity |].
  unfold dispatched.
  destruct (String.eqb name "fullsync");
    [| destruct (String.eqb name "incrsync"); [| destruct (String.eqb name "quit")]];
    cbn [orb].
  - (* fullsync *)
    destruct (sess_type (sessObjs st2 sess)) eqn:Hty.
    2:{ rewrite run_bind, (run_as_NetSession_local _ _ Hty) in HK.
        injection HK as <- <- <-. left. repeat split. }
    rewrite run_bind, (run_as_NetSession _ _ Hty) in HK. cbv beta iota in HK.
    rewrite run_bind, run_sessObj in HK. cbv beta iota in HK.
    destruct (sess_args (sessObjs st2 sess)) as [|a0 [|a1 [|a2 [|a3 [|a4 l]]]]];
      try (rewrite run_stop in HK; injection HK as <- <- <-; left; repeat split).
    rewrite run_bind, run_borrowConn in HK. cbv beta iota in HK.
    rewrite run_bind in HK.
    destruct (_replMgr st2) as [rm|] eqn:Hrm.
    + erewrite run_supplyFullSync in HK by exact Hrm. cbv beta iota in HK.
      rewrite run_bind, run_incrStat in HK. cbv beta iota in HK. rewrite run_ret in HK.
      injection HK as <- <- <-. right.
      split; [left; reflexivity | apply borrowed_objs; reflexivity].
    + rewrite run_supplyFullSync_null in HK by exact Hrm.
      injection HK as <- <- <-. right.
      split; [left; reflexivity | apply borrowed_objs; reflexivity].
  - (* incrsync *)
    destruct (sess_type (sessObjs st2 sess)) eqn:Hty.
    2:{ rewrite run_bind, (run_as_NetSession_local _ _ Hty) in HK.
        injection HK as <- <- <-. left. repeat split. }
    rewrite run_bind, (run_as_NetSession _ _ Hty) in HK. cbv beta iota in HK.
    rewrite run_bind, run_sessObj in HK. cbv beta iota in HK.
    destruct (sess_args (sessObjs st2 sess))
      as [|a0 [|a1 [|a2 [|a3 [|a4 [|a5 [|a6 l]]]]]]];
      try (rewrite run_stop in HK; injection HK as <- <- <-; left; repeat split).
    rewrite run_bind, run_borrowConn in HK. cbv beta iota in HK.
    rewrite run_bind in HK.
    destruct (_replMgr st2) as [rm|] eqn:Hrm.
    + erewrite run_registerIncrSync in HK by exact Hrm. cbv beta iota in HK.
      rewrite run_bind in HK.
      destruct (registerIncrSync_ret rm _ _);
        rewrite run_incrStat in HK; cbv beta iota in HK; rewrite run_ret in HK;
        injection HK as <- <- <-; right;
        (split; [left; reflexivity | apply borrowed_objs; reflexivity]).
    + rewrite run_registerIncrSync_null in HK by exact Hrm.
      injection HK as <- <- <-. right.
      split; [left; reflexivity | apply borrowed_objs; reflexivity].
  - (* quit *)
    destruct (sess_type (sessObjs st2 sess)) eqn:Hty.
    2:{ rewrite run_bind, (run_as_NetSession_local _ _ Hty) in HK.
        injection HK as <- <- <-. left. repeat split. }
    rewrite run_bind, (run_as_NetSession _ _ Hty) in HK. cbv beta iota in HK.
    rewrite run_bind, run_setCloseAfterRsp in HK. cbv beta iota in HK.
    rewrite run_bind, run_setResponse in HK. cbv beta iota in HK. rewrite run_ret in HK.
    injection HK as <- <- <-. right.
    split; [right; left; reflexivity |]. split.
    + cbn. rewrite !fn_lookup_insert. reflexivity.
    + intros p Hp. cbn. rewrite !fn_lookup_insert_ne by congruence. reflexivity.
  - (* every other command *)
    destruct (Command_runSessionCmd sess st2) as [r3 st3] eqn:Hcmd.
    rewrite run_bind, (run_runSessionCmd _ _ _ _ Hcmd) in HK. cbv beta iota in HK.
    right. destruct r3 as [[status | v] | why].
    + rewrite run_bind, run_setResponse in HK. cbv beta iota in HK. rewrite run_ret in HK.
      injection HK as <- <- <-.
      split; [right; right; reflexivity |]. exists (Done (Unexpected status)), st3.
      split; [reflexivity |]. split.
      * cbn. apply fn_lookup_insert.
      * intros p Hp. cbn. apply fn_lookup_insert_ne. congruence.
    + rewrite run_bind, run_setResponse in HK. cbv beta iota in HK. rewrite run_ret in HK.
      injection HK as <- <- <-.
      split; [right; right; reflexivity |]. exists (Done (Value v)), st3.
      split; [reflexivity |]. split.
      * cbn. apply fn_lookup_insert.
      * intros p Hp. cbn. apply fn_lookup_insert_ne. congruence.
    + injection HK as <- <- <-.
      split; [right; right; reflexivity |]. exists (Abort why), st3.
      split; [reflexivity |]. split; [reflexivity |]. intros p Hp. reflexivity.
Qed.

Lemma processRequest_not_running now sess st :
  _isRunning st = false -> processRequest now sess st = (Done false, st, []).
Proof.
  intros Hrun. unfold processRequest. rewrite run_bind, run_get. cbv beta iota.
  rewrite Hrun. reflexivity.
Qed.

Lemma processRequest_precheck_failed now sess st status st1 :
  _isRunning st = true ->
  Command_precheck sess st = (Done (Unexpected status), st1) ->
  processRequest now sess st =
  (Done true,
   with_sessObjs
     (<[sess := Session_setResponse (errorReply (Status_toString status)) (sessObjs st1 sess)]>
        (sessObjs st1)) st1,
   [EvPrecheck sess; EvSetResponse sess (errorReply (Status_toString status))]).
Proof.
  intros Hrun Hpre. unfold processRequest.
  rewrite run_bind, run_get. cbv beta iota. rewrite Hrun. cbn [negb].
  rewrite run_bind, (run_precheck _ _ _ _ Hpre). cbv beta iota.
  rewrite run_bind, run_setResponse. cbv beta iota. rewrite run_ret. reflexivity.
Qed.

(** C7.  On a running server, when precheck passes, [processRequest]
    calls the fan-out right after it: every entry of the monitor list
    receives, by one [setResponse], the line
    [+<sec>.<usec> [<dbid> <remote>] "arg0" "arg1" ... "argN"\r\n] built
    from the microsecond clock, the database id and the remote address
    of the issuing session and its arguments, each in double quotes
    and separated by single spaces; on a duplicate-free list each
    monitor's buffer grows by exactly that line and no other session
    object changes; with an empty list nothing is appended, whatever
    the session.  These calls precede whatever the dispatcher does
    next, and the dispatcher works on the state they left: it stops
    there on a failed assertion, or its first call is [borrowConn],
    [setCloseAfterRsp] or [runSessionCmd].  So when [processRequest]
    ends on [fullsync], [incrsync] or [quit], the buffer of every
    monitor is what it was, then the line, then, for the issuing
    session alone, its reply; and any other command is run on the
    state whose monitor buffers hold the line, after which only the
    issuing session's object is written.  When the server is not
    running or precheck fails there is no fan-out: no call is made in
    the first case, and in the second the only response set is the
    error reply of the issuing session. *)
Theorem C7_monitor_fanout (now : Z) (sess : N) (st : State) :
  (_isRunning st = false -> processRequest now sess st = (Done false, st, [])) /\
  (_isRunning st = true ->
   forall status st1,
     Command_precheck sess st = (Done (Unexpected status), st1) ->
     exists st',
       processRequest now sess st =
         (Done true, st',
          [EvPrecheck sess; EvSetResponse sess (errorReply (Status_toString status))]) /\
       (forall p, p <> sess -> sessObjs st' p = sessObjs st1 p)) /\
  (_isRunning st = true ->
   forall name st1 pCtx,
     Command_precheck sess st = (Done (Value name), st1) ->
     sess_ctx (sessObjs st1 sess) = Some pCtx ->
     let s := sessObjs st1 sess in
     let timestamp := wrap64 now in
     let info := monitorLine timestamp (ctx_dbId pCtx) (sess_remote s) (sess_args s) in
     let mon := (fun m => EvSetResponse m info) <$> _monitors st1 in
     let st2 := with_sessObjs (broadcast info (_monitors st1) (sessObjs st1)) st1 in
     info = "+" +:+ to_string (timestamp / 1000000) +:+ "." +:+
            to_string (timestamp mod 1000000) +:+
            " [" +:+ to_string (ctx_dbId pCtx) +:+ " " +:+ sess_remote s +:+ "] " +:+
            sepBy " " ((fun a => DQUOTE +:+ a +:+ DQUOTE) <$> sess_args s) +:+ CRLF /\
     replyMonitors now sess st1 = (Done tt, st2, mon) /\
     (NoDup (_monitors st1) ->
      forall m, m ∈ _monitors st1 ->
        sess_resp (sessObjs st2 m) = sess_resp (sessObjs st1 m) +:+ info) /\
     (forall p, same_but_resp (sessObjs st2 p) (sessObjs st1 p)) /\
     (forall p, p ∉ _monitors st1 -> sessObjs st2 p = sessObjs st1 p) /\
     (_monitors st1 = [] -> st2 = st1 /\ mon = []) /\
     exists r st' rest,
       processRequest now sess st = (r, st', EvPrecheck sess :: mon ++ rest) /\
       ((rest = [] /\ r = Abort InvariantFailed /\ st' = st2) \/
        (starts_dispatch sess rest /\ dispatched name sess st2 st')) /\
       (name = "fullsync" \/ name = "incrsync" \/ name = "quit" ->
        NoDup (_monitors st1) ->
        forall m, m ∈ _monitors st1 ->
          exists reply,
            sess_resp (sessObjs st' m) = sess_resp (sessObjs st1 m) +:+ info +:+ reply /\
            (m <> sess -> reply = EmptyString)) /\
       (name <> "fullsync" -> name <> "incrsync" -> name <> "quit" ->
        exists r3 st3,
          Command_runSessionCmd sess st2 = (r3, st3) /\
          (forall m, m <> sess -> sessObjs st' m = sessObjs st3 m))) /\
  (forall st1, _monitors st1 = [] -> replyMonitors now sess st1 = (Done tt, st1, [])).
Proof.
  split; [apply processRequest_not_running |].
  split; [| split; [| intros st1 Hms; apply replyMonitors_empty, Hms]].
  - intros Hrun status st1 Hpre. eexists.
    split; [exact (processRequest_precheck_failed now sess st status st1 Hrun Hpre) |].
    intros p Hp. cbn. apply fn_lookup_insert_ne. congruence.
  - intros Hrun name st1 pCtx Hpre Hctx s timestamp info mon st2.
    assert (Hbuf : NoDup (_monitors st1) ->
              forall m, m ∈ _monitors st1 ->
                sess_resp (sessObjs st2 m) = sess_resp (sessObjs st1 m) +:+ info).
    { intros Hnd m Hm. unfold st2. cbn.
      rewrite broadcast_once by assumption. reflexivity. }
    split. { unfold info, monitorLine. rewrite quoteArgs_sepBy. reflexivity. }
    split. { apply replyMonitors_run. exact Hctx. }
    split. { exact Hbuf. }
    split. { intros p. apply broadcast_same. }
    split. { intros p Hp. unfold st2. cbn. apply broadcast_other. exact Hp. }
    split. { intros Hms. unfold st2, mon. rewrite Hms. cbn.
             split; [apply with_sessObjs_id | reflexivity]. }
    destruct (processRequest_outcome now sess st name st1 pCtx Hrun Hpre Hctx)
      as (r & st' & rest & Hreq & Hout).
    fold s timestamp info mon st2 in Hreq, Hout.
    exists r, st', rest. split; [exact Hreq |]. split; [exact Hout |]. split.
    + intros Hname Hnd m Hm. specialize (Hbuf Hnd m Hm).
      destruct Hout as [(_ & _ & ->) | (_ & Hd)].
      { exists EmptyString. rewrite sapp_nil_r. split; [exact Hbuf | reflexivity]. }
      unfold dispatched in Hd.
      destruct Hname as [-> | [-> | ->]]; cbn [String.eqb Ascii.eqb Bool.eqb orb] in Hd;
        destruct Hd as (Hs & Ho).
      * exists EmptyString. rewrite sapp_nil_r. split; [| reflexivity].
        destruct (decide (m = sess)) as [-> | Hne]; [rewrite Hs | rewrite (Ho m Hne)];
          exact Hbuf.
      * exists EmptyString. rewrite sapp_nil_r. split; [| reflexivity].
        destruct (decide (m = sess)) as [-> | Hne]; [rewrite Hs | rewrite (Ho m Hne)];
          exact Hbuf.
      * destruct (decide (m = sess)) as [-> | Hne].
        -- exists fmtOK. split; [| intros Hc; contradiction].
           rewrite Hs. cbn [sess_resp Session_setResponse Session_setCloseAfterRsp].
           rewrite Hbuf. apply sapp_assoc.
        -- exists EmptyString. rewrite sapp_nil_r. split; [| reflexivity].
           rewrite (Ho m Hne). exact Hbuf.
    + intros Hf Hi Hq.
      destruct Hout as [(-> & _ & _) | (_ & Hd)].
      { (* an empty trace is not that of a command run *)
        exfalso. revert Hreq. unfold processRequest.
        rewrite run_bind, run_get. cbv beta iota. rewrite Hrun. cbn [negb].
        rewrite run_bind, (run_precheck _ _ _ _ Hpre). cbv beta iota.
        rewrite run_bind, (replyMonitors_run now sess st1 pCtx Hctx). cbv beta iota.
        apply String.eqb_neq in Hf, Hi, Hq. rewrite Hf, Hi, Hq.
        unfold runSessionCmd at 1. rewrite run_bind.
        unfold runSessionCmd.
        destruct (Command_runSessionCmd sess _) as [r3 st3].
        destruct r3 as [e |]; [destruct (_ st3) as [[? ?] ?] |];
          intros Heq; injection Heq as _ _ Heq;
          apply app_inv_head in Heq; discriminate. }
      unfold dispatched in Hd.
      apply String.eqb_neq in Hf, Hi, Hq. rewrite Hf, Hi, Hq in Hd. cbn [orb] in Hd.
      destruct Hd as (r3 & st3 & Hcmd & _ & Ho). exists r3, st3. split; assumption.
Qed.

End Dispatch.

Lemma C1_replication_hijack_witness :
  _isRunning demoRunning = true /\
  @Command_precheck demoCollab 1%N demoRunning = (Done (Value "fullsync"), demoRunning) /\
  @Command_precheck demoCollab 2%N demoRunning = (Done (Value "incrsync"), demoRunning) /\
  _replMgr demoRunning = Some (mkReplManager [] []) /\
  (exists st',
     @processRequest demoCollab 0 1%N demoRunning =
       (Done false, st',
        [EvPrecheck 1%N; EvBorrowConn 1%N;
         EvSupplyFullSync (Socket 1) "0" "10.0.0.7" "6380"]) /\
     sess_sock (sessObjs st' 1%N) = SocketMoved /\
     syncFull (_serverStat st') = 1) /\
  (exists st',
     @processRequest demoCollab 0 2%N demoRunning =
       (Done false, st',
        [EvPrecheck 2%N; EvBorrowConn 2%N;
         EvRegisterIncrSync (Socket 2) "0" "7" "42" "10.0.0.7" "6380"]) /\
     sess_sock (sessObjs st' 2%N) = SocketMoved /\
     syncPartialOk (_serverStat st') = 1).
Proof.
  split; [reflexivity |]. split; [reflexivity |]. split; [reflexivity |].
  split; [reflexivity |]. split.
  - destruct (@C1_replication_hijack demoCollab 0 1%N demoRunning demoRunning
                demoRunning "fullsync" [] (mkReplManager [] [])
                eq_refl eq_refl eq_refl eq_refl eq_refl) as [Hfull _].
    destruct (Hfull eq_refl "fullsync" "0" "10.0.0.7" "6380" eq_refl)
      as (st' & Hrun & Hsock & _ & _ & Hstat).
    exists st'. split; [exact Hrun |]. split; [exact Hsock |].
    rewrite Hstat. reflexivity.
  - destruct (@C1_replication_hijack demoCollab 0 2%N demoRunning demoRunning
                demoRunning "incrsync" [] (mkReplManager [] [])
                eq_refl eq_refl eq_refl eq_refl eq_refl) as [_ Hincr].
    destruct (Hincr eq_refl "incrsync" "0" "7" "42" "10.0.0.7" "6380" eq_refl)
      as (st' & Hrun & Hsock & _ & _ & Hstat).
    exists st'. split; [exact Hrun |]. split; [exact Hsock |].
    rewrite Hstat. reflexivity.
Defined.

Lemma C3_dispatch_outcomes_witness :
  @processRequest demoCollab 0 4%N (newServerEntry demoCfg demoObjs)
    = (Done false, newServerEntry demoCfg demoObjs, []) /\
  (exists st',
     @processRequest demoCollab 0 3%N demoRunning =
       (Done true, st',
        [EvPrecheck 3%N; EvSetCloseAfterRsp 3%N; EvSetResponse 3%N ("+OK" +:+ CRLF)]) /\
     sess_closeAfterRsp (sessObjs st' 3%N) = true /\
     sess_resp (sessObjs st' 3%N) = "+OK" +:+ CRLF) /\
  (exists st',
     @processRequest demoCollab 0 4%N demoRunning =
       (Done true, st',
        [EvPrecheck 4%N; EvRunSessionCmd 4%N; EvSetResponse 4%N ("+PONG" +:+ CRLF)]) /\
     sess_resp (sessObjs st' 4%N) = "+PONG" +:+ CRLF).
Proof.
  split; [| split].
  - destruct (@C3_dispatch_outcomes demoCollab 0 4%N (newServerEntry demoCfg demoObjs))
      as (Hoff & _). apply Hoff. reflexivity.
  - destruct (@C3_dispatch_outcomes demoCollab 0 3%N demoRunning) as (_ & _ & Hon).
    destruct (Hon eq_refl "quit" demoRunning demoRunning [] eq_refl eq_refl)
      as (Hquit & _).
    destruct (Hquit eq_refl eq_refl) as (st' & Hrun & Hobj & _).
    exists st'. split; [exact Hrun |]. rewrite Hobj. split; reflexivity.
  - destruct (@C3_dispatch_outcomes demoCollab 0 4%N demoRunning) as (_ & _ & Hon).
    destruct (Hon eq_refl "SET" demoRunning demoRunning [] eq_refl eq_refl)
      as (_ & Hother).
    destruct (Hother ltac:(discriminate) ltac:(discriminate) ltac:(discriminate)
                (Value ("+PONG" +:+ CRLF)) demoRunning eq_refl)
      as (st' & Hrun & Hobj & _).
    exists st'. split; [exact Hrun |]. rewrite Hobj. reflexivity.
Defined.

Lemma C7_monitor_fanout_witness :
  let line := "+1700000000.123456 [0 10.0.0.7:51234] " +:+
              DQUOTE +:+ "SET" +:+ DQUOTE +:+ " " +:+
              DQUOTE +:+ "x" +:+ DQUOTE +:+ " " +:+
              DQUOTE +:+ "1" +:+ DQUOTE +:+ CRLF in
  _isRunning demoMonitoring = true /\
  @Command_precheck demoCollab 4%N demoMonitoring = (Done (Value "SET"), demoMonitoring) /\
  sess_resp (sessObjs demoMonitoring 6%N) = EmptyString /\
  (exists st2,
     replyMonitors 1700000000123456 4%N demoMonitoring
       = (Done tt, st2, [EvSetResponse 6%N line]) /\
     sess_resp (sessObjs st2 6%N) = line) /\
  (exists r st' rest,
     @processRequest demoCollab 1700000000123456 4%N demoMonitoring
       = (r, st', EvPrecheck 4%N :: EvSetResponse 6%N line :: rest) /\
     rest = [EvRunSessionCmd 4%N; EvSetResponse 4%N ("+PONG" +:+ CRLF)] /\
     sess_resp (sessObjs st' 6%N) = line).
Proof.
  intros line. split; [reflexivity |]. split; [reflexivity |]. split; [reflexivity |].
  destruct (@C7_monitor_fanout demoCollab 1700000000123456 4%N demoMonitoring)
    as (_ & _ & Hok & _).
  destruct (Hok eq_refl "SET" demoMonitoring (mkSessionCtx 0 false) eq_refl eq_refl)
    as (_ & Hreply & Hbuf & _ & _ & _ & r & st' & rest & Hrun & _ & _ & Hcmd).
  assert (Hline : sess_resp
                    (sessObjs (with_sessObjs
                       (broadcast (monitorLine (wrap64 1700000000123456) 0
                                     (sess_remote (sessObjs demoMonitoring 4%N))
                                     (sess_args (sessObjs demoMonitoring 4%N)))
                          (_monitors demoMonitoring) (sessObjs demoMonitoring))
                       demoMonitoring) 6%N) = line).
  { rewrite Hbuf; [reflexivity | apply NoDup_singleton
                   | apply list_elem_of_singleton; reflexivity]. }
  split.
  - eexists. split; [exact Hreply | exact Hline].
  - exists r, st', rest. split; [exact Hrun |]. split.
    + vm_compute in Hrun. injection Hrun as _ _ <-. reflexivity.
    + destruct (Hcmd ltac:(discriminate) ltac:(discriminate) ltac:(discriminate))
        as (r3 & st3 & Hrun3 & Hother).
      rewrite (Hother 6%N) by discriminate.
      injection Hrun3 as _ <-. exact Hline.
Defined.

(** ** Store lifecycle *)

Section Stores.
Context `{Collab}.

Lemma run_getDb sess storeId mode st seg :
  _segmentMgr st = Some seg ->
  getDb sess storeId mode st =
  (Done (SegmentMgr_getDb st sess storeId mode), st, [EvGetDb storeId mode]).
Proof.
  intros Hseg. unfold getDb. rewrite run_bind, (run_deref _ _ _ Hseg). cbv beta iota.
  reflexivity.
Qed.

Lemma run_getStoreMainMeta id st c :
  _catalog st = Some c ->
  getStoreMainMeta id st =
  (Done (if negb (Status_ok (Catalog_read_status c id))
         then Unexpected (Catalog_read_status c id)
         else match cat_metas c !! id with
              | Some m => Value (mkStoreMainMeta id m)
              | None => Unexpected (mkStatus ERR_NOTFOUND EmptyString)
              end),
   st, [EvGetStoreMainMeta id]).
Proof.
  intros Hc. unfold getStoreMainMeta.
  rewrite run_bind, (run_deref _ _ _ Hc). cbv beta iota.
  rewrite run_bind, run_emit. cbv beta iota.
  destruct (negb (Status_ok (Catalog_read_status c id))); [reflexivity |].
  destruct (cat_metas c !! id); reflexivity.
Qed.

Lemma run_setStoreMainMeta meta st c :
  _catalog st = Some c ->
  setStoreMainMeta meta st =
  (Done (Catalog_write_status c meta),
   (if Status_ok (Catalog_write_status c meta)
    then with_catalog (Some (mkCatalog (<[meta_id meta := storeMode meta]> (cat_metas c))
                               (cat_kvStoreCount c) (cat_chunkSize c))) st
    else st),
   [EvSetStoreMainMeta meta]).
Proof.
  intros Hc. unfold setStoreMainMeta.
  rewrite run_bind, (run_deref _ _ _ Hc). cbv beta iota.
  rewrite run_bind, run_emit. cbv beta iota.
  destruct (Status_ok (Catalog_write_status c meta)); reflexivity.
Qed.

Lemma run_KVStore_destroy h st s :
  _kvstores st !! h = Some s ->
  KVStore_destroy h st =
  (Done (KVStore_destroy_status s),
   (if Status_ok (KVStore_destroy_status s)
    then with_kvstores (<[h := mkKVStore (dbId s) STORE_NONE (store_paused s)
                                (store_empty s) true]> (_kvstores st)) st
    else st),
   [EvStoreDestroy h]).
Proof.
  intros Hs. unfold KVStore_destroy.
  rewrite run_bind, (run_storeObj _ _ _ Hs). cbv beta iota.
  rewrite run_bind, run_emit. cbv beta iota.
  destruct (Status_ok (KVStore_destroy_status s)); reflexivity.
Qed.

Lemma run_KVStore_setMode h mode st s :
  _kvstores st !! h = Some s ->
  KVStore_setMode h mode st =
  (Done (KVStore_setMode_status s mode),
   (if Status_ok (KVStore_setMode_status s mode)
    then with_kvstores (<[h := mkKVStore (dbId s) mode (store_paused s)
                                (store_empty s) (store_destroyed s)]> (_kvstores st)) st
    else st),
   [EvStoreSetMode h mode]).
Proof.
  intros Hs. unfold KVStore_setMode.
  rewrite run_bind, (run_storeObj _ _ _ Hs). cbv beta iota.
  rewrite run_bind, run_emit. cbv beta iota.
  destruct (Status_ok (KVStore_setMode_status s mode)); reflexivity.
Qed.

Lemma run_ReplManager_stopStore storeId st r :
  _replMgr st = Some r ->
  ReplManager_stopStore storeId st =
  (Done (ReplManager_stopStore_status r storeId),
   (if Status_ok (ReplManager_stopStore_status r storeId)
    then with_replMgr (Some (mkReplManager (repl_conns r) (repl_stopped r ++ [storeId]))) st
    else st),
   [EvReplStopStore storeId]).
Proof.
  intros Hr. unfold ReplManager_stopStore.
  rewrite run_bind, (run_deref _ _ _ Hr). cbv beta iota.
  rewrite run_bind, run_emit. cbv beta iota.
  destruct (Status_ok (ReplManager_stopStore_status r storeId)); reflexivity.
Qed.

Lemma run_IndexManager_stopStore storeId st r :
  _indexMgr st = Some r ->
  IndexManager_stopStore storeId st =
  (Done (IndexManager_stopStore_status r storeId),
   (if Status_ok (IndexManager_stopStore_status r storeId)
    then with_indexMgr (Some (mkIndexManager (index_stopped r ++ [storeId]))) st
    else st),
   [EvIndexStopStore storeId]).
Proof.
  intros Hr. unfold IndexManager_stopStore.
  rewrite run_bind, (run_deref _ _ _ Hr). cbv beta iota.
  rewrite run_bind, run_emit. cbv beta iota.
  destruct (Status_ok (IndexManager_stopStore_status r storeId)); reflexivity.
Qed.

Lemma destroy_not_in_take storeId h n :
  (n <= 3)%nat -> EvStoreDestroy h ∉ take n (destroyCalls storeId h).
Proof.
  intros Hn Hin. destruct n as [|[|[|[|n]]]]; [| | | | lia]; cbn in Hin;
    repeat (apply elem_of_cons in Hin; destruct Hin as [Hin | Hin]; [discriminate |]);
    inversion Hin.
Qed.

(** Closing a branch of [destroyStore] that ends before [destroy]
    with [n] calls made and the stores as they were. *)
Ltac early_exit n :=
  eexists _, _, _; split; [reflexivity |];
  split; [first [intros; exfalso; congruence | intros _ _; repeat split; reflexivity] |];
  split; [first [intros; exfalso; congruence
                | intros [? | ?]; exfalso; congruence
                | intros _ _; repeat split; reflexivity] |];
  split; [exists n; reflexivity |];
  split; [intros Hin; exfalso; revert Hin;
          apply (destroy_not_in_take _ _ n); cbn; lia |];
  split; [intros _; reflexivity |];
  split; [intros; split; [apply (destroy_not_in_take _ _ n); cbn; lia | reflexivity] |];
  intros ?s Hs Hok;
  first [discriminate Hs
        | injection Hs as <-;
          first [discriminate Hok | cbn in Hok; congruence | congruence]].

(** Closing a branch that ends after [destroy] was called, with [n]
    calls made. *)
Ltac late_exit n c Hc Hwr :=
  eexists _, _, _; split; [reflexivity |];
  split; [intros; exfalso; congruence |];
  split; [intros _ ?; exfalso; congruence |];
  split; [exists n; reflexivity |];
  split; [intros _; split; [reflexivity |]; split; [auto |];
          exists c; eexists; split; [reflexivity |]; split; [exact Hwr |];
          split; [reflexivity |]; cbn; apply lookup_insert_eq |];
  split; [first [intros _; reflexivity
                | intros Hn; exfalso; apply Hn; cbn;
                  do 3 (apply list_elem_of_further); apply list_elem_of_here] |];
  split; [intros ?c0 Hc0 Hw0; exfalso; congruence |].

(** C2.  With the shard handed out by [getDb] under the exclusive
    lock: a non-forced [destroyStore] on a non-empty store returns
    INTERNAL "try to close an unempty store", and otherwise an
    unpaused store is refused with INTERNAL; in both cases nothing is
    called after [getDb] and the state is unchanged.  The calls of
    [destroyStore] are always an initial part of: read the meta, write
    it with [STORE_NONE], [store.destroy()], replication
    [stopStore(storeId)], index [stopStore(storeId)].  [destroy] is
    called only on a paused (and, unless forced, empty) store after a
    successful catalog write of [STORE_NONE]; whenever it is not
    called, in particular when the catalog write fails, the stores are
    untouched.  When [destroyStore] returns OK all five calls were
    made in that order, the catalog holds [STORE_NONE] for the shard
    and the store is destroyed. *)
Theorem C2_destroyStore (sess : N) (storeId : Z) (isForce : bool) (st : State)
    (seg : SegmentMgr) (h : nat) (store : KVStore) :
  _segmentMgr st = Some seg ->
  SegmentMgr_getDb st sess storeId LOCK_X = Value h ->
  _kvstores st !! h = Some store ->
  exists r st' evs,
    destroyStore sess storeId isForce st = (r, st', evs) /\
    (isForce = false -> store_empty store = false ->
       r = Done (mkStatus ERR_INTERNAL "try to close an unempty store") /\
       st' = st /\ evs = [EvGetDb storeId LOCK_X]) /\
    (isForce = true \/ store_empty store = true -> store_paused store = false ->
       r = Done (mkStatus ERR_INTERNAL "please pausestore first before destroystore") /\
       st' = st /\ evs = [EvGetDb storeId LOCK_X]) /\
    (exists n, evs = take n (destroyCalls storeId h)) /\
    (EvStoreDestroy h ∈ evs ->
       store_paused store = true /\
       (isForce = true \/ store_empty store = true) /\
       exists c c',
         _catalog st = Some c /\
         Status_ok (Catalog_write_status c (mkStoreMainMeta storeId STORE_NONE)) = true /\
         _catalog st' = Some c' /\
         cat_metas c' !! storeId = Some STORE_NONE) /\
    (EvStoreDestroy h ∉ evs -> _kvstores st' = _kvstores st) /\
    (forall c, _catalog st = Some c ->
       Status_ok (Catalog_write_status c (mkStoreMainMeta storeId STORE_NONE)) = false ->
       (EvStoreDestroy h ∉ evs) /\ _kvstores st' = _kvstores st) /\
    (forall s, r = Done s -> Status_ok s = true ->
       evs = destroyCalls storeId h /\
       (exists c', _catalog st' = Some c' /\ cat_metas c' !! storeId = Some STORE_NONE) /\
       _kvstores st' !! h =
         Some (mkKVStore (dbId store) STORE_NONE (store_paused store)
                 (store_empty store) true) /\
       (exists rm, _replMgr st' = Some rm /\ storeId ∈ repl_stopped rm) /\
       (exists im, _indexMgr st' = Some im /\ storeId ∈ index_stopped im)).
Proof.
  intros Hseg Hdb Hstore. unfold destroyStore.
  rewrite run_bind, (run_getDb _ _ _ _ _ Hseg), Hdb. cbv beta iota.
  rewrite run_bind, (run_storeObj _ _ _ Hstore). cbv beta iota.
  destruct isForce, (store_empty store) eqn:Hempty; cbn [negb andb];
    try (rewrite run_ret; early_exit 1%nat).
  all: destruct (store_paused store) eqn:Hpaused; cbn [negb];
    try (rewrite run_ret; early_exit 1%nat).
  all: rewrite run_bind.
  all: destruct (_catalog st) as [c|] eqn:Hc;
    [| unfold getStoreMainMeta; rewrite run_bind, (run_deref_null _ _ Hc);
       early_exit 1%nat].
  all: rewrite (run_getStoreMainMeta _ _ _ Hc); cbv beta iota.
  all: destruct (Status_ok (Catalog_read_status c storeId)) eqn:Hrd; cbn [negb];
    [| rewrite run_ret; early_exit 2%nat].
  all: destruct (cat_metas c !! storeId) as [m|] eqn:Hmeta;
    [| rewrite run_ret; early_exit 2%nat].
  all: cbn [meta_id]; rewrite run_bind, (run_setStoreMainMeta _ _ _ Hc); cbv beta iota.
  all: destruct (Status_ok (Catalog_write_status c (mkStoreMainMeta storeId STORE_NONE)))
         eqn:Hwr; cbn [negb];
    [| rewrite run_ret; early_exit 3%nat].
  all: rewrite run_bind; erewrite run_KVStore_destroy by exact Hstore; cbv beta iota.
  all: destruct (Status_ok (KVStore_destroy_status store)) eqn:Hds; cbn [negb];
    [| rewrite run_ret; late_exit 4%nat c Hc Hwr;
       intros s Hs Hok; injection Hs as <-; congruence].
  all: rewrite run_bind.
  all: destruct (_replMgr st) as [rm|] eqn:Hrm;
    [| unfold ReplManager_stopStore; rewrite run_bind;
       erewrite run_deref_null by exact Hrm;
       late_exit 4%nat c Hc Hwr; intros s Hs; discriminate Hs].
  all: erewrite run_ReplManager_stopStore by exact Hrm; cbv beta iota.
  all: destruct (Status_ok (ReplManager_stopStore_status rm storeId)) eqn:Hrs; cbn [negb];
    [| rewrite run_ret; late_exit 5%nat c Hc Hwr;
       intros s Hs Hok; injection Hs as <-; congruence].
  all: rewrite run_bind.
  all: destruct (_indexMgr st) as [im|] eqn:Him;
    [| unfold IndexManager_stopStore; rewrite run_bind;
       erewrite run_deref_null by exact Him;
       late_exit 5%nat c Hc Hwr; intros s Hs; discriminate Hs].
  all: erewrite run_IndexManager_stopStore by exact Him; cbv beta iota.
  all: rewrite run_ret.
  all: destruct (Status_ok (IndexManager_stopStore_status im storeId)) eqn:His;
    late_exit 6%nat c Hc Hwr;
    intros s Hs Hok; injection Hs as <-; [| congruence].
  all: split; [reflexivity |].
  all: split; [eexists; split; [reflexivity | cbn; apply lookup_insert_eq] |].
  all: split; [cbn; rewrite ?Hempty, ?Hpaused; apply list_lookup_insert_eq;
               eapply lookup_lt_Some; exact Hstore |].
  all: split; eexists; (split; [reflexivity |]); cbn;
    apply elem_of_app; right; apply list_elem_of_singleton; reflexivity.
Qed.

(** C9.  [setStoreMode store mode] returns OK with no call made and
    the state unchanged when the store already has the mode.
    Otherwise its first call is [store.setMode(mode)]; when that fails
    nothing else is called; a catalog write happens only after a
    successful [setMode], and writes the new mode under the store's
    id; and when [setMode] succeeds and the catalog hands out the
    store's meta, the function returns the status of that write, after
    which (the write succeeding) the catalog holds the mode for the
    store id, a catalog read yields it, and the store has it. *)
Theorem C9_setStoreMode (store : nat) (mode : StoreMode) (st : State) (s : KVStore) :
  _kvstores st !! store = Some s ->
  exists r st' evs,
    setStoreMode store mode st = (r, st', evs) /\
    (store_mode s = mode -> r = Done OK /\ st' = st /\ evs = []) /\
    (store_mode s <> mode ->
       (exists rest, evs = EvStoreSetMode store mode :: rest) /\
       (Status_ok (KVStore_setMode_status s mode) = false ->
          r = Abort FatalLogged /\ st' = st /\ evs = [EvStoreSetMode store mode]) /\
       (forall m, EvSetStoreMainMeta m ∈ evs ->
          Status_ok (KVStore_setMode_status s mode) = true /\
          storeMode m = mode /\ stoul (dbId s) = Value (meta_id m)) /\
       (forall storeId c old,
          Status_ok (KVStore_setMode_status s mode) = true ->
          stoul (dbId s) = Value storeId ->
          _catalog st = Some c ->
          Status_ok (Catalog_read_status c storeId) = true ->
          cat_metas c !! storeId = Some old ->
          let meta := mkStoreMainMeta storeId mode in
          r = Done (Catalog_write_status c meta) /\
          evs = [EvStoreSetMode store mode; EvGetStoreMainMeta storeId;
                 EvSetStoreMainMeta meta] /\
          (Status_ok (Catalog_write_status c meta) = true ->
             exists c',
               _catalog st' = Some c' /\
               cat_metas c' !! storeId = Some mode /\
               (Status_ok (Catalog_read_status c' storeId) = true ->
                  getStoreMainMeta storeId st' =
                    (Done (Value meta), st', [EvGetStoreMainMeta storeId])) /\
               _kvstores st' !! store =
                 Some (mkKVStore (dbId s) mode (store_paused s) (store_empty s)
                         (store_destroyed s))))).
Proof.
  intros Hstore. unfold setStoreMode.
  rewrite run_bind, (run_storeObj _ _ _ Hstore). cbv beta iota.
  destruct (decide (store_mode s = mode)) as [Heq | Hne].
  { rewrite run_ret. eexists _, _, _. split; [reflexivity |].
    split; [intros _; repeat split; reflexivity | intros Hc; contradiction]. }
  rewrite run_bind, (run_KVStore_setMode _ _ _ _ Hstore). cbv beta iota.
  assert (Hlt : (store < length (_kvstores st))%nat)
    by (eapply lookup_lt_Some; exact Hstore).
  destruct (Status_ok (KVStore_setMode_status s mode)) eqn:Hset; cbn [negb].
  2:{ rewrite run_stop. eexists _, _, _. split; [reflexivity |].
      split; [intros Hc; contradiction |]. intros _.
      split; [eexists; reflexivity |].
      split; [intros _; repeat split; reflexivity |].
      split; [| intros; discriminate].
      intros m Hin. cbn in Hin. apply list_elem_of_singleton in Hin. discriminate. }
  rewrite run_bind. erewrite run_storeObj
    by (cbn; apply list_lookup_insert_eq; exact Hlt).
  cbv beta iota. cbn [dbId].
  destruct (stoul (dbId s)) as [status | storeId] eqn:Hid.
  { rewrite run_ret. eexists _, _, _. split; [reflexivity |].
    split; [intros Hc; contradiction |]. intros _.
    split; [eexists; reflexivity |].
    split; [intros; discriminate |].
    split; [| intros; discriminate].
    intros m Hin. cbn in Hin. apply list_elem_of_singleton in Hin. discriminate. }
  rewrite run_bind.
  destruct (_catalog st) as [c|] eqn:Hc.
  2:{ unfold getStoreMainMeta. rewrite run_bind.
      erewrite run_deref_null by exact Hc.
      eexists _, _, _. split; [reflexivity |].
      split; [intros Hc'; contradiction |]. intros _.
      split; [eexists; reflexivity |].
      split; [intros; discriminate |].
      split; [| intros; discriminate].
      intros m Hin. cbn in Hin. apply list_elem_of_singleton in Hin. discriminate. }
  erewrite run_getStoreMainMeta by exact Hc. cbv beta iota.
  destruct (Status_ok (Catalog_read_status c storeId)) eqn:Hrd; cbn [negb];
    [destruct (cat_metas c !! storeId) as [old|] eqn:Hold |].
  2,3: (rewrite run_stop; eexists _, _, _; split; [reflexivity |];
        split; [intros Hc'; contradiction |]; intros _;
        split; [eexists; reflexivity |];
        split; [intros; discriminate |];
        split; [| intros ? ? ? _ [= <-] [= <-] ? ?; congruence];
        intros m Hin; cbn in Hin;
        repeat (apply elem_of_cons in Hin; destruct Hin as [Hin | Hin]; [discriminate |]);
        inversion Hin).
  cbn [meta_id]. erewrite run_setStoreMainMeta by exact Hc.
  eexists _, _, _. split; [reflexivity |].
  split; [intros Hc'; contradiction |]. intros _.
  split; [eexists; reflexivity |].
  split; [intros; discriminate |].
  split.
  { intros m Hin. cbn in Hin.
    repeat (apply elem_of_cons in Hin; destruct Hin as [Hin | Hin];
            [try discriminate |]); [| inversion Hin].
    injection Hin as ->. repeat split; reflexivity. }
  intros storeId' c0 old0 _ [= <-] [= <-] _ _.
  split; [reflexivity |]. split; [reflexivity |].
  intros Hwr. rewrite Hwr.
  eexists. split; [reflexivity |].
  split; [cbn; apply lookup_insert_eq |].
  split.
  { intros Hrd'. erewrite run_getStoreMainMeta by reflexivity.
    rewrite Hrd'. cbn [negb cat_metas]. rewrite lookup_insert_eq. reflexivity. }
  cbn. apply list_lookup_insert_eq. exact Hlt.
Qed.

End Stores.

Lemma C2_destroyStore_witness :
  _segmentMgr demoPaused = Some (mkSegmentMgr 3 16) /\
  @SegmentMgr_getDb demoCollab demoPaused 4%N 2 LOCK_X = Value 2%nat /\
  _kvstores demoPaused !! 2%nat = Some (mkKVStore "2" READ_WRITE true false false) /\
  @destroyStore demoCollab 4%N 2 false demoPaused
    = (Done (mkStatus ERR_INTERNAL "try to close an unempty store"), demoPaused,
       [EvGetDb 2 LOCK_X]) /\
  (exists st',
     @destroyStore demoCollab 4%N 2 true demoPaused = (Done OK, st', destroyCalls 2 2) /\
     (exists c', _catalog st' = Some c' /\ cat_metas c' !! 2 = Some STORE_NONE) /\
     _kvstores st' !! 2%nat = Some (mkKVStore "2" STORE_NONE true false true)).
Proof.
  split; [reflexivity |]. split; [reflexivity |]. split; [reflexivity |]. split.
  - destruct (@C2_destroyStore demoCollab 4%N 2 false demoPaused (mkSegmentMgr 3 16)
                2%nat (mkKVStore "2" READ_WRITE true false false)
                eq_refl eq_refl eq_refl)
      as (r & st' & evs & Hrun & Hunempty & _).
    destruct (Hunempty eq_refl eq_refl) as (-> & -> & ->). exact Hrun.
  - destruct (@C2_destroyStore demoCollab 4%N 2 true demoPaused (mkSegmentMgr 3 16)
                2%nat (mkKVStore "2" READ_WRITE true false false)
                eq_refl eq_refl eq_refl)
      as (r & st' & evs & Hrun & _ & _ & _ & _ & _ & _ & Hsuccess).
    assert (Hr : r = Done OK).
    { pose proof Hrun as Hrun'. vm_compute in Hrun'.
      injection Hrun' as <- _ _. reflexivity. }
    subst r. destruct (Hsuccess OK eq_refl eq_refl) as (-> & Hcat & Hstore & _).
    exists st'. split; [exact Hrun |]. split; [exact Hcat | exact Hstore].
Defined.

Lemma C9_setStoreMode_witness :
  _kvstores demoRunning !! 0%nat = Some (mkKVStore "0" READ_WRITE false true false) /\
  exists st',
    @setStoreMode demoCollab 0%nat REPLICATE_ONLY demoRunning =
      (Done OK, st',
       [EvStoreSetMode 0%nat REPLICATE_ONLY; EvGetStoreMainMeta 0;
        EvSetStoreMainMeta (mkStoreMainMeta 0 REPLICATE_ONLY)]) /\
    @getStoreMainMeta demoCollab 0 st' =
      (Done (Value (mkStoreMainMeta 0 REPLICATE_ONLY)), st', [EvGetStoreMainMeta 0]) /\
    _kvstores st' !! 0%nat = Some (mkKVStore "0" REPLICATE_ONLY false true false).
Proof.
  split; [reflexivity |].
  destruct (@C9_setStoreMode demoCollab 0%nat REPLICATE_ONLY demoRunning
              (mkKVStore "0" READ_WRITE false true false) eq_refl)
    as (r & st' & evs & Hrun & _ & Hne).
  destruct (Hne ltac:(discriminate)) as (_ & _ & _ & Hpersist).
  destruct (_catalog demoRunning) as [c|] eqn:Hc; [| discriminate Hc].
  destruct (cat_metas c !! 0) as [old|] eqn:Hold;
    [| vm_compute in Hc; injection Hc as <-; discriminate Hold].
  destruct (Hpersist 0 c old eq_refl eq_refl eq_refl eq_refl Hold) as (-> & -> & Hwr).
  destruct (Hwr eq_refl) as (c' & Hc' & _ & Hread & Hstore).
  exists st'. split; [exact Hrun |]. split; [apply Hread; reflexivity | exact Hstore].
Defined.

(** ** Startup *)

Section Startup.
Context `{Collab}.

(** The store loop touches the catalog only. *)
Lemma openStores_run ids st :
  exists r st' e,
    openStores ids st = (r, st', e) /\
    _executorList st' = _executorList st /\
    _isRunning st' = _isRunning st /\
    (is_Some (_catalog st) ->
     (forall c id, Status_ok (Catalog_read_status c id) = true) ->
     (forall c m, Status_ok (Catalog_write_status c m) = true) ->
     exists stores, r = Done stores).
Proof.
  revert st. induction ids as [|i ids IH]; intros st.
  - cbn [openStores]. rewrite run_ret. eexists _, _, _.
    split; [reflexivity |]. repeat split; eauto.
  - cbn [openStores]. rewrite run_bind.
    destruct (_catalog st) as [c|] eqn:Hc.
    2:{ unfold getStoreMainMeta. rewrite run_bind, (run_deref_null _ _ Hc).
        eexists _, _, _. split; [reflexivity |]. split; [reflexivity |].
        split; [reflexivity |]. intros [x Hx]. discriminate. }
    rewrite (run_getStoreMainMeta _ _ _ Hc). cbv beta iota.
    rewrite run_bind.
    assert (Hhealthy : forall status,
              (if negb (Status_ok (Catalog_read_status c (Z.of_nat i)))
               then Unexpected (Catalog_read_status c (Z.of_nat i))
               else match cat_metas c !! Z.of_nat i with
                    | Some m => Value (mkStoreMainMeta (Z.of_nat i) m)
                    | None => Unexpected (mkStatus ERR_NOTFOUND EmptyString)
                    end) = Unexpected status ->
              (forall c id, Status_ok (Catalog_read_status c id) = true) ->
              code status = ERR_NOTFOUND).
    { intros status Hst Hr. rewrite Hr in Hst. cbn [negb] in Hst.
      destruct (cat_metas c !! Z.of_nat i); [discriminate |].
      injection Hst as <-. reflexivity. }
    destruct (if negb (Status_ok (Catalog_read_status c (Z.of_nat i)))
              then Unexpected (Catalog_read_status c (Z.of_nat i))
              else match cat_metas c !! Z.of_nat i with
                   | Some m => Value (mkStoreMainMeta (Z.of_nat i) m)
                   | None => Unexpected (mkStatus ERR_NOTFOUND EmptyString)
                   end) as [status | m].
    + destruct (code status) eqn:Hcode;
        try (rewrite run_stop; eexists _, _, _; split; [reflexivity |];
             split; [reflexivity |]; split; [reflexivity |];
             intros _ Hr _; specialize (Hhealthy status eq_refl Hr); congruence).
      rewrite run_bind, (run_setStoreMainMeta _ _ _ Hc). cbv beta iota.
      destruct (Status_ok (Catalog_write_status c (mkStoreMainMeta (Z.of_nat i) READ_WRITE)))
        eqn:Hwr; cbn [negb].
      * rewrite run_ret. rewrite run_bind.
        match goal with
        | |- context [openStores ids ?s] =>
            destruct (IH s) as (r & st' & e & Hrun & Hex & Hrunning & Hok)
        end.
        rewrite Hrun. destruct r as [stores | why].
        -- rewrite run_ret. eexists _, _, _. split; [reflexivity |].
           split; [exact Hex |]. split; [exact Hrunning |]. eauto.
        -- eexists _, _, _. split; [reflexivity |].
           split; [exact Hex |]. split; [exact Hrunning |].
           intros _ Hr Hw. destruct (Hok ltac:(cbn; eauto) Hr Hw) as [x Hx].
           discriminate.
      * rewrite run_stop. eexists _, _, _. split; [reflexivity |].
        split; [reflexivity |]. split; [reflexivity |].
        intros _ _ Hw. rewrite Hw in Hwr. discriminate.
    + rewrite run_ret. cbn [storeMode]. rewrite run_bind.
      destruct (IH st) as (r & st' & e & Hrun & Hex & Hrunning & Hok).
      rewrite Hrun. destruct r as [stores | why].
      * rewrite run_ret. eexists _, _, _. split; [reflexivity |].
        split; [exact Hex |]. split; [exact Hrunning |]. eauto.
      * eexists _, _, _. split; [reflexivity |].
        split; [exact Hex |]. split; [exact Hrunning |].
        intros _ Hr Hw. destruct (Hok ltac:(rewrite Hc; eauto) Hr Hw) as [x Hx].
        discriminate.
Qed.

Lemma executorStartups_app a b :
  executorStartups (a ++ b) = executorStartups a ++ executorStartups b.
Proof. apply omap_app. Qed.

(** The store loop starts no worker pool. *)
Lemma openStores_no_startups ids :
  forall st r st' e, openStores ids st = (r, st', e) -> executorStartups e = [].
Proof.
  induction ids as [|i ids IH]; intros st r st' e.
  - cbn [openStores]. rewrite run_ret. intros [= _ _ <-]. reflexivity.
  - cbn [openStores]. rewrite run_bind.
    destruct (_catalog st) as [c|] eqn:Hc.
    2:{ unfold getStoreMainMeta. rewrite run_bind, (run_deref_null _ _ Hc).
        intros [= _ _ <-]. reflexivity. }
    rewrite (run_getStoreMainMeta _ _ _ Hc). cbv beta iota.
    rewrite run_bind.
    destruct (if negb (Status_ok (Catalog_read_status c (Z.of_nat i))) then _ else _)
      as [status | m].
    + destruct (code status);
        try (rewrite run_stop; intros [= _ _ <-]; reflexivity).
      rewrite run_bind, (run_setStoreMainMeta _ _ _ Hc). cbv beta iota.
      destruct (Status_ok (Catalog_write_status c _)); cbn [negb].
      * rewrite run_ret, run_bind.
        match goal with
        | |- context [openStores ids ?s] =>
            destruct (openStores ids s) as [[r1 s1] e1] eqn:Hsub
        end.
        apply IH in Hsub.
        destruct r1; [rewrite run_ret |]; cbv beta iota; intros [= _ _ <-];
          rewrite ?app_nil_r; exact Hsub.
      * rewrite run_stop. intros [= _ _ <-]. reflexivity.
    + rewrite run_ret, run_bind.
      destruct (openStores ids st) as [[r1 s1] e1] eqn:Hsub.
      apply IH in Hsub.
      destruct r1; [rewrite run_ret |]; cbv beta iota; intros [= _ _ <-];
        rewrite ?app_nil_r; exact Hsub.
Qed.

(** [startup(1)] called on the pools of [ids], and nothing else. *)
Lemma executorStartups_calls ids :
  executorStartups ((fun i => EvExecutorStartup (pool_name (poolAt i)) 1) <$> ids) =
  (fun i => ("req-exec-" +:+ to_string (Z.of_nat i), 1)) <$> ids.
Proof.
  induction ids as [|i ids IH]; [reflexivity |].
  rewrite !fmap_cons. change (executorStartups (?e :: ?l)) with
    (("req-exec-" +:+ to_string (Z.of_nat i), 1) :: executorStartups l).
  rewrite IH. reflexivity.
Qed.

(** The executor loop calls [startup(1)] on one pool after the other,
    appends each pool whose call succeeded, and stops at the first
    call that fails. *)
Lemma startExecutors_run ids st :
  exists s st' e j,
    startExecutors ids st = (Done s, st', e) /\
    (j <= length ids)%nat /\
    _executorList st' = _executorList st ++ (poolAt <$> take j ids) /\
    _isRunning st' = _isRunning st /\
    (Status_ok s = true -> j = length ids) /\
    ((forall i, i ∈ ids ->
        Status_ok (WorkerPool_startup_status (pool_name (poolAt i)) 1) = true) ->
     s = OK /\ j = length ids) /\
    (forall i, i ∈ take j ids ->
       Status_ok (WorkerPool_startup_status (pool_name (poolAt i)) 1) = true) /\
    ((j = length ids /\ s = OK /\
      e = (fun i => EvExecutorStartup (pool_name (poolAt i)) 1) <$> ids) \/
     ((j < length ids)%nat /\ Status_ok s = false /\
      (forall i, ids !! j = Some i ->
         s = WorkerPool_startup_status (pool_name (poolAt i)) 1) /\
      e = (fun i => EvExecutorStartup (pool_name (poolAt i)) 1) <$> take (S j) ids)).
Proof.
  revert st. induction ids as [|i ids IH]; intros st.
  - cbn [startExecutors]. rewrite run_ret. exists OK, st, [], O.
    split; [reflexivity |]. split; [reflexivity |].
    split; [cbn; rewrite app_nil_r; reflexivity |].
    split; [reflexivity |]. split; [reflexivity |].
    split; [intros _; split; reflexivity |].
    split; [intros i Hi; inversion Hi |]. left. repeat split.
  - cbn [startExecutors]. rewrite run_bind, run_emit. cbv beta iota.
    change ("req-exec-" +:+ to_string (Z.of_nat i)) with (pool_name (poolAt i)).
    destruct (Status_ok (WorkerPool_startup_status (pool_name (poolAt i)) 1)) eqn:Hst;
      cbn [negb].
    + rewrite run_bind, run_modify. cbv beta iota.
      match goal with
      | |- context [startExecutors ids ?s] =>
          destruct (IH s)
            as (s' & st' & e & j & Hrun & Hj & Hex & Hrunning & Hok & Hall & Hgood & Hcalls)
      end.
      rewrite Hrun. exists s', st', ([EvExecutorStartup (pool_name (poolAt i)) 1] ++ [] ++ e), (S j).
      split; [reflexivity |]. split; [cbn; lia |].
      split.
      { rewrite Hex. cbn. rewrite <- app_assoc. reflexivity. }
      split; [exact Hrunning |].
      split; [intros Hs; cbn; rewrite (Hok Hs); reflexivity |].
      split.
      { intros Hstart. destruct Hall as [-> ->].
        { intros k Hk. apply Hstart. apply list_elem_of_further. exact Hk. }
        split; reflexivity. }
      split.
      { intros k Hk. cbn [take] in Hk. apply elem_of_cons in Hk.
        destruct Hk as [-> | Hk]; [exact Hst | apply Hgood, Hk]. }
      destruct Hcalls as [(-> & -> & ->) | (Hlt & Hbad & Hfail & ->)].
      * left. repeat split.
      * right. split; [cbn; lia |]. split; [exact Hbad |].
        split; [exact Hfail | reflexivity].
    + rewrite run_ret. eexists _, _, _, O.
      split; [reflexivity |]. split; [cbn; lia |].
      split; [cbn; rewrite app_nil_r; reflexivity |].
      split; [reflexivity |].
      split; [intros Hs; congruence |].
      split.
      { intros Hstart. rewrite Hstart in Hst; [discriminate |]. apply list_elem_of_here. }
      split; [intros k Hk; inversion Hk |].
      right. split; [cbn; lia |]. split; [exact Hst |].
      split; [intros k [= <-]; reflexivity | reflexivity].
Qed.

Lemma executorCount_spec cfg :
  0 <= hardware_concurrency < 2 ^ 32 ->
  executorCount cfg hardware_concurrency =
  if executorThreadNum cfg =? 0 then Z.max 4 (hardware_concurrency / 2)
  else executorThreadNum cfg.
Proof.
  intros Hhc. unfold executorCount.
  destruct (executorThreadNum cfg =? 0); cbn [negb]; [| reflexivity].
  unfold wrap32. apply Z.mod_small.
  assert (0 <= hardware_concurrency / 2 < 2 ^ 31)
    by (split; [apply Z.div_pos; lia | apply Z.div_lt_upper_bound; lia]).
  lia.
Qed.

Lemma poolAt_lookup k i p :
  (poolAt <$> seq 0 k) !! i = Some p ->
  pool_name p = "req-exec-" +:+ to_string (Z.of_nat i) /\ pool_threads p = 1.
Proof.
  intros Hp. rewrite list_lookup_fmap in Hp.
  destruct (seq 0 k !! i) as [x|] eqn:Hx; [| discriminate].
  apply lookup_seq in Hx. destruct Hx as [-> _].
  injection Hp as <-. split; reflexivity.
Qed.

(** The [startup] calls of a run, from those of the store loop and of
    the executor loop; no other call of [startup] starts a pool. *)
Ltac pool_calls Ha Hb :=
  rewrite ?executorStartups_app, ?Ha, ?Hb;
  cbn [executorStartups omap list_omap app]; rewrite ?app_nil_r; reflexivity.

(** Closing a branch of [startup] that ends after every pool was
    started. *)
Ltac pools_leaf n He1 Hev2 :=
  eexists _, _, _; split; [reflexivity |];
  cbn [_executorList with_network with_replMgr with_indexMgr with_isRunning
       with_isStopped with_cronThd with_slowLog];
  match goal with
  | |- (exists k, _ /\ _ /\ _ /\ (executorStartups ?evs = _ \/ _)) /\ _ =>
      assert (executorStartups evs = oneThreadStartups (Z.to_nat n))
        by pool_calls He1 Hev2
  end;
  match goal with
  | Hlist : _executorList ?st2 = poolAt <$> seq 0 (Z.to_nat n),
    Hlen : Z.of_nat (length (_executorList ?st2)) = n,
    Hstarted : forall i, (i < Z.to_nat n)%nat -> _,
    Hnames : forall i p, _executorList ?st2 !! i = Some p -> _,
    Hcpu : hardware_concurrency <> 0 |- _ =>
      split; [exists (Z.to_nat n);
              split; [lia | split; [exact Hlist | split; [exact Hstarted | left; assumption]]] |];
      split; [exact Hnames |];
      split; [intros ?s _ _; repeat split; assumption |];
      split; [intros _ _ _; repeat split; assumption | intros Hz; contradiction]
  end.

(** C8.  Started on a coordinator without worker pools, on a machine
    whose [hardware_concurrency] fits [unsigned]: the pools [startup]
    has created are always the first of [req-exec-0], [req-exec-1],
    ..., at most [executorThreadNum] of them when that is non-zero and
    at most [max(4, hardware_concurrency/2)] otherwise.  Each of them
    was started: the [WorkerPool::startup] calls of the run are
    [startup(1)] on [req-exec-0], [req-exec-1], ... in this order, one
    call for each pool created, each of which succeeded, and at most
    one further call, which failed and whose status [startup] returns.
    The pools, and the calls, are exactly that many when [startup]
    succeeds, and already when the catalog is healthy,
    [hardware_concurrency] is non-zero and every pool starts.  With
    [hardware_concurrency = 0] no pool is created and none started,
    [startup] returns nothing but INTERNAL "cpu num cannot be
    detected", and it does return it when the catalog is healthy. *)
Theorem C8_worker_pools (cfg : ServerParams) (st0 : State) :
  _executorList st0 = [] ->
  0 <= hardware_concurrency < 2 ^ 32 ->
  0 <= executorThreadNum cfg ->
  let n := if executorThreadNum cfg =? 0 then Z.max 4 (hardware_concurrency / 2)
           else executorThreadNum cfg in
  let healthy :=
    (forall c id, Status_ok (Catalog_read_status c id) = true) /\
    (forall c m, Status_ok (Catalog_write_status c m) = true) in
  let nocpu := mkStatus ERR_INTERNAL "cpu num cannot be detected" in
  let started i := WorkerPool_startup_status (pool_name (poolAt i)) 1 in
  exists r st evs,
    startup cfg st0 = (r, st, evs) /\
    (exists k, (k <= Z.to_nat n)%nat /\ _executorList st = poolAt <$> seq 0 k /\
       (forall i, (i < k)%nat -> Status_ok (started i) = true) /\
       (executorStartups evs = oneThreadStartups k \/
        ((k < Z.to_nat n)%nat /\ Status_ok (started k) = false /\
         r = Done (started k) /\
         executorStartups evs = oneThreadStartups (S k)))) /\
    (forall i p, _executorList st !! i = Some p ->
       pool_name p = "req-exec-" +:+ to_string (Z.of_nat i) /\ pool_threads p = 1) /\
    (forall s, r = Done s -> Status_ok s = true ->
       hardware_concurrency <> 0 /\
       _executorList st = poolAt <$> seq 0 (Z.to_nat n) /\
       Z.of_nat (length (_executorList st)) = n /\
       executorStartups evs = oneThreadStartups (Z.to_nat n)) /\
    (hardware_concurrency <> 0 -> healthy ->
     (forall i, (i < Z.to_nat n)%nat -> Status_ok (started i) = true) ->
     _executorList st = poolAt <$> seq 0 (Z.to_nat n) /\
     Z.of_nat (length (_executorList st)) = n /\
     executorStartups evs = oneThreadStartups (Z.to_nat n)) /\
    (hardware_concurrency = 0 ->
       _executorList st = [] /\
       executorStartups evs = [] /\
       (forall s, r = Done s -> s = nocpu) /\
       (healthy -> r = Done nocpu)).
Proof.
  intros Hempty Hhc Hexe n healthy nocpu started.
  assert (Hn : 0 <= n).
  { subst n. destruct (executorThreadNum cfg =? 0); lia. }
  unfold startup.
  rewrite run_bind, run_emit. cbv beta iota.
  rewrite run_bind, run_emit. cbv beta iota.
  rewrite run_bind, run_emit. cbv beta iota.
  rewrite run_bind, run_modify. cbv beta iota.
  rewrite run_bind.
  match goal with
  | |- context [openStores ?ids ?s] =>
      destruct (openStores_run ids s) as (r1 & st1 & e1 & Hrun1 & Hex1 & _ & Hok1);
      pose proof (openStores_no_startups ids s r1 st1 e1 Hrun1) as He1;
      rewrite Hrun1
  end.
  cbn [_executorList with_catalog] in Hex1. rewrite Hempty in Hex1.
  destruct r1 as [tmpStores | why].
  2:{ eexists _, _, _. split; [reflexivity |].
      split.
      { exists O. split; [lia |]. split; [exact Hex1 |].
        split; [intros i Hi; lia |]. left. pool_calls He1 He1. }
      split; [intros i p Hp; rewrite Hex1 in Hp; discriminate |].
      split; [intros s Hs; discriminate |].
      split.
      { intros _ [Hr Hw] _. destruct (Hok1 ltac:(cbn; eauto) Hr Hw) as [x Hx].
        discriminate. }
      intros _. split; [exact Hex1 |]. split; [pool_calls He1 He1 |].
      split; [intros s Hs; discriminate |].
      intros [Hr Hw]. destruct (Hok1 ltac:(cbn; eauto) Hr Hw) as [x Hx]. discriminate. }
  rewrite run_bind, run_modify. cbv beta iota.
  rewrite run_bind, run_modify. cbv beta iota.
  rewrite run_bind, run_modify. cbv beta iota.
  rewrite run_bind, run_modify. cbv beta iota.
  destruct (Z.eqb_spec hardware_concurrency 0) as [Hzero | Hcpu].
  { rewrite run_ret. eexists _, _, _. split; [reflexivity |].
    cbn [_executorList with_kvstores with_segmentMgr with_pessimisticMgr with_mgLockMgr].
    split.
    { exists O. split; [lia |]. split; [exact Hex1 |].
      split; [intros i Hi; lia |]. left. pool_calls He1 He1. }
    split; [intros i p Hp; rewrite Hex1 in Hp; discriminate |].
    split; [intros s [= <-] Hs; discriminate |].
    split; [intros Hc; contradiction |].
    intros _. split; [exact Hex1 |]. split; [pool_calls He1 He1 |].
    split; [intros s [= <-]; reflexivity |].
    intros _. reflexivity. }
  rewrite run_bind, (executorCount_spec cfg Hhc). fold n.
  match goal with
  | |- context [startExecutors ?ids ?s] =>
      destruct (startExecutors_run ids s)
        as (s2 & st2 & e2 & j & Hrun2 & Hj & Hex2 & _ & Hok2 & Hall2 & Hgood2 & Hcalls2);
      rewrite Hrun2
  end.
  cbn [_executorList with_kvstores with_segmentMgr with_pessimisticMgr with_mgLockMgr]
    in Hex2.
  rewrite Hex1, app_nil_l in Hex2. rewrite length_seq in Hj, Hok2, Hall2, Hcalls2.
  rewrite take_seq, Nat.min_l in Hex2, Hgood2 by exact Hj.
  assert (Hnames : forall i p, _executorList st2 !! i = Some p ->
            pool_name p = "req-exec-" +:+ to_string (Z.of_nat i) /\ pool_threads p = 1).
  { intros i p Hp. rewrite Hex2 in Hp. eapply poolAt_lookup. exact Hp. }
  assert (Hstarted : forall i, (i < j)%nat -> Status_ok (started i) = true).
  { intros i Hi. apply Hgood2. apply elem_of_seq. lia. }
  assert (Hfull : j = Z.to_nat n ->
            _executorList st2 = poolAt <$> seq 0 (Z.to_nat n) /\
            Z.of_nat (length (_executorList st2)) = n).
  { intros ->. split; [exact Hex2 |].
    rewrite Hex2, length_fmap, length_seq. lia. }
  cbv beta iota.
  destruct Hcalls2 as [(Hjn & -> & He2) | (Hlt & Hbad & Hfail & He2)].
  2:{ (* the call on pool [j] failed *)
      rewrite Hbad. cbn [negb]. rewrite run_ret.
      assert (Hs2 : s2 = started j).
      { apply Hfail. apply lookup_seq_lt. exact Hlt. }
      assert (Hev2 : executorStartups e2 = oneThreadStartups (S j)).
      { rewrite He2, executorStartups_calls, take_seq, Nat.min_l by lia. reflexivity. }
      eexists _, _, _. split; [reflexivity |].
      split.
      { exists j. split; [exact Hj |]. split; [exact Hex2 |].
        split; [exact Hstarted |]. right.
        split; [exact Hlt |]. split; [rewrite <- Hs2; exact Hbad |].
        split; [rewrite Hs2; reflexivity |]. pool_calls He1 Hev2. }
      split; [exact Hnames |].
      split; [intros s [= <-] Hs; congruence |].
      split.
      { intros _ _ Hpools. exfalso. rewrite Hs2 in Hbad.
        rewrite (Hpools j Hlt) in Hbad. discriminate. }
      intros Hz. contradiction. }
  (* every pool was started *)
  assert (Hev2 : executorStartups e2 = oneThreadStartups (Z.to_nat n)).
  { rewrite He2. apply executorStartups_calls. }
  destruct (Hfull Hjn) as [Hlist Hlen]. subst j.
  change (Status_ok OK) with true. cbn [negb].
  mrun.
  destruct (Status_ok (NetworkAsio_prepare_status (bindIp cfg) (port cfg)
                         (netIoThreadNum cfg))) eqn:Hprep; cbn [negb];
    [| mrun; pools_leaf n He1 Hev2].
  mrun.
  destruct (Status_ok ReplManager_startup_status) eqn:Hrepl; cbn [negb];
    [| mrun; pools_leaf n He1 Hev2].
  destruct (noexpire cfg); cbn [negb]; mrun.
  - change (Status_ok OK) with true. cbn [negb]. mrun.
    destruct (Status_ok NetworkAsio_run_status) eqn:Hnet; cbn [negb];
      [| mrun; pools_leaf n He1 Hev2].
    unfold initSlowlog. mrun.
    destruct (ofstream_open_ok (slowlogPath cfg)); mrun; pools_leaf n He1 Hev2.
  - destruct (Status_ok IndexManager_startup_status) eqn:Hidx; cbn [negb];
      [| mrun; pools_leaf n He1 Hev2].
    mrun.
    destruct (Status_ok NetworkAsio_run_status) eqn:Hnet; cbn [negb];
      [| mrun; pools_leaf n He1 Hev2].
    unfold initSlowlog. mrun.
    destruct (ofstream_open_ok (slowlogPath cfg)); mrun; pools_leaf n He1 Hev2.
Qed.

End Startup.

Lemma C8_worker_pools_witness :
  _executorList (newServerEntry demoCfg demoObjs) = [] /\
  0 <= @hardware_concurrency demoCollab < 2 ^ 32 /\
  0 <= executorThreadNum demoCfg /\
  exists st evs,
    @startup demoCollab demoCfg (newServerEntry demoCfg demoObjs) = (Done OK, st, evs) /\
    _executorList st =
      [mkWorkerPool "req-exec-0" 1; mkWorkerPool "req-exec-1" 1;
       mkWorkerPool "req-exec-2" 1; mkWorkerPool "req-exec-3" 1] /\
    executorStartups evs =
      [("req-exec-0", 1); ("req-exec-1", 1); ("req-exec-2", 1); ("req-exec-3", 1)].
Proof.
  assert (Hhc : 0 <= @hardware_concurrency demoCollab < 2 ^ 32) by (cbn; lia).
  assert (Hexe : 0 <= executorThreadNum demoCfg) by (cbn; lia).
  split; [reflexivity |]. split; [exact Hhc |]. split; [exact Hexe |].
  destruct (@C8_worker_pools demoCollab demoCfg (newServerEntry demoCfg demoObjs)
              eq_refl Hhc Hexe) as (r & st & evs & Hrun & _ & _ & Hsuccess & _).
  assert (Hr : r = Done OK).
  { pose proof Hrun as Hrun'. vm_compute in Hrun'.
    injection Hrun' as <- _ _. reflexivity. }
  subst r. destruct (Hsuccess OK eq_refl eq_refl) as (_ & Hpools & _ & Hcalls).
  exists st, evs. split; [exact Hrun |]. rewrite Hpools, Hcalls. split; reflexivity.
Defined.

(** * Further properties *)

(** ** Setters that change nothing *)

Lemma with_catalog_id st : with_catalog (_catalog st) st = st.
Proof. destruct st. reflexivity. Qed.

Lemma with_kvstores_id st : with_kvstores (_kvstores st) st = st.
Proof. destruct st. reflexivity. Qed.

Lemma with_executorList_id st : with_executorList (_executorList st) st = st.
Proof. destruct st. reflexivity. Qed.

(** ** One call of the sampler *)

Lemma track_run metric reading now1 now2 s m :
  instMetric s !! metric = Some m ->
  trackInstantaneousMetric metric reading now1 now2 s =
  Some (set_instMetric
          (fun a => <[metric :=
             mkInstMetric now2 reading
               (<[Z.to_nat (idx m) :=
                    if 0 <? sub64 now1 (lastSampleTime m)
                    then mul64 (sub64 reading (lastSampleCount m)) 1000
                         / sub64 now1 (lastSampleTime m)
                    else 0]> (samples m))
               ((idx m + 1) mod STATS_METRIC_SAMPLES)]> a) s).
Proof. intros Hm. unfold trackInstantaneousMetric. rewrite Hm. reflexivity. Qed.

Lemma track_inv metric reading now1 now2 s s' :
  trackInstantaneousMetric metric reading now1 now2 s = Some s' ->
  exists m, instMetric s !! metric = Some m /\
    s' = set_instMetric
          (fun a => <[metric :=
             mkInstMetric now2 reading
               (<[Z.to_nat (idx m) :=
                    if 0 <? sub64 now1 (lastSampleTime m)
                    then mul64 (sub64 reading (lastSampleCount m)) 1000
                         / sub64 now1 (lastSampleTime m)
                    else 0]> (samples m))
               ((idx m + 1) mod STATS_METRIC_SAMPLES)]> a) s.
Proof.
  intros Hrun. destruct (instMetric s !! metric) as [m|] eqn:Hm.
  - exists m. split; [reflexivity |].
    rewrite (track_run _ _ _ _ _ _ Hm) in Hrun. injection Hrun as <-. reflexivity.
  - unfold trackInstantaneousMetric in Hrun. rewrite Hm in Hrun. discriminate.
Qed.

(** ** The loops and the outcomes of startup *)

Section StartupShape.
Context `{Collab}.

(** The store loop changes the catalog only; it reads and writes the
    records of the shards it is given, and every store it opens
    carries its shard number as id and the mode the catalog then
    holds for it. *)
Lemma openStores_shape ids :
  NoDup ids ->
  forall st, exists r st' e,
    openStores ids st = (r, st', e) /\
    (exists c', st' = with_catalog c' st) /\
    Forall (fun x => is_catalog_call x = true) e /\
    (forall c, _catalog st = Some c ->
       exists c', _catalog st' = Some c' /\
         cat_kvStoreCount c' = cat_kvStoreCount c /\
         cat_chunkSize c' = cat_chunkSize c /\
         forall k, k ∉ (Z.of_nat <$> ids) -> cat_metas c' !! k = cat_metas c !! k) /\
    (forall stores, r = Done stores ->
       length stores = length ids /\
       forall j i s, ids !! j = Some i -> stores !! j = Some s ->
         dbId s = to_string (Z.of_nat i) /\
         exists c', _catalog st' = Some c' /\
           cat_metas c' !! Z.of_nat i = Some (store_mode s)).
Proof.
  induction ids as [|i ids IH]; intros Hnd st.
  - cbn [openStores]. rewrite run_ret. exists (Done []), st, [].
    split; [reflexivity |].
    split; [exists (_catalog st); symmetry; apply with_catalog_id |].
    split; [constructor |].
    split; [intros c Hc; exists c; repeat split; auto |].
    intros stores [= <-]. split; [reflexivity |].
    intros j i s Hj. discriminate.
  - apply list.NoDup_cons in Hnd. destruct Hnd as [Hi Hnd].
    cbn [openStores]. rewrite run_bind.
    destruct (_catalog st) as [c|] eqn:Hc.
    2:{ unfold getStoreMainMeta. rewrite run_bind, (run_deref_null _ _ Hc).
        eexists _, _, _. split; [reflexivity |].
        split; [exists (_catalog st); symmetry; apply with_catalog_id |].
        split; [constructor |].
        split; [intros c0 Hc0; congruence |].
        intros stores Hs. discriminate. }
    rewrite (run_getStoreMainMeta _ _ _ Hc). cbv beta iota.
    rewrite run_bind.
    (* what the rest of the loop contributes, from a state [st1] whose
       catalog [c1] holds [mode] for shard [i] *)
    assert (Hrest : forall st1 c1 mode,
              (exists x, st1 = with_catalog x st) ->
              _catalog st1 = Some c1 ->
              cat_kvStoreCount c1 = cat_kvStoreCount c ->
              cat_chunkSize c1 = cat_chunkSize c ->
              (forall k, k <> Z.of_nat i -> cat_metas c1 !! k = cat_metas c !! k) ->
              cat_metas c1 !! Z.of_nat i = Some mode ->
              exists r2 st2 e2,
                openStores ids st1 = (r2, st2, e2) /\
                (exists c', st2 = with_catalog c' st) /\
                Forall (fun x => is_catalog_call x = true) e2 /\
                (forall c0, Some c = Some c0 ->
                   exists c', _catalog st2 = Some c' /\
                     cat_kvStoreCount c' = cat_kvStoreCount c0 /\
                     cat_chunkSize c' = cat_chunkSize c0 /\
                     forall k, k ∉ (Z.of_nat <$> i :: ids) ->
                       cat_metas c' !! k = cat_metas c0 !! k) /\
                (forall a stores,
                   r2 = Done a ->
                   stores = mkKVStore (to_string (Z.of_nat i)) mode
                              (store_paused (KVStore_on_disk (Z.of_nat i)))
                              (store_empty (KVStore_on_disk (Z.of_nat i)))
                              (store_destroyed (KVStore_on_disk (Z.of_nat i))) :: a ->
                   length stores = length (i :: ids) /\
                   forall j i0 s, (i :: ids) !! j = Some i0 -> stores !! j = Some s ->
                     dbId s = to_string (Z.of_nat i0) /\
                     exists c', _catalog st2 = Some c' /\
                       cat_metas c' !! Z.of_nat i0 = Some (store_mode s))).
    { intros st1 c1 mode [x ->] Hc1 Hcount Hchunk Hframe Hmode.
      destruct (IH Hnd (with_catalog x st))
        as (r & st' & e & Hrun & [c' ->] & Hev & Hcat & Hstores).
      destruct (Hcat c1 Hc1) as (cf & Hcf & Hcnt & Hchk & Hsame).
      assert (Hnotin : Z.of_nat i ∉ (Z.of_nat <$> ids)).
      { intros Hin. apply list_elem_of_fmap in Hin. destruct Hin as (y & Hy & Hin).
        apply Nat2Z.inj in Hy. subst y. contradiction. }
      exists r, (with_catalog c' (with_catalog x st)), e.
      split; [exact Hrun |].
      split; [exists c'; reflexivity |].
      split; [exact Hev |].
      split.
      { intros c0 [= <-]. exists cf. split; [exact Hcf |].
        split; [congruence |]. split; [congruence |].
        intros k Hk. rewrite fmap_cons in Hk. apply not_elem_of_cons in Hk.
        destruct Hk as [Hki Hk]. rewrite (Hsame k Hk). apply Hframe. exact Hki. }
      intros a stores -> ->. destruct (Hstores a eq_refl) as [Hlen Heach].
      split; [cbn; rewrite Hlen; reflexivity |].
      intros [|j] i0 s Hj Hs.
      + cbn in Hj, Hs. injection Hj as <-. injection Hs as <-.
        split; [reflexivity |]. exists cf. split; [exact Hcf |].
        cbn [store_mode]. rewrite (Hsame _ Hnotin). exact Hmode.
      + cbn in Hj, Hs. exact (Heach j i0 s Hj Hs). }
    (* closing a branch that carries on with the rest of the loop *)
    assert (Hgo : forall st1 c1 mode (wrap : list event -> list event),
              (forall e2, Forall (fun x => is_catalog_call x = true) e2 ->
                          Forall (fun x => is_catalog_call x = true) (wrap e2)) ->
              (exists x, st1 = with_catalog x st) ->
              _catalog st1 = Some c1 ->
              cat_kvStoreCount c1 = cat_kvStoreCount c ->
              cat_chunkSize c1 = cat_chunkSize c ->
              (forall k, k <> Z.of_nat i -> cat_metas c1 !! k = cat_metas c !! k) ->
              cat_metas c1 !! Z.of_nat i = Some mode ->
              exists r st' e,
                match openStores ids st1 with
                | (Done a, st2, e2) =>
                    (Done (mkKVStore (to_string (Z.of_nat i)) mode
                             (store_paused (KVStore_on_disk (Z.of_nat i)))
                             (store_empty (KVStore_on_disk (Z.of_nat i)))
                             (store_destroyed (KVStore_on_disk (Z.of_nat i))) :: a),
                     st2, wrap (e2 ++ []))
                | (Abort why, st2, e2) => (Abort why, st2, wrap e2)
                end = (r, st', e) /\
                (exists c', st' = with_catalog c' st) /\
                Forall (fun x => is_catalog_call x = true) e /\
                (forall c0, Some c = Some c0 ->
                   exists c', _catalog st' = Some c' /\
                     cat_kvStoreCount c' = cat_kvStoreCount c0 /\
                     cat_chunkSize c' = cat_chunkSize c0 /\
                     forall k, k ∉ (Z.of_nat <$> i :: ids) ->
                       cat_metas c' !! k = cat_metas c0 !! k) /\
                (forall stores, r = Done stores ->
                   length stores = length (i :: ids) /\
                   forall j i0 s, (i :: ids) !! j = Some i0 -> stores !! j = Some s ->
                     dbId s = to_string (Z.of_nat i0) /\
                     exists c', _catalog st' = Some c' /\
                       cat_metas c' !! Z.of_nat i0 = Some (store_mode s))).
    { intros st1 c1 mode wrap Hwrap Hx Hc1 Hcount Hchunk Hframe Hmode.
      destruct (Hrest st1 c1 mode Hx Hc1 Hcount Hchunk Hframe Hmode)
        as (r2 & st2 & e2 & Hrun & Hshape & Hev & Hcat & Hstores).
      rewrite Hrun. destruct r2 as [a | why].
      - eexists _, _, _. split; [reflexivity |]. split; [exact Hshape |].
        split; [apply Hwrap; rewrite app_nil_r; exact Hev |].
        split; [exact Hcat |].
        intros stores [= <-]. exact (Hstores a _ eq_refl eq_refl).
      - eexists _, _, _. split; [reflexivity |]. split; [exact Hshape |].
        split; [apply Hwrap; exact Hev |].
        split; [exact Hcat |].
        intros stores Hs. discriminate. }
    assert (Hstop : forall pre,
              Forall (fun x => is_catalog_call x = true) pre ->
              exists r st' e,
                (Abort FatalLogged : result (list KVStore), st, pre) = (r, st', e) /\
                (exists c', st' = with_catalog c' st) /\
                Forall (fun x => is_catalog_call x = true) e /\
                (forall c0, Some c = Some c0 ->
                   exists c', _catalog st' = Some c' /\
                     cat_kvStoreCount c' = cat_kvStoreCount c0 /\
                     cat_chunkSize c' = cat_chunkSize c0 /\
                     forall k, k ∉ (Z.of_nat <$> i :: ids) ->
                       cat_metas c' !! k = cat_metas c0 !! k) /\
                (forall stores, r = Done stores ->
                   length stores = length (i :: ids) /\
                   forall j i0 s, (i :: ids) !! j = Some i0 -> stores !! j = Some s ->
                     dbId s = to_string (Z.of_nat i0) /\
                     exists c', _catalog st' = Some c' /\
                       cat_metas c' !! Z.of_nat i0 = Some (store_mode s))).
    { intros pre Hpre. eexists _, _, _. split; [reflexivity |].
      split; [exists (_catalog st); symmetry; apply with_catalog_id |].
      split; [exact Hpre |].
      split; [intros c0 [= <-]; exists c; repeat split; auto |].
      intros stores Hs. discriminate. }
    assert (Hwritten :
              let st1 := with_catalog
                           (Some (mkCatalog (<[Z.of_nat i := READ_WRITE]> (cat_metas c))
                                    (cat_kvStoreCount c) (cat_chunkSize c))) st in
              (exists x, st1 = with_catalog x st) /\
              (forall k, k <> Z.of_nat i ->
                 <[Z.of_nat i := READ_WRITE]> (cat_metas c) !! k = cat_metas c !! k) /\
              <[Z.of_nat i := READ_WRITE]> (cat_metas c) !! Z.of_nat i = Some READ_WRITE).
    { split; [eexists; reflexivity |].
      split; [intros k Hk; apply lookup_insert_ne; congruence | apply lookup_insert_eq]. }
    destruct Hwritten as (Hwx & Hwframe & Hwmode).
    destruct (Status_ok (Catalog_read_status c (Z.of_nat i))) eqn:Hrd; cbn [negb];
      [destruct (cat_metas c !! Z.of_nat i) as [m|] eqn:Hm |].
    + (* the record is there *)
      rewrite run_ret. cbn [storeMode]. rewrite run_bind.
      destruct (Hgo st c m (fun x => [EvGetStoreMainMeta (Z.of_nat i)] ++ [] ++ x))
        as (r & st' & e & Hrun & Hfacts); auto.
      { intros e2 He2. repeat constructor. exact He2. }
      { exists (_catalog st). symmetry. apply with_catalog_id. }
      exists r, st', e. split; [| exact Hfacts].
      rewrite <- Hrun. destruct (openStores ids st) as [[[a | why] st2] e2].
      * rewrite run_ret. reflexivity.
      * reflexivity.
    + (* no record: write the default *)
      cbn [code]. rewrite run_bind, (run_setStoreMainMeta _ _ _ Hc). cbv beta iota.
      cbn [meta_id storeMode].
      destruct (Status_ok (Catalog_write_status c (mkStoreMainMeta (Z.of_nat i) READ_WRITE)))
        eqn:Hwr; cbn [negb].
      * rewrite run_ret. rewrite run_bind.
        destruct (Hgo _ _ READ_WRITE
                    (fun x => [EvGetStoreMainMeta (Z.of_nat i)] ++
                              ([EvSetStoreMainMeta (mkStoreMainMeta (Z.of_nat i) READ_WRITE)]
                               ++ []) ++ x)
                    ltac:(intros e2 He2; repeat constructor; exact He2)
                    Hwx eq_refl eq_refl eq_refl Hwframe Hwmode)
          as (r & st' & e & Hrun & Hfacts).
        exists r, st', e. split; [| exact Hfacts].
        rewrite <- Hrun.
        destruct (openStores ids _) as [[[a | why] st2] e2].
        -- rewrite run_ret. reflexivity.
        -- reflexivity.
      * rewrite run_stop.
        destruct (Hstop ([EvGetStoreMainMeta (Z.of_nat i)] ++
                         [EvSetStoreMainMeta (mkStoreMainMeta (Z.of_nat i) READ_WRITE)]
                         ++ []))
          as (r & st' & e & Hrun & Hfacts); [repeat constructor |].
        exists r, st', e. split; [| exact Hfacts]. rewrite <- Hrun. reflexivity.
    + (* the read failed *)
      destruct (code (Catalog_read_status c (Z.of_nat i))) eqn:Hcode;
        try (rewrite run_stop;
             destruct (Hstop [EvGetStoreMainMeta (Z.of_nat i)])
               as (r & st' & e & Hrun & Hfacts); [repeat constructor |];
             exists r, st', e; split; [| exact Hfacts]; rewrite <- Hrun; reflexivity).
      rewrite run_bind, (run_setStoreMainMeta _ _ _ Hc). cbv beta iota.
      cbn [meta_id storeMode].
      destruct (Status_ok (Catalog_write_status c (mkStoreMainMeta (Z.of_nat i) READ_WRITE)))
        eqn:Hwr; cbn [negb].
      * rewrite run_ret. rewrite run_bind.
        destruct (Hgo _ _ READ_WRITE
                    (fun x => [EvGetStoreMainMeta (Z.of_nat i)] ++
                              ([EvSetStoreMainMeta (mkStoreMainMeta (Z.of_nat i) READ_WRITE)]
                               ++ []) ++ x)
                    ltac:(intros e2 He2; repeat constructor; exact He2)
                    Hwx eq_refl eq_refl eq_refl Hwframe Hwmode)
          as (r & st' & e & Hrun & Hfacts).
        exists r, st', e. split; [| exact Hfacts].
        rewrite <- Hrun.
        destruct (openStores ids _) as [[[a | why] st2] e2].
        -- rewrite run_ret. reflexivity.
        -- reflexivity.
      * rewrite run_stop.
        destruct (Hstop ([EvGetStoreMainMeta (Z.of_nat i)] ++
                         [EvSetStoreMainMeta (mkStoreMainMeta (Z.of_nat i) READ_WRITE)]
                         ++ []))
          as (r & st' & e & Hrun & Hfacts); [repeat constructor |].
        exists r, st', e. split; [| exact Hfacts]. rewrite <- Hrun. reflexivity.
Qed.

(** The executor loop changes [_executorList] only: it appends the
    pools it started, and stops at the first that fails. *)
Lemma startExecutors_shape ids :
  forall st, exists s st' e j,
    startExecutors ids st = (Done s, st', e) /\
    st' = with_executorList (_executorList st ++ (poolAt <$> take j ids)) st /\
    ((s = OK /\ j = length ids /\ e = startCalls ids) \/
     (Status_ok s = false /\ (j < length ids)%nat /\ e = startCalls (take (S j) ids))) /\
    ((forall i, i ∈ ids ->
        Status_ok (WorkerPool_startup_status (pool_name (poolAt i)) 1) = true) ->
     s = OK).
Proof.
  induction ids as [|i ids IH]; intros st.
  - cbn [startExecutors]. rewrite run_ret. exists OK, st, [], O.
    split; [reflexivity |].
    split; [cbn; rewrite app_nil_r; symmetry; apply with_executorList_id |].
    split; [left; repeat split |]. intros _. reflexivity.
  - cbn [startExecutors]. rewrite run_bind, run_emit. cbv beta iota.
    change ("req-exec-" +:+ to_string (Z.of_nat i)) with (pool_name (poolAt i)).
    destruct (Status_ok (WorkerPool_startup_status (pool_name (poolAt i)) 1)) eqn:Hst;
      cbn [negb].
    + rewrite run_bind, run_modify. cbv beta iota.
      match goal with
      | |- context [startExecutors ids ?s] =>
          destruct (IH s) as (s' & st' & e & j & Hrun & Hshape & Hcase & Hall)
      end.
      rewrite Hrun. exists s', st', (EvExecutorStartup (pool_name (poolAt i)) 1 :: e), (S j).
      split; [reflexivity |].
      split.
      { rewrite Hshape. cbn. rewrite <- app_assoc. reflexivity. }
      split.
      { destruct Hcase as [(-> & -> & ->) | (Hbad & Hj & ->)].
        - left. repeat split.
        - right. split; [exact Hbad |]. split; [cbn; lia | reflexivity]. }
      intros Hstart. apply Hall. intros k Hk. apply Hstart.
      apply list_elem_of_further. exact Hk.
    + rewrite run_ret. eexists _, _, _, O.
      split; [reflexivity |].
      split; [cbn; rewrite app_nil_r; symmetry; apply with_executorList_id |].
      split; [right; split; [exact Hst |]; split; [cbn; lia | reflexivity] |].
      intros Hstart. rewrite Hstart in Hst; [discriminate | apply list_elem_of_here].
Qed.

(** Closing a branch of [startup] that returns before the server
    runs. *)
Ltac startup_failed :=
  eexists _, _, _; split; [reflexivity |]; left;
  split; [first [ intros ?s ?Hs; discriminate
                | intros ?s [= <-]; first [assumption | reflexivity] ] |];
  split; [reflexivity |]; split; [reflexivity |]; split; [reflexivity |];
  split; [reflexivity |];
  split; [first [ intros _; reflexivity | intros ?Hexp; discriminate ] |].

(** The outcomes of [startup]: either it returns before the server
    runs, with the flags, the cron thread and the slow log untouched,
    and some collaborator did not report success; or it returns OK
    with every subsystem installed and the calls in their fixed
    order. *)
Lemma startup_outcome cfg st0 :
  exists r st evs,
    startup cfg st0 = (r, st, evs) /\
    (((forall s, r = Done s -> Status_ok s = false) /\
      _isRunning st = _isRunning st0 /\
      _isStopped st = _isStopped st0 /\
      _cronThd st = _cronThd st0 /\
      _slowLog st = _slowLog st0 /\
      (noexpire cfg = true -> _indexMgr st = _indexMgr st0) /\
      ~ startup_healthy cfg)
     \/
     (exists stores c cat,
        r = Done OK /\
        openStores (seq 0 (Z.to_nat (kvStoreCount cfg)))
          (with_catalog (Some (mkCatalog Catalog_on_disk (kvStoreCount cfg)
                                 (chunkSize cfg))) st0)
          = (Done stores, with_catalog (Some c) st0, cat) /\
        hardware_concurrency <> 0 /\
        evs = startupCalls cfg cat (Z.to_nat (executorCount cfg hardware_concurrency)) /\
        _isRunning st = true /\
        _isStopped st = false /\
        _cronThd st = true /\
        _catalog st = Some c /\
        _kvstores st = stores /\
        _segmentMgr st = Some (mkSegmentMgr (length stores) (chunkSize cfg)) /\
        _pessimisticMgr st = Some (mkPessimisticMgr (kvStoreCount cfg)) /\
        _mgLockMgr st = Some mkMGLockMgr /\
        _executorList st =
          _executorList st0 ++
          (poolAt <$> seq 0 (Z.to_nat (executorCount cfg hardware_concurrency))) /\
        _network st = Some (mkNetworkAsio (bindIp cfg) (port cfg) (netIoThreadNum cfg) true) /\
        _replMgr st = Some (mkReplManager [] []) /\
        _indexMgr st = (if noexpire cfg then _indexMgr st0
                        else Some (mkIndexManager [])) /\
        _slowLog st = (if ofstream_open_ok (slowlogPath cfg)
                       then mkOfstream (Some (slowlogPath cfg)) (os_out (_slowLog st0))
                       else _slowLog st0) /\
        _sessions st = _sessions st0 /\
        _monitors st = _monitors st0 /\
        _slowlogId st = _slowlogId st0)).
Proof.
  unfold startup.
  rewrite run_bind, run_emit. cbv beta iota.
  rewrite run_bind, run_emit. cbv beta iota.
  rewrite run_bind, run_emit. cbv beta iota.
  rewrite run_bind, run_modify. cbv beta iota.
  rewrite run_bind.
  set (st00 := with_catalog (Some (mkCatalog Catalog_on_disk (kvStoreCount cfg)
                                     (chunkSize cfg))) st0).
  destruct (openStores_shape (seq 0 (Z.to_nat (kvStoreCount cfg))) (NoDup_seq _ _) st00)
    as (r1 & st1 & cat & Hrun1 & [copt Hst1] & _ & Hcat1 & _).
  destruct (openStores_run (seq 0 (Z.to_nat (kvStoreCount cfg))) st00)
    as (r1' & st1' & cat' & Hrun1' & _ & _ & Hok1).
  rewrite Hrun1 in Hrun1'. injection Hrun1' as <- <- <-.
  rewrite Hrun1.
  destruct (Hcat1 _ eq_refl) as (c & Hc & _).
  assert (Hcopt : copt = Some c).
  { rewrite Hst1 in Hc. exact Hc. }
  subst copt. subst st1.
  destruct r1 as [stores | why].
  2:{ startup_failed. intros (Hrd & Hwr & _).
      destruct (Hok1 ltac:(cbn; eauto) Hrd Hwr) as [x Hx]. discriminate. }
  rewrite run_bind, run_modify. cbv beta iota.
  rewrite run_bind, run_modify. cbv beta iota.
  rewrite run_bind, run_modify. cbv beta iota.
  rewrite run_bind, run_modify. cbv beta iota.
  destruct (Z.eqb_spec hardware_concurrency 0) as [Hzero | Hcpu].
  { rewrite run_ret. startup_failed. intros (_ & _ & Hcpu & _). contradiction. }
  rewrite run_bind.
  match goal with
  | |- context [startExecutors ?ids ?s] =>
      destruct (startExecutors_shape ids s)
        as (s2 & st2 & e2 & j & Hrun2 & Hst2 & Hcase2 & Hall2);
      rewrite Hrun2
  end.
  subst st2. cbv beta iota.
  destruct Hcase2 as [(-> & -> & ->) | (Hbad & Hj & ->)].
  2:{ rewrite Hbad. cbn [negb]. rewrite run_ret. startup_failed.
      intros (_ & _ & _ & Hpools & _).
      rewrite Hall2 in Hbad; [discriminate |]. intros i _. apply Hpools. }
  change (Status_ok OK) with true. cbn [negb].
  rewrite length_seq, firstn_all2 by (rewrite length_seq; lia).
  mrun.
  destruct (Status_ok (NetworkAsio_prepare_status (bindIp cfg) (port cfg)
                         (netIoThreadNum cfg))) eqn:Hprep; cbn [negb].
  2:{ mrun. startup_failed. intros (_ & _ & _ & _ & Hp & _). congruence. }
  mrun.
  destruct (Status_ok ReplManager_startup_status) eqn:Hrepl; cbn [negb].
  2:{ mrun. startup_failed. intros (_ & _ & _ & _ & _ & Hp & _). congruence. }
  destruct (noexpire cfg) eqn:Hnoexp; cbn [negb]; mrun.
  - change (Status_ok OK) with true. cbn [negb]. mrun.
    destruct (Status_ok NetworkAsio_run_status) eqn:Hnet; cbn [negb].
    2:{ mrun. startup_failed. intros (_ & _ & _ & _ & _ & _ & _ & Hp). congruence. }
    unfold initSlowlog. mrun.
    destruct (ofstream_open_ok (slowlogPath cfg)) eqn:Hopen; mrun.
    all: eexists _, _, _; split; [reflexivity |]; right.
    all: exists stores, c, cat.
    all: split; [reflexivity |].
    all: split; [reflexivity |].
    all: split; [exact Hcpu |].
    all: split; [unfold startupCalls; rewrite Hnoexp; cbn [app];
                 rewrite ?app_nil_r, <- ?app_assoc; reflexivity |].
    all: repeat split.
  - destruct (Status_ok IndexManager_startup_status) eqn:Hidx; cbn [negb].
    2:{ mrun. startup_failed. intros (_ & _ & _ & _ & _ & _ & Hp & _).
        rewrite (Hp Hnoexp) in Hidx. discriminate. }
    mrun.
    destruct (Status_ok NetworkAsio_run_status) eqn:Hnet; cbn [negb].
    2:{ mrun. startup_failed. intros (_ & _ & _ & _ & _ & _ & _ & Hp). congruence. }
    unfold initSlowlog. mrun.
    destruct (ofstream_open_ok (slowlogPath cfg)) eqn:Hopen; mrun.
    all: eexists _, _, _; split; [reflexivity |]; right.
    all: exists stores, c, cat.
    all: split; [reflexivity |].
    all: split; [reflexivity |].
    all: split; [exact Hcpu |].
    all: split; [unfold startupCalls; rewrite Hnoexp; cbn [app];
                 rewrite ?app_nil_r, <- ?app_assoc; reflexivity |].
    all: repeat split.
Qed.

End StartupShape.

(** ** The rate samplers over time *)

(** X1.  A call of [trackInstantaneousMetric] for one metric leaves
    the element of every other metric as it was, hence the rate
    published for it, and it changes neither the number of metrics nor
    any of the ten counters of [ServerStat]. *)
Theorem X1_track_frame (metric other : nat) (reading now1 now2 : Z)
    (s s' : ServerStat) :
  trackInstantaneousMetric metric reading now1 now2 s = Some s' ->
  other <> metric ->
  instMetric s' !! other = instMetric s !! other /\
  getInstantaneousMetric other s' = getInstantaneousMetric other s /\
  length (instMetric s') = length (instMetric s) /\
  [expiredkeys s'; keyspaceHits s'; keyspaceMisses s'; keyspaceIncorrectEp s';
   rejectedConn s'; syncFull s'; syncPartialOk s'; syncPartialErr s';
   netInputBytes s'; netOutputBytes s'] =
  [expiredkeys s; keyspaceHits s; keyspaceMisses s; keyspaceIncorrectEp s;
   rejectedConn s; syncFull s; syncPartialOk s; syncPartialErr s;
   netInputBytes s; netOutputBytes s].
Proof.
  intros Hrun Hne. apply track_inv in Hrun. destruct Hrun as (m & Hm & ->).
  assert (Hother : instMetric (set_instMetric
            (fun a => <[metric :=
               mkInstMetric now2 reading
                 (<[Z.to_nat (idx m) :=
                      if 0 <? sub64 now1 (lastSampleTime m)
                      then mul64 (sub64 reading (lastSampleCount m)) 1000
                           / sub64 now1 (lastSampleTime m)
                      else 0]> (samples m))
                 ((idx m + 1) mod STATS_METRIC_SAMPLES)]> a) s) !! other
          = instMetric s !! other).
  { cbn [instMetric set_instMetric]. apply list_lookup_insert_ne. congruence. }
  split; [exact Hother |].
  split; [unfold getInstantaneousMetric; rewrite Hother; reflexivity |].
  split; [cbn [instMetric set_instMetric]; apply length_insert | reflexivity].
Qed.

Lemma X1_track_frame_witness :
  exists s',
    trackInstantaneousMetric 0 150 1000100 1000100 demoStat = Some s' /\
    getInstantaneousMetric 0 s' = Some 31 /\
    getInstantaneousMetric 1 s' = getInstantaneousMetric 1 demoStat /\
    getInstantaneousMetric 2 s' = Some 0.
Proof.
  destruct (trackInstantaneousMetric 0 150 1000100 1000100 demoStat) as [s'|] eqn:Hrun;
    [| vm_compute in Hrun; discriminate Hrun].
  exists s'. split; [reflexivity |].
  destruct (X1_track_frame 0 1 150 1000100 1000100 demoStat s' Hrun ltac:(lia))
    as (_ & Hone & _).
  destruct (X1_track_frame 0 2 150 1000100 1000100 demoStat s' Hrun ltac:(lia))
    as (_ & Htwo & _).
  split; [vm_compute in Hrun; injection Hrun as <-; reflexivity |].
  split; [exact Hone |]. rewrite Htwo. reflexivity.
Defined.

(** The ring after a run of ticks at a constant pace: the positions
    written so far hold the rate, the others their old sample. *)
Lemma trackMany_steady metric ops t :
  0 < t ->
  forall ticks s m,
    instMetric s !! metric = Some m ->
    inst_wf m ->
    steady ops t (lastSampleCount m) (lastSampleTime m) ticks ->
    (length ticks <= 16)%nat ->
    exists s' m',
      trackMany metric ticks s = Some s' /\
      instMetric s' !! metric = Some m' /\
      inst_wf m' /\
      idx m' = (idx m + Z.of_nat (length ticks)) mod 16 /\
      (forall j, (j < 16)%nat ->
         samples m' !! j =
         if decide ((Z.of_nat j - idx m) mod 16 < Z.of_nat (length ticks))
         then Some (mul64 ops 1000 / t) else samples m !! j).
Proof.
  intros Ht ticks. induction ticks as [|[[reading now1] now2] rest IH];
    intros s m Hm Hwf Hsteady Hlen.
  - exists s, m. split; [reflexivity |]. split; [exact Hm |]. split; [exact Hwf |].
    destruct Hwf as [_ Hidx]. unfold STATS_METRIC_SAMPLES in Hidx.
    split; [cbn [length]; rewrite Z.add_0_r, Z.mod_small by lia; reflexivity |].
    intros j Hj. cbn [length]. destruct (decide _) as [Hlt | _]; [| reflexivity].
    exfalso. pose proof (Z.mod_pos_bound (Z.of_nat j - idx m) 16 ltac:(lia)). lia.
  - destruct Hsteady as (Hops & Htime & Hrest).
    pose proof Hwf as [Hsz Hidx]. unfold STATS_METRIC_SAMPLES in Hsz, Hidx.
    cbn [trackMany]. rewrite (track_run _ _ _ _ _ _ Hm). cbn [mbind option_bind].
    rewrite Hops, Htime. replace (0 <? t) with true by (symmetry; apply Z.ltb_lt; exact Ht).
    unfold STATS_METRIC_SAMPLES.
    set (v := mul64 ops 1000 / t).
    set (m1 := mkInstMetric now2 reading (<[Z.to_nat (idx m) := v]> (samples m))
                 ((idx m + 1) mod 16)).
    assert (Hmlt : (metric < length (instMetric s))%nat)
      by (eapply lookup_lt_Some; exact Hm).
    destruct (IH (set_instMetric (fun a => <[metric := m1]> a) s) m1)
      as (s' & m' & Hrun & Hm' & Hwf' & Hidx' & Hsamples).
    + cbn [instMetric set_instMetric]. apply list_lookup_insert_eq. exact Hmlt.
    + split; [unfold m1; cbn [samples]; rewrite length_insert; exact Hsz |].
      unfold m1, STATS_METRIC_SAMPLES; cbn [idx]. apply Z.mod_pos_bound. lia.
    + exact Hrest.
    + cbn [length] in Hlen. lia.
    + exists s', m'. split; [exact Hrun |]. split; [exact Hm' |].
      split; [exact Hwf' |]. cbn [length] in Hlen |- *.
      split.
      { rewrite Hidx'. unfold m1; cbn [idx].
        rewrite Zplus_mod_idemp_l. f_equal. lia. }
      intros j Hj. rewrite (Hsamples j Hj). unfold m1; cbn [idx samples].
      destruct (decide (((Z.of_nat j - (idx m + 1) mod 16) mod 16
                         < Z.of_nat (length rest)))) as [Hin | Hout];
        destruct (decide ((Z.of_nat j - idx m) mod 16 < Z.of_nat (S (length rest))))
          as [Hin' | Hout']; try reflexivity.
      * exfalso. revert Hin Hout'. clear - Hidx Hj Hlen.
        intros Hin Hout'. Z.div_mod_to_equations. lia.
      * destruct (decide (j = Z.to_nat (idx m))) as [-> | Hne].
        -- apply list_lookup_insert_eq. lia.
        -- exfalso. revert Hout Hin' Hne. clear - Hidx Hj Hlen.
           intros Hout Hin' Hne. Z.div_mod_to_equations. lia.
      * destruct (decide (j = Z.to_nat (idx m))) as [-> | Hne].
        -- exfalso. revert Hout'. clear - Hidx. intros Hout'.
           rewrite Z2Nat.id in Hout' by lia.
           rewrite Z.sub_diag, Z.mod_0_l in Hout' by lia. lia.
        -- apply list_lookup_insert_ne. congruence.
Qed.

(** X2.  Sixteen consecutive calls of [trackInstantaneousMetric]
    overwrite the whole ring and bring the index back to where it was.
    When each of them finds the counter [ops] above the previous
    reading and the clock [t > 0] milliseconds after the previous call,
    every sample is [ops*1000/t] (in [uint64_t]), and the rate
    published afterwards is exactly that value as long as it is below
    [2^60]. *)
Theorem X2_steady_rate (metric : nat) (ops t : Z) (ticks : list (Z * Z * Z))
    (s : ServerStat) (m : InstMetric) :
  instMetric s !! metric = Some m ->
  inst_wf m ->
  0 < t ->
  length ticks = 16%nat ->
  steady ops t (lastSampleCount m) (lastSampleTime m) ticks ->
  let rate := mul64 ops 1000 / t in
  exists s' m',
    trackMany metric ticks s = Some s' /\
    instMetric s' !! metric = Some m' /\
    samples m' = replicate 16 rate /\
    idx m' = idx m /\
    getInstantaneousMetric metric s' = Some (wrap64 (16 * rate) / 16) /\
    (rate < 2 ^ 60 -> getInstantaneousMetric metric s' = Some rate).
Proof.
  intros Hm Hwf Ht Hlen Hsteady rate.
  destruct (trackMany_steady metric ops t Ht ticks s m Hm Hwf Hsteady ltac:(lia))
    as (s' & m' & Hrun & Hm' & Hwf' & Hidx' & Hsamples).
  pose proof Hwf as [_ Hidx]. pose proof Hwf' as [Hsz' _].
  unfold STATS_METRIC_SAMPLES in Hidx, Hsz'.
  assert (Hall : samples m' = replicate 16 rate).
  { apply list_eq. intros j. destruct (decide (j < 16)%nat) as [Hj | Hj].
    - rewrite (Hsamples j Hj), Hlen.
      rewrite lookup_replicate_2 by exact Hj.
      destruct (decide _) as [_ | Hout]; [reflexivity |].
      exfalso. pose proof (Z.mod_pos_bound (Z.of_nat j - idx m) 16 ltac:(lia)). lia.
    - rewrite lookup_ge_None_2 by lia.
      symmetry. apply lookup_ge_None_2. rewrite length_replicate. lia. }
  assert (Hmean : getInstantaneousMetric metric s' = Some (wrap64 (16 * rate) / 16)).
  { rewrite (getInstantaneousMetric_mean metric s' m' Hm') by exact (proj1 Hwf').
    rewrite Hall. do 3 f_equal. cbn. lia. }
  exists s', m'. split; [exact Hrun |]. split; [exact Hm' |]. split; [exact Hall |].
  split.
  { rewrite Hidx', Hlen. change (Z.of_nat 16) with 16.
    rewrite <- Zplus_mod_idemp_r. change (16 mod 16) with 0.
    rewrite Z.add_0_r. apply Z.mod_small. exact Hidx. }
  split; [exact Hmean |].
  intros Hsmall. rewrite Hmean. f_equal.
  assert (Hpos : 0 <= rate).
  { unfold rate. apply Z.div_pos; [| exact Ht].
    unfold mul64. apply wrap64_range. }
  rewrite wrap64_small by (unfold U64_MOD; lia).
  rewrite Z.mul_comm. apply Z.div_mul. lia.
Qed.

Lemma X2_steady_rate_witness :
  instMetric demoStat !! 0%nat = Some demoMetric /\
  inst_wf demoMetric /\
  steady 50 100 100 1000000 demoTicks /\
  exists s',
    trackMany 0 demoTicks demoStat = Some s' /\
    getInstantaneousMetric 0 s' = Some 500.
Proof.
  assert (Hwf : inst_wf demoMetric).
  { split; [reflexivity | unfold STATS_METRIC_SAMPLES; cbn; lia]. }
  assert (Hsteady : steady 50 100 (lastSampleCount demoMetric)
                      (lastSampleTime demoMetric) demoTicks).
  { cbn. repeat split. }
  split; [reflexivity |]. split; [exact Hwf |]. split; [exact Hsteady |].
  destruct (X2_steady_rate 0 50 100 demoTicks demoStat demoMetric
              eq_refl Hwf ltac:(lia) eq_refl Hsteady)
    as (s' & m' & Hrun & _ & _ & _ & _ & Hrate).
  exists s'. split; [exact Hrun |]. apply Hrate. vm_compute. reflexivity.
Defined.

(** X3.  After [ServerStat::reset] every counter is zero, every metric
    publishes the rate 0, and a second reset changes nothing.  The
    first sample taken after a reset is measured against a zero
    reading and the epoch: with the counter at [reading] and the clock
    at [now] milliseconds it is [reading*1000/now], and the rate
    published after that one call is a sixteenth of it. *)
Theorem X3_reset (s : ServerStat) (metric : nat) (reading now1 now2 : Z) :
  (metric < length (instMetric s))%nat ->
  0 <= reading < U64_MOD ->
  0 < now1 < U64_MOD ->
  let z := ServerStat_reset s in
  let sample := mul64 reading 1000 / now1 in
  getInstantaneousMetric metric z = Some 0 /\
  ServerStat_reset z = z /\
  length (instMetric z) = length (instMetric s) /\
  exists s' m',
    trackInstantaneousMetric metric reading now1 now2 z = Some s' /\
    instMetric s' !! metric = Some m' /\
    samples m' = sample :: replicate 15 0 /\
    idx m' = 1 /\
    getInstantaneousMetric metric s' = Some (sample / 16).
Proof.
  intros Hlt Hreading Hnow z sample.
  assert (Hz : instMetric z !! metric = Some zeroInstMetric).
  { unfold z, ServerStat_reset. cbn [instMetric].
    apply lookup_replicate_2. exact Hlt. }
  split.
  { rewrite (getInstantaneousMetric_mean metric z zeroInstMetric Hz) by reflexivity.
    reflexivity. }
  split.
  { unfold z, ServerStat_reset. cbn [instMetric]. rewrite length_replicate.
    reflexivity. }
  split.
  { unfold z, ServerStat_reset. cbn [instMetric]. apply length_replicate. }
  rewrite (track_run _ _ _ _ _ _ Hz).
  assert (Ht : sub64 now1 (lastSampleTime zeroInstMetric) = now1).
  { unfold sub64. cbn [lastSampleTime zeroInstMetric]. rewrite Z.sub_0_r.
    apply wrap64_small. lia. }
  assert (Hops : sub64 reading (lastSampleCount zeroInstMetric) = reading).
  { unfold sub64. cbn [lastSampleCount zeroInstMetric]. rewrite Z.sub_0_r.
    apply wrap64_small. lia. }
  rewrite Ht, Hops.
  replace (0 <? now1) with true by (symmetry; apply Z.ltb_lt; lia).
  fold sample.
  eexists _, _. split; [reflexivity |].
  split.
  { cbn [instMetric set_instMetric]. apply list_lookup_insert_eq.
    unfold z, ServerStat_reset. cbn [instMetric]. rewrite length_replicate. exact Hlt. }
  split; [reflexivity |]. split; [reflexivity |].
  erewrite getInstantaneousMetric_mean.
  2:{ cbn [instMetric set_instMetric]. apply list_lookup_insert_eq.
      unfold z, ServerStat_reset. cbn [instMetric]. rewrite length_replicate. exact Hlt. }
  2:{ reflexivity. }
  cbn [samples]. f_equal.
  assert (Hs : 0 <= sample < U64_MOD).
  { unfold sample. pose proof (wrap64_range (reading * 1000)) as Hr.
    fold (mul64 reading 1000) in Hr.
    split; [apply Z.div_pos; lia |].
    apply Z.div_lt_upper_bound; [lia |]. nia. }
  match goal with
  | |- context [sumZ ?l] => change l with (sample :: replicate 15 0)
  end.
  replace (sumZ (sample :: replicate 15 0)) with sample
    by (cbn [sumZ foldr replicate]; lia).
  rewrite wrap64_small by exact Hs. reflexivity.
Qed.

Lemma X3_reset_witness :
  (0 < length (instMetric demoStat))%nat /\
  getInstantaneousMetric 0 (ServerStat_reset demoStat) = Some 0 /\
  exists s',
    trackInstantaneousMetric 0 5000 1000000 1000000 (ServerStat_reset demoStat)
      = Some s' /\
    getInstantaneousMetric 0 s' = Some 0.
Proof.
  assert (Hlt : (0 < length (instMetric demoStat))%nat) by (cbn; lia).
  destruct (X3_reset demoStat 0 5000 1000000 1000000 Hlt
              ltac:(unfold U64_MOD; lia) ltac:(unfold U64_MOD; lia))
    as (Hzero & _ & _ & s' & m' & Hrun & _ & _ & _ & Hmean).
  split; [exact Hlt |]. split; [exact Hzero |].
  exists s'. split; [exact Hrun |]. rewrite Hmean. reflexivity.
Defined.

(** ** The session registry, operation by operation *)

Lemma with_sessions_id st : with_sessions (_sessions st) st = st.
Proof. destruct st. reflexivity. Qed.

Lemma with_monitors_id st : with_monitors (_monitors st) st = st.
Proof. destruct st. reflexivity. Qed.

Lemma erase_first_absent objs id l :
  id ∉ (fun m => sess_id (objs m)) <$> l -> erase_first_id objs id l = l.
Proof.
  induction l as [|m l IH]; intros Hnot; [reflexivity |].
  rewrite fmap_cons in Hnot. apply not_elem_of_cons in Hnot.
  destruct Hnot as [Hne Hnot]. cbn [erase_first_id].
  destruct (Z.eqb_spec (sess_id (objs m)) id) as [Heq | _]; [congruence |].
  f_equal. apply IH. exact Hnot.
Qed.

Lemma erase_first_last objs id l p :
  id ∉ (fun m => sess_id (objs m)) <$> l ->
  sess_id (objs p) = id ->
  erase_first_id objs id (l ++ [p]) = l.
Proof.
  induction l as [|m l IH]; intros Hnot Hp.
  - cbn. rewrite Hp, Z.eqb_refl. reflexivity.
  - rewrite fmap_cons in Hnot. apply not_elem_of_cons in Hnot.
    destruct Hnot as [Hne Hnot]. cbn [app erase_first_id].
    destruct (Z.eqb_spec (sess_id (objs m)) id) as [Heq | _]; [congruence |].
    f_equal. apply IH; assumption.
Qed.

(** X4.  [addSession] on a server that is not running returns false,
    changes nothing and does not start the session.  On a running
    server it first calls [start()] on the session, whatever follows:
    when the id is already registered it ends in [LOG(FATAL)] with the
    registry as it was; otherwise it returns true, the session is found
    under its id, every other id maps as before, the session count has
    grown by one, [getAllSessions] lists the session, and neither the
    monitor list nor any session object has changed. *)
Theorem X4_addSession (sess : N) (st : State) :
  exists r st' evs,
    addSession sess st = (r, st', evs) /\
    (_isRunning st = false -> r = Done false /\ st' = st /\ evs = []) /\
    (_isRunning st = true ->
       evs = [EvSessionStart sess] /\
       (is_Some (_sessions st !! sess_id (sessObjs st sess)) ->
          r = Abort FatalLogged /\ st' = st) /\
       (_sessions st !! sess_id (sessObjs st sess) = None ->
          r = Done true /\
          _sessions st' !! sess_id (sessObjs st sess) = Some sess /\
          (forall k, k <> sess_id (sessObjs st sess) ->
             _sessions st' !! k = _sessions st !! k) /\
          getSessionCount st' = S (getSessionCount st) /\
          sess ∈ getAllSessions st' /\
          _monitors st' = _monitors st /\
          sessObjs st' = sessObjs st)).
Proof.
  rewrite addSession_run. destruct (_isRunning st); cbn [negb].
  2:{ eexists _, _, _. split; [reflexivity |].
      split; [intros _; repeat split; reflexivity | intros Hc; discriminate]. }
  destruct (_sessions st !! sess_id (sessObjs st sess)) as [q|] eqn:Hfree.
  - eexists _, _, _. split; [reflexivity |]. split; [intros Hc; discriminate |].
    intros _. split; [reflexivity |].
    split; [intros _; split; reflexivity | intros Hc; discriminate].
  - eexists _, _, _. split; [reflexivity |]. split; [intros Hc; discriminate |].
    intros _. split; [reflexivity |].
    split; [intros [x Hx]; discriminate |]. intros _.
    split; [reflexivity |].
    split; [cbn; apply lookup_insert_eq |].
    split; [intros k Hk; cbn; apply lookup_insert_ne; congruence |].
    split; [unfold getSessionCount; cbn; apply map_size_insert_None; exact Hfree |].
    split; [| split; reflexivity].
    unfold getAllSessions. apply list_elem_of_fmap.
    exists (sess_id (sessObjs st sess), sess). split; [reflexivity |].
    rewrite merge_sort_Permutation.
    apply elem_of_map_to_list. cbn. apply lookup_insert_eq.
Qed.

Lemma X4_addSession_witness :
  exists st',
    @addSession 9%N demoMonitoring = (Done true, st', [EvSessionStart 9%N]) /\
    _sessions st' !! 9 = Some 9%N /\
    getSessionCount st' = 3%nat /\
    @addSession 4%N demoMonitoring
      = (Abort FatalLogged, demoMonitoring, [EvSessionStart 4%N]).
Proof.
  destruct (X4_addSession 9%N demoMonitoring) as (r & st' & evs & Hrun & _ & Hon).
  destruct (Hon eq_refl) as (-> & _ & Hfree).
  destruct (Hfree eq_refl) as (-> & Hfound & _ & Hcount & _).
  exists st'. split; [exact Hrun |]. split; [exact Hfound |].
  split; [rewrite Hcount; reflexivity |].
  destruct (X4_addSession 4%N demoMonitoring) as (r & st2 & evs & Hrun2 & _ & Hon2).
  destruct (Hon2 eq_refl) as (-> & Hdup & _).
  destruct (Hdup ltac:(eexists; reflexivity)) as (-> & ->). exact Hrun2.
Defined.

(** X5.  On a running server whose monitors are all registered,
    adding a session under a free id and then ending that id brings
    the coordinator back to the very state it started from: the
    session map, the monitor list and every session object are as
    before. *)
Theorem X5_add_then_end (sess : N) (st : State) (c : SessionCtx) :
  _isRunning st = true ->
  monitors_subset st ->
  _sessions st !! sess_id (sessObjs st sess) = None ->
  sess_ctx (sessObjs st sess) = Some c ->
  exists st1,
    addSession sess st = (Done true, st1, [EvSessionStart sess]) /\
    endSession (sess_id (sessObjs st sess)) st1 = (Done tt, st, []).
Proof.
  intros Hrun Hsub Hfree Hctx.
  assert (Hnot : sess_id (sessObjs st sess)
                 ∉ (fun m => sess_id (sessObjs st m)) <$> _monitors st).
  { intros Hin. apply list_elem_of_fmap in Hin. destruct Hin as (m & Hid & Hm).
    destruct (Hsub m Hm) as [q Hq]. unfold mon_id in Hq.
    rewrite <- Hid, Hfree in Hq. discriminate. }
  exists (with_sessions (<[sess_id (sessObjs st sess) := sess]> (_sessions st)) st).
  split.
  { rewrite addSession_run, Hrun. cbn [negb]. rewrite Hfree. reflexivity. }
  rewrite endSession_run.
  change (_isRunning (with_sessions _ st)) with (_isRunning st).
  rewrite Hrun. cbn [negb].
  change (_sessions (with_sessions (<[sess_id (sessObjs st sess) := sess]> (_sessions st)) st))
    with (<[sess_id (sessObjs st sess) := sess]> (_sessions st)).
  rewrite lookup_insert_eq.
  change (sessObjs (with_sessions _ st)) with (sessObjs st).
  rewrite Hctx. f_equal. f_equal.
  destruct (ctx_isMonitor c).
  - change (_monitors (with_sessions _ st)) with (_monitors st).
    rewrite erase_first_absent by exact Hnot.
    unfold with_monitors, with_sessions. cbn.
    rewrite delete_insert_id by exact Hfree. destruct st. reflexivity.
  - unfold with_sessions. cbn.
    rewrite delete_insert_id by exact Hfree. destruct st. reflexivity.
Qed.

Lemma X5_add_then_end_witness :
  monitors_subset demoMonitoring /\
  exists st1,
    @addSession 9%N demoMonitoring = (Done true, st1, [EvSessionStart 9%N]) /\
    _sessions st1 !! 9 = Some 9%N /\
    @endSession 9 st1 = (Done tt, demoMonitoring, []).
Proof.
  assert (Hsub : monitors_subset demoMonitoring)
    by (apply registry_inv_subset, demoMonitoring_inv).
  split; [exact Hsub |].
  destruct (X5_add_then_end 9%N demoMonitoring (mkSessionCtx 0 false)
              eq_refl Hsub eq_refl eq_refl) as (st1 & Hadd & Hend).
  exists st1. split; [exact Hadd |]. split; [| exact Hend].
  rewrite addSession_run in Hadd. cbn in Hadd. injection Hadd as <-.
  reflexivity.
Defined.

(** X6.  Where sessions are filed under their own ids, [AddMonitor]
    for a registered id that is not yet a monitor appends that session
    to the monitor list, and [DelMonitorNoLock] for the same id then
    restores the state [AddMonitor] started from. *)
Theorem X6_monitor_round_trip (id : Z) (p : N) (st : State) :
  keyed_by_id st ->
  _sessions st !! id = Some p ->
  id ∉ mon_id st <$> _monitors st ->
  exists st1,
    AddMonitor id st = (Done tt, st1, []) /\
    _monitors st1 = _monitors st ++ [p] /\
    DelMonitorNoLock id st1 = (Done tt, st, []).
Proof.
  intros Hkey Hp Hnot.
  assert (Hex : existsb (fun monSess => sess_id (sessObjs st monSess) =? id)
                  (_monitors st) = false).
  { destruct (existsb _ _) eqn:Hex; [| reflexivity].
    apply existsb_mon_id in Hex. contradiction. }
  eexists. split.
  { rewrite AddMonitor_run, Hex, Hp. reflexivity. }
  split; [reflexivity |].
  unfold DelMonitorNoLock. rewrite run_modify. f_equal. f_equal.
  cbn [sessObjs _monitors with_monitors].
  rewrite erase_first_last; [| exact Hnot | apply Hkey; exact Hp].
  destruct st. reflexivity.
Qed.

Lemma X6_monitor_round_trip_witness :
  keyed_by_id demoMonitoring /\
  exists st1,
    @AddMonitor 4 demoMonitoring = (Done tt, st1, []) /\
    _monitors st1 = [6%N; 4%N] /\
    @DelMonitorNoLock 4 st1 = (Done tt, demoMonitoring, []).
Proof.
  pose proof demoMonitoring_inv as (Hkey & _ & _).
  split; [exact Hkey |].
  assert (Hnot : 4 ∉ mon_id demoMonitoring <$> _monitors demoMonitoring).
  { intros Hin. cbn in Hin. apply list_elem_of_singleton in Hin. discriminate. }
  destruct (X6_monitor_round_trip 4 4%N demoMonitoring Hkey eq_refl Hnot)
    as (st1 & Hadd & Hmon & Hdel).
  exists st1. split; [exact Hadd |]. split; [exact Hmon | exact Hdel].
Defined.

(** X7.  Whatever the monitor flags of the sessions say, the four
    registry operations keep the sessions filed under their own ids
    and the monitor list free of duplicate ids. *)
Theorem X7_monitors_nodup (st : State) :
  keyed_by_id st ->
  monitors_nodup st ->
  (forall id r st' e,
     AddMonitor id st = (r, st', e) -> keyed_by_id st' /\ monitors_nodup st') /\
  (forall id r st' e,
     DelMonitorNoLock id st = (r, st', e) -> keyed_by_id st' /\ monitors_nodup st') /\
  (forall sess r st' e,
     addSession sess st = (r, st', e) -> keyed_by_id st' /\ monitors_nodup st') /\
  (forall id r st' e,
     endSession id st = (r, st', e) -> keyed_by_id st' /\ monitors_nodup st').
Proof.
  intros Hkey Hnd.
  assert (Herase : forall id,
            NoDup (mon_id st <$> erase_first_id (sessObjs st) id (_monitors st))).
  { intros id. eapply sublist_NoDup; [exact Hnd |].
    apply fmap_sublist, erase_first_sublist. }
  assert (Hdel : forall id k p,
            delete id (_sessions st) !! k = Some p -> sess_id (sessObjs st p) = k).
  { intros id k p Hk. apply lookup_delete_Some in Hk. apply Hkey, Hk. }
  split; [| split; [| split]].
  - intros id r st' e. rewrite AddMonitor_run.
    destruct (existsb _ (_monitors st)) eqn:Hex.
    { intros [= _ <- _]. split; assumption. }
    destruct (_sessions st !! id) as [p|] eqn:Hp.
    2:{ intros [= _ <- _]. split; assumption. }
    intros [= _ <- _]. split; [exact Hkey |].
    change (NoDup (mon_id st <$> (_monitors st ++ [p]))).
    rewrite fmap_app. apply list.NoDup_app. split; [exact Hnd |]. split.
    + intros x Hx Hx'. apply list_elem_of_singleton in Hx'.
      unfold mon_id in Hx' at 1. rewrite (Hkey id p Hp) in Hx'. subst x.
      apply existsb_mon_id in Hx. congruence.
    + apply NoDup_singleton.
  - intros id r st' e. unfold DelMonitorNoLock. rewrite run_modify.
    intros [= _ <- _]. split; [exact Hkey | apply Herase].
  - intros sess r st' e. rewrite addSession_run.
    destruct (negb (_isRunning st)); [intros [= _ <- _]; split; assumption |].
    destruct (_sessions st !! sess_id (sessObjs st sess)) eqn:Hfree;
      intros [= _ <- _]; [split; assumption |].
    split; [| exact Hnd].
    intros k q Hk.
    change (<[sess_id (sessObjs st sess) := sess]> (_sessions st) !! k = Some q) in Hk.
    apply lookup_insert_Some in Hk. destruct Hk as [[<- <-] | [_ Hk]].
    + reflexivity.
    + apply Hkey, Hk.
  - intros id r st' e. rewrite endSession_run.
    destruct (negb (_isRunning st)); [intros [= _ <- _]; split; assumption |].
    destruct (_sessions st !! id) as [p|]; [| intros [= _ <- _]; split; assumption].
    destruct (sess_ctx (sessObjs st p)) as [c|]; [| intros [= _ <- _]; split; assumption].
    intros [= _ <- _]. destruct (ctx_isMonitor c).
    + split; [exact (Hdel id) | apply Herase].
    + split; [exact (Hdel id) | exact Hnd].
Qed.

Lemma X7_monitors_nodup_witness :
  keyed_by_id demoMonitoring /\
  monitors_nodup demoMonitoring /\
  exists st',
    @endSession 6 demoMonitoring = (Done tt, st', []) /\
    keyed_by_id st' /\ monitors_nodup st'.
Proof.
  pose proof demoMonitoring_inv as (Hkey & Hnd & _).
  split; [exact Hkey |]. split; [exact Hnd |].
  destruct (X7_monitors_nodup demoMonitoring Hkey Hnd) as (_ & _ & _ & Hend).
  destruct (@endSession 6 demoMonitoring) as [[r st'] e] eqn:Hrun.
  destruct (Hend 6 r st' e Hrun) as [Hk Hn].
  exists st'. split; [| split; assumption].
  vm_compute in Hrun. injection Hrun as <- _ <-. reflexivity.
Defined.

Section Cancel.
Context `{Probes}.

Lemma cancelSession_run connId st :
  cancelSession connId st =
  if negb (_isRunning st)
  then (Done (mkStatus ERR_BUSY "server is shutting down"), st, [])
  else match _sessions st !! connId with
       | None =>
           (Done (mkStatus ERR_NOTFOUND ("session not found:" +:+ to_string connId)),
            st, [])
       | Some it =>
           (Done (snd (Session_cancel (sessObjs st it))),
            with_sessObjs (<[it := fst (Session_cancel (sessObjs st it))]> (sessObjs st)) st,
            [])
       end.
Proof.
  unfold cancelSession. rewrite run_bind, run_get. cbv beta iota.
  destruct (_isRunning st); [| reflexivity]. cbn [negb].
  destruct (_sessions st !! connId) as [it|]; [| reflexivity].
  rewrite run_bind, run_sessObj. cbv beta iota.
  rewrite run_bind, run_modify. cbv beta iota. reflexivity.
Qed.

(** X8.  [cancelSession] always returns a status and never touches
    the session map, the monitor list or the running flag.  On a server
    that is not running the status is BUSY "server is shutting down";
    for an id that is not registered it is NOTFOUND "session not
    found:<id>"; in both cases nothing changes.  Otherwise the status
    is the one [cancel()] of the registered session returns, and no
    other session object is touched. *)
Theorem X8_cancelSession (connId : Z) (st : State) :
  exists r st',
    cancelSession connId st = (Done r, st', []) /\
    _sessions st' = _sessions st /\
    _monitors st' = _monitors st /\
    _isRunning st' = _isRunning st /\
    (_isRunning st = false ->
       r = mkStatus ERR_BUSY "server is shutting down" /\ st' = st) /\
    (_isRunning st = true -> _sessions st !! connId = None ->
       r = mkStatus ERR_NOTFOUND ("session not found:" +:+ to_string connId) /\
       st' = st) /\
    (forall p, _isRunning st = true -> _sessions st !! connId = Some p ->
       r = snd (Session_cancel (sessObjs st p)) /\
       sessObjs st' p = fst (Session_cancel (sessObjs st p)) /\
       forall q, q <> p -> sessObjs st' q = sessObjs st q).
Proof.
  rewrite cancelSession_run. destruct (_isRunning st) eqn:Hrun; cbn [negb].
  2:{ eexists _, _. split; [reflexivity |]. do 2 (split; [reflexivity |]).
      split; [exact Hrun |].
      split; [intros _; split; reflexivity |].
      split; [intros Hc; discriminate | intros p Hc; discriminate]. }
  destruct (_sessions st !! connId) as [it|] eqn:Hit.
  - eexists _, _. split; [reflexivity |]. do 2 (split; [reflexivity |]).
    split; [exact Hrun |].
    split; [intros Hc; discriminate |]. split; [intros _ Hc; discriminate |].
    intros p _ [= <-]. split; [reflexivity |].
    split; [cbn; apply fn_lookup_insert |].
    intros q Hq. cbn. apply fn_lookup_insert_ne. congruence.
  - eexists _, _. split; [reflexivity |]. do 2 (split; [reflexivity |]).
    split; [exact Hrun |].
    split; [intros Hc; discriminate |].
    split; [intros _ _; split; reflexivity |].
    intros p _ Hc. discriminate.
Qed.

(** X9.  On a running server, once [endSession] has returned for an
    id, [cancelSession] for that id answers NOTFOUND "session not
    found:<id>" and changes nothing; and once [addSession] has returned
    true for a session, [cancelSession] for its id reaches that very
    session and returns the status of its [cancel()]. *)
Theorem X9_cancel_after (st st1 : State) :
  _isRunning st = true ->
  (forall id,
     endSession id st = (Done tt, st1, []) ->
     cancelSession id st1 =
       (Done (mkStatus ERR_NOTFOUND ("session not found:" +:+ to_string id)), st1, [])) /\
  (forall sess e,
     addSession sess st = (Done true, st1, e) ->
     exists st2,
       cancelSession (sess_id (sessObjs st sess)) st1 =
         (Done (snd (Session_cancel (sessObjs st sess))), st2, []) /\
       sessObjs st2 sess = fst (Session_cancel (sessObjs st sess))).
Proof.
  intros Hrun. split.
  - intros id. rewrite endSession_run, Hrun. cbn [negb].
    destruct (_sessions st !! id) as [p|]; [| discriminate].
    destruct (sess_ctx (sessObjs st p)) as [c|]; [| discriminate].
    intros [= <-]. rewrite cancelSession_run.
    assert (Hr : _isRunning (with_sessions (delete id (_sessions st))
                   (if ctx_isMonitor c
                    then with_monitors (erase_first_id (sessObjs st) id (_monitors st)) st
                    else st)) = true)
      by (destruct (ctx_isMonitor c); exact Hrun).
    rewrite Hr. cbn [negb _sessions with_sessions].
    rewrite lookup_delete_eq. reflexivity.
  - intros sess e. rewrite addSession_run, Hrun. cbn [negb].
    destruct (_sessions st !! sess_id (sessObjs st sess)); [discriminate |].
    intros [= <- _]. rewrite cancelSession_run.
    cbn [_isRunning with_sessions]. rewrite Hrun. cbn [negb _sessions with_sessions].
    rewrite lookup_insert_eq. cbn [sessObjs].
    eexists. split; [reflexivity |]. cbn. apply fn_lookup_insert.
Qed.

End Cancel.

Lemma X8_cancelSession_witness :
  @cancelSession demoProbes 5 demoMonitoring =
    (Done (mkStatus ERR_NOTFOUND "session not found:5"), demoMonitoring, []) /\
  exists st',
    @cancelSession demoProbes 4 demoMonitoring = (Done OK, st', []) /\
    _sessions st' = _sessions demoMonitoring.
Proof.
  split.
  - destruct (@X8_cancelSession demoProbes 5 demoMonitoring)
      as (r & st' & Hrun & _ & _ & _ & _ & Hmiss & _).
    destruct (Hmiss eq_refl eq_refl) as [-> ->]. exact Hrun.
  - destruct (@X8_cancelSession demoProbes 4 demoMonitoring)
      as (r & st' & Hrun & Hsess & _ & _ & _ & _ & Hhit).
    destruct (Hhit 4%N eq_refl eq_refl) as (-> & _).
    exists st'. split; [exact Hrun | exact Hsess].
Defined.

Lemma X9_cancel_after_witness :
  exists st1,
    @endSession 6 demoMonitoring = (Done tt, st1, []) /\
    @cancelSession demoProbes 6 st1 =
      (Done (mkStatus ERR_NOTFOUND "session not found:6"), st1, []).
Proof.
  destruct (@endSession 6 demoMonitoring) as [[r st1] e] eqn:Hend.
  assert (Hshape : r = Done tt /\ e = []).
  { pose proof Hend as Hend'. vm_compute in Hend'. injection Hend' as <- _ <-.
    split; reflexivity. }
  destruct Hshape as [-> ->].
  destruct (@X9_cancel_after demoProbes demoMonitoring st1 eq_refl) as [Hgone _].
  exists st1. split; [reflexivity |]. exact (Hgone 6 Hend).
Defined.

(** ** The monitor line and the assertions of the dispatcher *)

(** X10.  [replyMonitors] copies every argument between two double
    quotes without escaping anything: a single argument that contains
    a quote, a space and a quote is reported to the monitors with the
    very same line as the two arguments on either side of them. *)
Theorem X10_monitor_line_unescaped (timestamp dbId : Z) (remote a b : string) :
  monitorLine timestamp dbId remote [a +:+ DQUOTE +:+ " " +:+ DQUOTE +:+ b]
  = monitorLine timestamp dbId remote [a; b].
Proof.
  unfold monitorLine. do 10 f_equal.
  unfold quoteArgs. rewrite !sapp_assoc. reflexivity.
Qed.

Section DispatchAsserts.
Context `{Collab}.

(** X11.  When precheck has resolved the command to [fullsync],
    [incrsync] or [quit] and the monitor fan-out has run, a session
    that is not a network session, or that carries another number of
    arguments than the 4 of [fullsync] or the 6 of [incrsync], stops
    [processRequest] at the failed [INVARIANT]: the monitors have been
    served already, and nothing else has happened, no socket was
    borrowed and no counter has moved. *)
Theorem X11_dispatch_asserts (now : Z) (sess : N) (st st1 st2 : State)
    (name : string) (mon : list event) :
  _isRunning st = true ->
  Command_precheck sess st = (Done (Value name), st1) ->
  replyMonitors now sess st1 = (Done tt, st2, mon) ->
  (name = "fullsync" \/ name = "incrsync" \/ name = "quit") ->
  (sess_type (sessObjs st2 sess) = LocalSessionT \/
   (name = "fullsync" /\ length (sess_args (sessObjs st2 sess)) <> 4%nat) \/
   (name = "incrsync" /\ length (sess_args (sessObjs st2 sess)) <> 6%nat)) ->
  processRequest now sess st = (Abort InvariantFailed, st2, EvPrecheck sess :: mon).
Proof.
  intros Hrun Hpre Hfan Hname Hbad.
  unfold processRequest.
  rewrite run_bind, run_get; cbv beta iota.
  rewrite Hrun; cbn [negb].
  rewrite run_bind, (run_precheck _ _ _ _ Hpre); cbv beta iota.
  rewrite run_bind, Hfan; cbv beta iota.
  destruct (sess_type (sessObjs st2 sess)) eqn:Htype.
  - (* a network session: the argument count is off *)
    destruct Hbad as [Hc | [[-> Hlen] | [-> Hlen]]]; [discriminate | |].
    + cbn [String.eqb Ascii.eqb Bool.eqb].
      rewrite run_bind, (run_as_NetSession _ _ Htype). cbv beta iota.
      rewrite run_bind, run_sessObj. cbv beta iota.
      destruct (sess_args (sessObjs st2 sess)) as [|a0 [|a1 [|a2 [|a3 [|a4 rest]]]]];
        try (rewrite run_stop; rewrite !app_nil_r; reflexivity).
      cbn in Hlen. contradiction.
    + cbn [String.eqb Ascii.eqb Bool.eqb].
      rewrite run_bind, (run_as_NetSession _ _ Htype). cbv beta iota.
      rewrite run_bind, run_sessObj. cbv beta iota.
      destruct (sess_args (sessObjs st2 sess))
        as [|a0 [|a1 [|a2 [|a3 [|a4 [|a5 [|a6 rest]]]]]]];
        try (rewrite run_stop; rewrite !app_nil_r; reflexivity).
      cbn in Hlen. contradiction.
  - (* not a network session *)
    destruct Hname as [-> | [-> | ->]]; cbn [String.eqb Ascii.eqb Bool.eqb];
      rewrite run_bind, (run_as_NetSession_local _ _ Htype);
      rewrite !app_nil_r; reflexivity.
Qed.

(** X12.  A [fullsync] that [processRequest] hands to the replication
    manager shows in the statistics of [getStatInfo] as [sync_full]
    one higher than before the dispatch, and in no other line. *)
Theorem X12_fullsync_in_info (now : Z) (sess : N) (st st1 st2 : State)
    (mon : list event) (r : ReplManager) (a0 a1 a2 a3 : string)
    (lines : list (string * string)) :
  _isRunning st = true ->
  Command_precheck sess st = (Done (Value "fullsync"), st1) ->
  replyMonitors now sess st1 = (Done tt, st2, mon) ->
  sess_type (sessObjs st2 sess) = NetSessionT ->
  sess_args (sessObjs st2 sess) = [a0; a1; a2; a3] ->
  _replMgr st2 = Some r ->
  statInfoLines st2 = Some lines ->
  exists st' evs lines',
    processRequest now sess st = (Done false, st', evs) /\
    statInfoLines st' = Some lines' /\
    field "sync_full" lines = Some (to_string (syncFull (_serverStat st2))) /\
    field "sync_full" lines' = Some (to_string (add64 (syncFull (_serverStat st2)) 1)) /\
    (forall key, key <> "sync_full" -> field key lines' = field key lines).
Proof.
  intros Hrun Hpre Hfan Htype Hargs Hrepl Hlines.
  unfold processRequest.
  rewrite run_bind, run_get; cbv beta iota.
  rewrite Hrun; cbn [negb].
  rewrite run_bind, (run_precheck _ _ _ _ Hpre); cbv beta iota.
  rewrite run_bind, Hfan; cbv beta iota.
  cbn [String.eqb Ascii.eqb Bool.eqb].
  rewrite run_bind, (run_as_NetSession _ _ Htype). cbv beta iota.
  rewrite run_bind, run_sessObj. cbv beta iota. rewrite Hargs.
  rewrite run_bind, run_borrowConn. cbv beta iota.
  rewrite run_bind. erewrite run_supplyFullSync by exact Hrepl. cbv beta iota.
  rewrite run_bind, run_incrStat. cbv beta iota. rewrite run_ret.
  unfold statInfoLines in Hlines.
  destruct (getInstantaneousMetric STATS_METRIC_COMMAND (_serverStat st2))
    as [ops|] eqn:Hops; [| discriminate].
  destruct (getInstantaneousMetric STATS_METRIC_NET_INPUT (_serverStat st2))
    as [inp|] eqn:Hinp; [| discriminate].
  destruct (getInstantaneousMetric STATS_METRIC_NET_OUTPUT (_serverStat st2))
    as [outp|] eqn:Houtp; [| discriminate].
  cbn [mbind option_bind] in Hlines. injection Hlines as <-.
  eexists _, _, _. split; [reflexivity |].
  unfold statInfoLines.
  cbn [_serverStat _netMatrix _poolMatrix _reqMatrix with_serverStat with_replMgr
       with_sessObjs].
  change (getInstantaneousMetric ?k (with_syncFull ?v ?s))
    with (getInstantaneousMetric k s).
  rewrite Hops, Hinp, Houtp. cbn [mbind option_bind].
  split; [reflexivity |].
  split; [reflexivity |]. split; [reflexivity |].
  intros key Hkey.
  assert (Hne : String.eqb "sync_full" key = false).
  { apply String.eqb_neq. congruence. }
  cbn [field syncFull with_syncFull expiredkeys keyspaceHits keyspaceMisses
       keyspaceIncorrectEp rejectedConn syncPartialOk syncPartialErr
       netInputBytes netOutputBytes].
  rewrite Hne. reflexivity.
Qed.

End DispatchAsserts.

Lemma X11_dispatch_asserts_witness :
  @processRequest demoCollab 0 7%N (with_sessObjs demoLocalObjs demoRunning)
  = (Abort InvariantFailed, with_sessObjs demoLocalObjs demoRunning, [EvPrecheck 7%N]).
Proof.
  apply (@X11_dispatch_asserts demoCollab 0 7%N
           (with_sessObjs demoLocalObjs demoRunning)
           (with_sessObjs demoLocalObjs demoRunning)
           (with_sessObjs demoLocalObjs demoRunning) "quit" []).
  - reflexivity.
  - reflexivity.
  - reflexivity.
  - right. right. reflexivity.
  - left. reflexivity.
Defined.

Lemma X12_fullsync_in_info_witness :
  exists st' evs lines',
    @processRequest demoCollab 0 1%N demoRunning = (Done false, st', evs) /\
    @statInfoLines demoCollab st' = Some lines' /\
    field "sync_full" lines' = Some "1" /\
    field "sync_partial_ok" lines' = Some "0".
Proof.
  destruct (@statInfoLines demoCollab demoRunning) as [lines|] eqn:Hlines;
    [| vm_compute in Hlines; discriminate Hlines].
  destruct (@X12_fullsync_in_info demoCollab 0 1%N demoRunning demoRunning demoRunning
              [] (mkReplManager [] []) "fullsync" "0" "10.0.0.7" "6380" lines
              eq_refl eq_refl eq_refl eq_refl eq_refl eq_refl Hlines)
    as (st' & evs & lines' & Hrun & Hinfo & _ & Hfull & Hrest).
  exists st', evs, lines'. split; [exact Hrun |]. split; [exact Hinfo |].
  split; [exact Hfull |].
  rewrite Hrest by discriminate.
  vm_compute in Hlines. injection Hlines as <-. reflexivity.
Defined.

(** ** Store lifecycle: where the steps part ways *)

Section StoreEdges.
Context `{Collab}.

(** Entering [destroyStore] on a paused store that may be destroyed,
    up to and including the catalog write. *)
Lemma destroyStore_written sess storeId isForce st seg h store c old :
  _segmentMgr st = Some seg ->
  SegmentMgr_getDb st sess storeId LOCK_X = Value h ->
  _kvstores st !! h = Some store ->
  (isForce = true \/ store_empty store = true) ->
  store_paused store = true ->
  _catalog st = Some c ->
  Status_ok (Catalog_read_status c storeId) = true ->
  cat_metas c !! storeId = Some old ->
  Status_ok (Catalog_write_status c (mkStoreMainMeta storeId STORE_NONE)) = true ->
  destroyStore sess storeId isForce st =
  match KVStore_destroy h
          (with_catalog (Some (mkCatalog (<[storeId := STORE_NONE]> (cat_metas c))
                                 (cat_kvStoreCount c) (cat_chunkSize c))) st) with
  | (Done status, st1, e1) =>
      if negb (Status_ok status)
      then (Done status, st1, take 3 (destroyCalls storeId h) ++ e1)
      else
        match ReplManager_stopStore storeId st1 with
        | (Done status, st2, e2) =>
            if negb (Status_ok status)
            then (Done status, st2, take 3 (destroyCalls storeId h) ++ e1 ++ e2)
            else
              match IndexManager_stopStore storeId st2 with
              | (r, st3, e3) =>
                  (r, st3, take 3 (destroyCalls storeId h) ++ e1 ++ e2 ++ e3)
              end
        | (Abort why, st2, e2) =>
            (Abort why, st2, take 3 (destroyCalls storeId h) ++ e1 ++ e2)
        end
  | (Abort why, st1, e1) => (Abort why, st1, take 3 (destroyCalls storeId h) ++ e1)
  end.
Proof.
  intros Hseg Hdb Hstore Hmay Hpaused Hc Hrd Hold Hwr. unfold destroyStore.
  rewrite run_bind, (run_getDb _ _ _ _ _ Hseg), Hdb. cbv beta iota.
  rewrite run_bind, (run_storeObj _ _ _ Hstore). cbv beta iota.
  replace (negb isForce && negb (store_empty store)) with false
    by (destruct Hmay as [-> | ->]; [reflexivity | destruct isForce; reflexivity]).
  rewrite Hpaused. cbn [negb].
  rewrite run_bind, (run_getStoreMainMeta _ _ _ Hc), Hrd, Hold. cbv beta iota.
  cbn [negb meta_id].
  rewrite run_bind, (run_setStoreMainMeta _ _ _ Hc), Hwr. cbv beta iota.
  cbn [negb meta_id storeMode].
  rewrite run_bind.
  destruct (KVStore_destroy h _) as [[[status | why] st1] e1]; [| reflexivity].
  destruct (Status_ok status); cbn [negb].
  2:{ rewrite run_ret. rewrite app_nil_r. reflexivity. }
  rewrite run_bind.
  destruct (ReplManager_stopStore storeId st1) as [[[status2 | why] st2] e2];
    [| reflexivity].
  destruct (Status_ok status2); cbn [negb].
  2:{ rewrite run_ret. rewrite app_nil_r. reflexivity. }
  rewrite run_bind.
  destruct (IndexManager_stopStore storeId st2) as [[[status3 | why] st3] e3].
  - rewrite run_ret. rewrite app_nil_r. reflexivity.
  - reflexivity.
Qed.

(** X13.  On a coordinator without index manager, a [destroyStore]
    that passes every check does not return: it has written
    [STORE_NONE] to the catalog, destroyed the store and stopped its
    replication when it calls [stopStore] through the empty
    [_indexMgr]. *)
Theorem X13_destroy_without_index (sess : N) (storeId : Z) (isForce : bool)
    (st : State) (seg : SegmentMgr) (h : nat) (store : KVStore) (c : Catalog)
    (old : StoreMode) (rm : ReplManager) :
  _segmentMgr st = Some seg ->
  SegmentMgr_getDb st sess storeId LOCK_X = Value h ->
  _kvstores st !! h = Some store ->
  (isForce = true \/ store_empty store = true) ->
  store_paused store = true ->
  _catalog st = Some c ->
  Status_ok (Catalog_read_status c storeId) = true ->
  cat_metas c !! storeId = Some old ->
  Status_ok (Catalog_write_status c (mkStoreMainMeta storeId STORE_NONE)) = true ->
  Status_ok (KVStore_destroy_status store) = true ->
  _replMgr st = Some rm ->
  Status_ok (ReplManager_stopStore_status rm storeId) = true ->
  _indexMgr st = None ->
  exists st',
    destroyStore sess storeId isForce st =
      (Abort NullPointer, st', take 5 (destroyCalls storeId h)) /\
    _kvstores st' !! h =
      Some (mkKVStore (dbId store) STORE_NONE true (store_empty store) true) /\
    (exists c', _catalog st' = Some c' /\ cat_metas c' !! storeId = Some STORE_NONE) /\
    (exists rm', _replMgr st' = Some rm' /\ storeId ∈ repl_stopped rm').
Proof.
  intros Hseg Hdb Hstore Hmay Hpaused Hc Hrd Hold Hwr Hds Hrm Hrs Him.
  rewrite (destroyStore_written sess storeId isForce st seg h store c old
             Hseg Hdb Hstore Hmay Hpaused Hc Hrd Hold Hwr).
  erewrite run_KVStore_destroy by exact Hstore. rewrite Hds. cbn [negb].
  erewrite run_ReplManager_stopStore by exact Hrm. rewrite Hrs. cbn [negb].
  unfold IndexManager_stopStore. rewrite run_bind.
  erewrite run_deref_null by exact Him.
  eexists. split; [reflexivity |].
  split.
  { cbn. rewrite Hpaused. apply list_lookup_insert_eq.
    eapply lookup_lt_Some. exact Hstore. }
  split.
  { eexists. split; [reflexivity |]. cbn. apply lookup_insert_eq. }
  eexists. split; [reflexivity |]. cbn.
  apply elem_of_app. right. apply list_elem_of_singleton. reflexivity.
Qed.

(** X14.  When [store->destroy()] fails, [destroyStore] returns its
    status at once: the catalog already records the shard as
    [STORE_NONE], while the store itself, the replication manager and
    the index manager are as they were. *)
Theorem X14_destroy_failure (sess : N) (storeId : Z) (isForce : bool)
    (st : State) (seg : SegmentMgr) (h : nat) (store : KVStore) (c : Catalog)
    (old : StoreMode) :
  _segmentMgr st = Some seg ->
  SegmentMgr_getDb st sess storeId LOCK_X = Value h ->
  _kvstores st !! h = Some store ->
  (isForce = true \/ store_empty store = true) ->
  store_paused store = true ->
  _catalog st = Some c ->
  Status_ok (Catalog_read_status c storeId) = true ->
  cat_metas c !! storeId = Some old ->
  Status_ok (Catalog_write_status c (mkStoreMainMeta storeId STORE_NONE)) = true ->
  Status_ok (KVStore_destroy_status store) = false ->
  exists st',
    destroyStore sess storeId isForce st =
      (Done (KVStore_destroy_status store), st', take 4 (destroyCalls storeId h)) /\
    (exists c', _catalog st' = Some c' /\ cat_metas c' !! storeId = Some STORE_NONE) /\
    _kvstores st' = _kvstores st /\
    _replMgr st' = _replMgr st /\
    _indexMgr st' = _indexMgr st.
Proof.
  intros Hseg Hdb Hstore Hmay Hpaused Hc Hrd Hold Hwr Hds.
  rewrite (destroyStore_written sess storeId isForce st seg h store c old
             Hseg Hdb Hstore Hmay Hpaused Hc Hrd Hold Hwr).
  erewrite run_KVStore_destroy by exact Hstore. rewrite Hds. cbn [negb].
  eexists. split; [reflexivity |].
  split; [eexists; split; [reflexivity | cbn; apply lookup_insert_eq] |].
  repeat split.
Qed.

(** X15.  [setStoreMode] changes the store before it touches the
    catalog and takes nothing back: when the store id does not parse,
    or when the catalog write fails, it returns that status with the
    store already in the new mode and the catalog unchanged. *)
Theorem X15_setStoreMode_unpersisted (store : nat) (mode : StoreMode)
    (st : State) (s : KVStore) :
  _kvstores st !! store = Some s ->
  store_mode s <> mode ->
  Status_ok (KVStore_setMode_status s mode) = true ->
  let changed :=
    with_kvstores (<[store := mkKVStore (dbId s) mode (store_paused s)
                               (store_empty s) (store_destroyed s)]> (_kvstores st)) st in
  (forall e, stoul (dbId s) = Unexpected e ->
     setStoreMode store mode st = (Done e, changed, [EvStoreSetMode store mode])) /\
  (forall storeId c old,
     stoul (dbId s) = Value storeId ->
     _catalog st = Some c ->
     Status_ok (Catalog_read_status c storeId) = true ->
     cat_metas c !! storeId = Some old ->
     Status_ok (Catalog_write_status c (mkStoreMainMeta storeId mode)) = false ->
     setStoreMode store mode st =
       (Done (Catalog_write_status c (mkStoreMainMeta storeId mode)), changed,
        [EvStoreSetMode store mode; EvGetStoreMainMeta storeId;
         EvSetStoreMainMeta (mkStoreMainMeta storeId mode)])) /\
  _catalog changed = _catalog st /\
  store_mode <$> _kvstores changed !! store = Some mode.
Proof.
  intros Hstore Hne Hset changed.
  assert (Hlt : (store < length (_kvstores st))%nat)
    by (eapply lookup_lt_Some; exact Hstore).
  assert (Henter : forall k : M Status,
            (s0 ← storeObj store;
             if decide (store_mode s0 = mode) then mret OK else
             status ← KVStore_setMode store mode;
             if negb (Status_ok status) then stop FatalLogged else k) st =
            match k changed with
            | (r, st', e) => (r, st', [EvStoreSetMode store mode] ++ e)
            end).
  { intros k. rewrite run_bind, (run_storeObj _ _ _ Hstore). cbv beta iota.
    destruct (decide (store_mode s = mode)) as [Heq | _]; [contradiction |].
    rewrite run_bind, (run_KVStore_setMode _ _ _ _ Hstore), Hset. cbv beta iota.
    cbn [negb]. fold changed. destruct (k changed) as [[r st'] e]. reflexivity. }
  assert (Hnew : _kvstores changed !! store =
                 Some (mkKVStore (dbId s) mode (store_paused s) (store_empty s)
                         (store_destroyed s))).
  { unfold changed. cbn. apply list_lookup_insert_eq. exact Hlt. }
  split; [| split; [| split]].
  - intros e He. unfold setStoreMode. rewrite Henter.
    rewrite run_bind, (run_storeObj _ _ _ Hnew). cbv beta iota. cbn [dbId].
    rewrite He, run_ret. reflexivity.
  - intros storeId c old Hid Hc Hrd Hold Hwr. unfold setStoreMode. rewrite Henter.
    rewrite run_bind, (run_storeObj _ _ _ Hnew). cbv beta iota. cbn [dbId].
    rewrite Hid.
    assert (Hc' : _catalog changed = Some c) by exact Hc.
    rewrite run_bind, (run_getStoreMainMeta _ _ _ Hc'), Hrd, Hold. cbv beta iota.
    cbn [negb meta_id].
    rewrite (run_setStoreMainMeta _ _ _ Hc'), Hwr. reflexivity.
  - reflexivity.
  - rewrite Hnew. reflexivity.
Qed.

(** X16.  Where every collaborator succeeds and the catalog records
    the mode the store is in, changing the mode of a store and
    changing it back restores the coordinator state exactly, store and
    catalog included; and asking again for the mode a store has just
    been given is answered OK without a single call. *)
Theorem X16_setStoreMode_round_trip (store : nat) (mode : StoreMode)
    (st : State) (s : KVStore) (storeId : Z) (c : Catalog) :
  _kvstores st !! store = Some s ->
  store_mode s <> mode ->
  stoul (dbId s) = Value storeId ->
  _catalog st = Some c ->
  cat_metas c !! storeId = Some (store_mode s) ->
  (forall k m, KVStore_setMode_status k m = OK) ->
  (forall c id, Catalog_read_status c id = OK) ->
  (forall c m, Catalog_write_status c m = OK) ->
  exists st1 e1 e2,
    setStoreMode store mode st = (Done OK, st1, e1) /\
    setStoreMode store mode st1 = (Done OK, st1, []) /\
    setStoreMode store (store_mode s) st1 = (Done OK, st, e2).
Proof.
  intros Hstore Hne Hid Hc Hold Hset Hrd Hwr.
  assert (Hlt : (store < length (_kvstores st))%nat)
    by (eapply lookup_lt_Some; exact Hstore).
  set (s1 := mkKVStore (dbId s) mode (store_paused s) (store_empty s)
               (store_destroyed s)).
  set (c1 := mkCatalog (<[storeId := mode]> (cat_metas c)) (cat_kvStoreCount c)
               (cat_chunkSize c)).
  set (st1 := with_catalog (Some c1)
                (with_kvstores (<[store := s1]> (_kvstores st)) st)).
  assert (Hs1 : _kvstores st1 !! store = Some s1).
  { unfold st1. cbn. apply list_lookup_insert_eq. exact Hlt. }
  assert (Hc1 : _catalog st1 = Some c1) by reflexivity.
  exists st1. eexists _, _. split; [| split].
  - unfold setStoreMode.
    rewrite run_bind, (run_storeObj _ _ _ Hstore). cbv beta iota.
    destruct (decide (store_mode s = mode)) as [Heq | _]; [contradiction |].
    rewrite run_bind, (run_KVStore_setMode _ _ _ _ Hstore), Hset. cbv beta iota.
    change (Status_ok OK) with true. cbn [negb].
    rewrite run_bind. erewrite run_storeObj
      by (cbn; apply list_lookup_insert_eq; exact Hlt).
    cbv beta iota. cbn [dbId]. rewrite Hid.
    rewrite run_bind. erewrite run_getStoreMainMeta by exact Hc.
    rewrite Hrd, Hold. cbv beta iota. change (Status_ok OK) with true.
    cbn [negb meta_id].
    erewrite run_setStoreMainMeta by exact Hc. rewrite Hwr.
    change (Status_ok OK) with true. cbv beta iota. reflexivity.
  - unfold setStoreMode.
    rewrite run_bind, (run_storeObj _ _ _ Hs1). cbv beta iota.
    destruct (decide (store_mode s1 = mode)) as [_ | Hc']; [| exfalso; apply Hc'; reflexivity].
    rewrite run_ret. reflexivity.
  - unfold setStoreMode.
    rewrite run_bind, (run_storeObj _ _ _ Hs1). cbv beta iota.
    destruct (decide (store_mode s1 = store_mode s)) as [Heq | _];
      [exfalso; apply Hne; symmetry; exact Heq |].
    rewrite run_bind, (run_KVStore_setMode _ _ _ _ Hs1), Hset. cbv beta iota.
    change (Status_ok OK) with true. cbn [negb].
    rewrite run_bind. erewrite run_storeObj
      by (cbn; apply list_lookup_insert_eq; rewrite length_insert; exact Hlt).
    cbv beta iota. cbn [dbId s1]. rewrite Hid.
    rewrite run_bind. erewrite run_getStoreMainMeta by reflexivity.
    rewrite Hrd. change (Status_ok OK) with true. cbn [negb c1 cat_metas].
    rewrite lookup_insert_eq. cbv beta iota. cbn [meta_id].
    erewrite run_setStoreMainMeta by reflexivity. rewrite Hwr.
    change (Status_ok OK) with true. cbv beta iota.
    f_equal. f_equal.
    cbn. rewrite list_insert_insert_eq, insert_insert_eq.
    rewrite (insert_id _ _ _ Hold).
    replace (mkKVStore (dbId s) (store_mode s) (store_paused s) (store_empty s)
               (store_destroyed s)) with s by (destruct s; reflexivity).
    rewrite (list_insert_id _ _ _ Hstore).
    replace (mkCatalog (cat_metas c) (cat_kvStoreCount c) (cat_chunkSize c))
      with c by (destruct c; reflexivity).
    rewrite <- Hc. destruct st. reflexivity.
Qed.

End StoreEdges.

Lemma X13_destroy_without_index_witness :
  _indexMgr demoPausedNoExpire = None /\
  exists st',
    @destroyStore demoCollab 4%N 2 false demoPausedNoExpire =
      (Abort NullPointer, st',
       [EvGetDb 2 LOCK_X; EvGetStoreMainMeta 2;
        EvSetStoreMainMeta (mkStoreMainMeta 2 STORE_NONE);
        EvStoreDestroy 2%nat; EvReplStopStore 2]) /\
    _kvstores st' !! 2%nat = Some (mkKVStore "2" STORE_NONE true true true).
Proof.
  split; [reflexivity |].
  destruct (_catalog demoPausedNoExpire) as [c|] eqn:Hc; [| discriminate Hc].
  destruct (cat_metas c !! 2) as [old|] eqn:Hold;
    [| vm_compute in Hc; injection Hc as <-; discriminate Hold].
  destruct (@X13_destroy_without_index demoCollab 4%N 2 false demoPausedNoExpire
              (mkSegmentMgr 3 16) 2%nat (mkKVStore "2" READ_WRITE true true false)
              c old (mkReplManager [] [])
              eq_refl eq_refl eq_refl (or_intror eq_refl) eq_refl Hc eq_refl
              Hold eq_refl eq_refl eq_refl eq_refl eq_refl)
    as (st' & Hrun & Hstore & _).
  exists st'. split; [exact Hrun | exact Hstore].
Defined.

Lemma X14_destroy_failure_witness :
  exists st',
    @destroyStore failingDestroy 4%N 2 true demoPaused =
      (Done (mkStatus ERR_INTERNAL "destroy failed"), st',
       [EvGetDb 2 LOCK_X; EvGetStoreMainMeta 2;
        EvSetStoreMainMeta (mkStoreMainMeta 2 STORE_NONE); EvStoreDestroy 2%nat]) /\
    (exists c', _catalog st' = Some c' /\ cat_metas c' !! 2 = Some STORE_NONE) /\
    _kvstores st' !! 2%nat = Some (mkKVStore "2" READ_WRITE true false false).
Proof.
  destruct (_catalog demoPaused) as [c|] eqn:Hc; [| discriminate Hc].
  destruct (cat_metas c !! 2) as [old|] eqn:Hold;
    [| vm_compute in Hc; injection Hc as <-; discriminate Hold].
  destruct (@X14_destroy_failure failingDestroy 4%N 2 true demoPaused
              (mkSegmentMgr 3 16) 2%nat (mkKVStore "2" READ_WRITE true false false)
              c old
              eq_refl eq_refl eq_refl (or_introl eq_refl) eq_refl Hc eq_refl
              Hold eq_refl eq_refl)
    as (st' & Hrun & Hcat & Hstores & _).
  exists st'. split; [exact Hrun |]. split; [exact Hcat |].
  rewrite Hstores. reflexivity.
Defined.

Lemma X15_setStoreMode_unpersisted_witness :
  exists st',
    @setStoreMode failingWrite 0%nat REPLICATE_ONLY demoRunning =
      (Done (mkStatus ERR_INTERNAL "catalog is read-only"), st',
       [EvStoreSetMode 0%nat REPLICATE_ONLY; EvGetStoreMainMeta 0;
        EvSetStoreMainMeta (mkStoreMainMeta 0 REPLICATE_ONLY)]) /\
    _catalog st' = _catalog demoRunning /\
    store_mode <$> _kvstores st' !! 0%nat = Some REPLICATE_ONLY.
Proof.
  destruct (_catalog demoRunning) as [c|] eqn:Hc; [| discriminate Hc].
  destruct (cat_metas c !! 0) as [old|] eqn:Hold;
    [| vm_compute in Hc; injection Hc as <-; discriminate Hold].
  destruct (@X15_setStoreMode_unpersisted failingWrite 0%nat REPLICATE_ONLY demoRunning
              (mkKVStore "0" READ_WRITE false true false)
              eq_refl ltac:(discriminate) eq_refl)
    as (_ & Hwrite & Hcat & Hmode).
  eexists. split; [exact (Hwrite 0 c old eq_refl Hc eq_refl Hold eq_refl) |].
  split; [rewrite Hcat; exact Hc | exact Hmode].
Defined.

Lemma X16_setStoreMode_round_trip_witness :
  exists st1 e1 e2,
    @setStoreMode demoCollab 0%nat REPLICATE_ONLY demoRunning = (Done OK, st1, e1) /\
    @setStoreMode demoCollab 0%nat REPLICATE_ONLY st1 = (Done OK, st1, []) /\
    @setStoreMode demoCollab 0%nat READ_WRITE st1 = (Done OK, demoRunning, e2).
Proof.
  destruct (_catalog demoRunning) as [c|] eqn:Hc; [| discriminate Hc].
  assert (Hold : cat_metas c !! 0 = Some READ_WRITE).
  { vm_compute in Hc. injection Hc as <-. reflexivity. }
  exact (@X16_setStoreMode_round_trip demoCollab 0%nat REPLICATE_ONLY demoRunning
           (mkKVStore "0" READ_WRITE false true false) 0 c
           eq_refl ltac:(discriminate) eq_refl Hc Hold
           (fun _ _ => eq_refl) (fun _ _ => eq_refl) (fun _ _ => eq_refl)).
Defined.

(** ** Aggregated shard queries *)

Section ShardQueryProps.
Context `{Collab} `{Probes}.

Lemma run_getKVStoreCount st c :
  _catalog st = Some c -> getKVStoreCount st = (Done (cat_kvStoreCount c), st, []).
Proof.
  intros Hc. unfold getKVStoreCount. rewrite run_bind, (run_deref _ _ _ Hc).
  reflexivity.
Qed.

Lemma totalIntLoop_prefix sess property st seg (vals : nat -> Z) rest :
  _segmentMgr st = Some seg ->
  forall k a v0,
    (forall i, (a <= i < a + k)%nat -> answersInt st sess property i (vals i)) ->
    totalIntLoop sess property (seq a k ++ rest) (wrap64 v0) st =
    match totalIntLoop sess property rest
            (wrap64 (v0 + sumZ (vals <$> seq a k))) st with
    | (r, st', e) =>
        (r, st', ((fun i => EvGetDb (Z.of_nat i) LOCK_IS) <$> seq a k) ++ e)
    end.
Proof.
  intros Hseg k. induction k as [|k IH]; intros a v0 Hok.
  - cbn [seq app fmap list_fmap sumZ foldr]. rewrite Z.add_0_r.
    destruct (totalIntLoop sess property rest (wrap64 v0) st) as [[r st'] e].
    reflexivity.
  - cbn [seq app totalIntLoop].
    destruct (Hok a ltac:(lia)) as (h & s & Hdb & Hs & Hv).
    rewrite run_bind, (run_getDb _ _ _ _ _ Hseg), Hdb. cbv beta iota.
    rewrite run_bind, (run_storeObj _ _ _ Hs). cbv beta iota. rewrite Hv.
    rewrite add64_wrap_l, (IH (S a) (v0 + vals a)) by (intros i Hi; apply Hok; lia).
    replace (v0 + vals a + sumZ (vals <$> seq (S a) k))
      with (v0 + sumZ (vals <$> seq a (S k))).
    2:{ change (seq a (S k)) with (a :: seq (S a) k). rewrite fmap_cons.
        change (sumZ (vals a :: (vals <$> seq (S a) k)))
          with (vals a + sumZ (vals <$> seq (S a) k)). lia. }
    destruct (totalIntLoop sess property rest _ st) as [[r st'] e].
    reflexivity.
Qed.

(** X17.  [getTotalIntProperty] asks the shards in order under the
    intention-shared lock and leaves the coordinator state alone.
    When all [kvStoreCount] shards answer, it returns true and the sum
    of their values in [uint64_t].  When shard [k] is the first whose
    lock or property cannot be had, it returns false after asking
    shards [0..k] only, and [*value] then holds the sum of the shards
    before [k]. *)
Theorem X17_getTotalIntProperty (sess : N) (property : string) (st : State)
    (c : Catalog) (seg : SegmentMgr) (vals : nat -> Z) (k : nat) :
  _catalog st = Some c ->
  _segmentMgr st = Some seg ->
  (forall i, (i < k)%nat -> answersInt st sess property i (vals i)) ->
  (k = Z.to_nat (cat_kvStoreCount c) ->
     getTotalIntProperty sess property st =
       (Done (true, wrap64 (sumZ (vals <$> seq 0 k))), st, probeCalls k)) /\
  ((k < Z.to_nat (cat_kvStoreCount c))%nat ->
   refusesInt st sess property k ->
     getTotalIntProperty sess property st =
       (Done (false, wrap64 (sumZ (vals <$> seq 0 k))), st, probeCalls (S k))).
Proof.
  intros Hc Hseg Hok. split.
  - intros Hk. unfold getTotalIntProperty.
    rewrite run_bind, (run_getKVStoreCount _ _ Hc). cbv beta iota.
    rewrite <- Hk. rewrite <- (app_nil_r (seq 0 k)).
    change 0 with (wrap64 0) at 1.
    rewrite (totalIntLoop_prefix sess property st seg vals [] Hseg k 0%nat 0)
      by (intros i Hi; apply Hok; lia).
    cbn [totalIntLoop]. rewrite run_ret, !app_nil_r. reflexivity.
  - intros Hk Hfail. unfold getTotalIntProperty.
    rewrite run_bind, (run_getKVStoreCount _ _ Hc). cbv beta iota.
    replace (Z.to_nat (cat_kvStoreCount c))
      with (k + S (Z.to_nat (cat_kvStoreCount c) - S k))%nat by lia.
    rewrite seq_app. cbn [seq Nat.add].
    change 0 with (wrap64 0) at 1.
    rewrite (totalIntLoop_prefix sess property st seg vals _ Hseg k 0%nat 0)
      by (intros i Hi; apply Hok; lia).
    cbn [totalIntLoop].
    rewrite run_bind, (run_getDb _ _ _ _ _ Hseg). cbv beta iota.
    unfold probeCalls. rewrite seq_S, fmap_app. cbn [fmap list_fmap Nat.add].
    destruct Hfail as [[e He] | (h & s & Hdb & Hs & Hv)].
    + rewrite He, run_ret, !app_nil_r. reflexivity.
    + rewrite Hdb. rewrite run_bind, (run_storeObj _ _ _ Hs). cbv beta iota.
      rewrite Hv, run_ret, !app_nil_r. reflexivity.
Qed.

Lemma allPropertyLoop_prefix sess property st seg (ids vals : nat -> string) rest :
  _segmentMgr st = Some seg ->
  forall k a ss,
    (forall i, (a <= i < a + k)%nat -> answersText st sess property i (ids i) (vals i)) ->
    allPropertyLoop sess property (seq a k ++ rest) ss st =
    match allPropertyLoop sess property rest
            (ss +:+ sconcat ((fun i => propertyLine (ids i) (vals i)) <$> seq a k)) st with
    | (r, st', e) =>
        (r, st', ((fun i => EvGetDb (Z.of_nat i) LOCK_IS) <$> seq a k) ++ e)
    end.
Proof.
  intros Hseg k. induction k as [|k IH]; intros a ss Hok.
  - cbn [seq app fmap list_fmap sconcat foldr]. rewrite sapp_nil_r.
    destruct (allPropertyLoop sess property rest ss st) as [[r st'] e].
    reflexivity.
  - cbn [seq app allPropertyLoop].
    destruct (Hok a ltac:(lia)) as (h & s & Hdb & Hs & Hid & Hv).
    rewrite run_bind, (run_getDb _ _ _ _ _ Hseg), Hdb. cbv beta iota.
    rewrite run_bind, (run_storeObj _ _ _ Hs). cbv beta iota. rewrite Hv, Hid.
    fold (propertyLine (ids a) (vals a)).
    rewrite (IH (S a)) by (intros i Hi; apply Hok; lia).
    replace ((ss +:+ propertyLine (ids a) (vals a)) +:+
             sconcat ((fun i => propertyLine (ids i) (vals i)) <$> seq (S a) k))
      with (ss +:+ sconcat ((fun i => propertyLine (ids i) (vals i)) <$> seq a (S k))).
    2:{ change (seq a (S k)) with (a :: seq (S a) k). rewrite fmap_cons.
        change (sconcat (?x :: ?l)) with (x +:+ sconcat l).
        rewrite sapp_assoc. reflexivity. }
    destruct (allPropertyLoop sess property rest _ st) as [[r st'] e].
    reflexivity.
Qed.

(** X18.  [getAllProperty] asks the shards in order under the
    intention-shared lock and leaves the coordinator state alone.
    When all shards answer, the text is the concatenation, in shard
    order, of one line [store_<dbId>:<value>\r\n] per shard, with the
    id the store itself reports.  When shard [k] is the first whose
    lock or property cannot be had, it returns false after asking
    shards [0..k] only, without having written the result. *)
Theorem X18_getAllProperty (sess : N) (property : string) (st : State)
    (c : Catalog) (seg : SegmentMgr) (ids vals : nat -> string) (k : nat) :
  _catalog st = Some c ->
  _segmentMgr st = Some seg ->
  (forall i, (i < k)%nat -> answersText st sess property i (ids i) (vals i)) ->
  (k = Z.to_nat (cat_kvStoreCount c) ->
     getAllProperty sess property st =
       (Done (Some (sconcat ((fun i => propertyLine (ids i) (vals i)) <$> seq 0 k))),
        st, probeCalls k)) /\
  ((k < Z.to_nat (cat_kvStoreCount c))%nat ->
   refusesText st sess property k ->
     getAllProperty sess property st = (Done None, st, probeCalls (S k))).
Proof.
  intros Hc Hseg Hok. split.
  - intros Hk. unfold getAllProperty.
    rewrite run_bind, (run_getKVStoreCount _ _ Hc). cbv beta iota.
    rewrite <- Hk. rewrite <- (app_nil_r (seq 0 k)).
    rewrite (allPropertyLoop_prefix sess property st seg ids vals [] Hseg k 0%nat)
      by (intros i Hi; apply Hok; lia).
    cbn [allPropertyLoop]. rewrite run_ret, !app_nil_r. reflexivity.
  - intros Hk Hfail. unfold getAllProperty.
    rewrite run_bind, (run_getKVStoreCount _ _ Hc). cbv beta iota.
    replace (Z.to_nat (cat_kvStoreCount c))
      with (k + S (Z.to_nat (cat_kvStoreCount c) - S k))%nat by lia.
    rewrite seq_app. cbn [seq Nat.add].
    rewrite (allPropertyLoop_prefix sess property st seg ids vals _ Hseg k 0%nat)
      by (intros i Hi; apply Hok; lia).
    cbn [allPropertyLoop].
    rewrite run_bind, (run_getDb _ _ _ _ _ Hseg). cbv beta iota.
    unfold probeCalls. rewrite seq_S, fmap_app. cbn [fmap list_fmap Nat.add].
    destruct Hfail as [[e He] | (h & s & Hdb & Hs & Hv)].
    + rewrite He, run_ret, !app_nil_r. reflexivity.
    + rewrite Hdb. rewrite run_bind, (run_storeObj _ _ _ Hs). cbv beta iota.
      rewrite Hv, run_ret, !app_nil_r. reflexivity.
Qed.

Lemma resetStatsLoop_run sess st seg :
  _segmentMgr st = Some seg ->
  forall ids,
    (forall i h, i ∈ ids -> lockedStore st sess i = Some h ->
                 is_Some (_kvstores st !! h)) ->
    resetStatsLoop sess ids st =
    (Done (omap (lockedStore st sess) ids), st,
     (fun i => EvGetDb (Z.of_nat i) LOCK_IS) <$> ids).
Proof.
  intros Hseg ids. induction ids as [|i ids IH]; intros Hlive; [reflexivity |].
  cbn [resetStatsLoop omap list_omap fmap list_fmap].
  rewrite run_bind, (run_getDb _ _ _ _ _ Hseg). cbv beta iota.
  assert (IH' := IH (fun j h Hj => Hlive j h (list_elem_of_further _ _ _ Hj))).
  pose proof (Hlive i) as Hi. unfold lockedStore in Hi |- *.
  destruct (SegmentMgr_getDb st sess (Z.of_nat i) LOCK_IS) as [e | h].
  - rewrite IH'. reflexivity.
  - destruct (Hi h (list_elem_of_here _ _) eq_refl) as [s Hs].
    rewrite run_bind, (run_storeObj _ _ _ Hs). cbv beta iota.
    rewrite run_bind, IH'. cbv beta iota. rewrite run_ret, !app_nil_r. reflexivity.
Qed.

(** X19.  [resetRocksdbStats] never stops early: it asks for the lock
    of every one of the [kvStoreCount] shards, in order, resets the
    statistics of exactly those shards whose lock it obtained, and
    leaves the coordinator state alone. *)
Theorem X19_resetRocksdbStats (sess : N) (st : State) (c : Catalog)
    (seg : SegmentMgr) :
  _catalog st = Some c ->
  _segmentMgr st = Some seg ->
  (forall i h, (i < Z.to_nat (cat_kvStoreCount c))%nat ->
     lockedStore st sess i = Some h -> is_Some (_kvstores st !! h)) ->
  let n := Z.to_nat (cat_kvStoreCount c) in
  resetRocksdbStats sess st =
    (Done (omap (lockedStore st sess) (seq 0 n)), st, probeCalls n).
Proof.
  intros Hc Hseg Hlive n. unfold resetRocksdbStats.
  rewrite run_bind, (run_getKVStoreCount _ _ Hc). cbv beta iota.
  rewrite (resetStatsLoop_run sess st seg Hseg).
  - reflexivity.
  - intros i h Hi. apply Hlive. apply elem_of_seq in Hi. lia.
Qed.

End ShardQueryProps.

Lemma X17_getTotalIntProperty_witness :
  @getTotalIntProperty demoCollab demoProbes 4%N "rocksdb.estimate-num-keys" demoRunning
    = (Done (true, 33), demoRunning,
       [EvGetDb 0 LOCK_IS; EvGetDb 1 LOCK_IS; EvGetDb 2 LOCK_IS]) /\
  @getTotalIntProperty shardOneLocked demoProbes 4%N "rocksdb.estimate-num-keys" demoRunning
    = (Done (false, 10), demoRunning, [EvGetDb 0 LOCK_IS; EvGetDb 1 LOCK_IS]).
Proof.
  destruct (_catalog demoRunning) as [c|] eqn:Hc; [| discriminate Hc].
  assert (Hn : Z.to_nat (cat_kvStoreCount c) = 3%nat).
  { vm_compute in Hc. injection Hc as <-. reflexivity. }
  split.
  - assert (Hok : forall i, (i < 3)%nat ->
              @answersInt demoCollab demoProbes demoRunning 4%N
                "rocksdb.estimate-num-keys" i (Z.of_nat i + 10)).
    { intros [|[|[|i]]] Hi; [| | | lia];
        eexists _, _; (split; [reflexivity |]); split; reflexivity. }
    destruct (@X17_getTotalIntProperty demoCollab demoProbes 4%N
                "rocksdb.estimate-num-keys" demoRunning c (mkSegmentMgr 3 16)
                (fun i => Z.of_nat i + 10) 3%nat Hc eq_refl Hok) as [Hall _].
    rewrite (Hall (eq_sym Hn)). reflexivity.
  - assert (Hok : forall i, (i < 1)%nat ->
              @answersInt shardOneLocked demoProbes demoRunning 4%N
                "rocksdb.estimate-num-keys" i (Z.of_nat i + 10)).
    { intros [|i] Hi; [| lia].
      eexists _, _; (split; [reflexivity |]); split; reflexivity. }
    destruct (@X17_getTotalIntProperty shardOneLocked demoProbes 4%N
                "rocksdb.estimate-num-keys" demoRunning c (mkSegmentMgr 3 16)
                (fun i => Z.of_nat i + 10) 1%nat Hc eq_refl Hok) as [_ Hfirst].
    rewrite Hfirst; [reflexivity | lia |].
    left. eexists. reflexivity.
Defined.

Lemma X18_getAllProperty_witness :
  @getAllProperty demoCollab demoProbes 4%N "rocksdb.stats" demoRunning
    = (Done (Some ("store_0:0" +:+ CRLF +:+ "store_1:1" +:+ CRLF +:+
                   "store_2:2" +:+ CRLF)),
       demoRunning, [EvGetDb 0 LOCK_IS; EvGetDb 1 LOCK_IS; EvGetDb 2 LOCK_IS]) /\
  @getAllProperty shardOneLocked demoProbes 4%N "rocksdb.stats" demoRunning
    = (Done None, demoRunning, [EvGetDb 0 LOCK_IS; EvGetDb 1 LOCK_IS]).
Proof.
  destruct (_catalog demoRunning) as [c|] eqn:Hc; [| discriminate Hc].
  assert (Hn : Z.to_nat (cat_kvStoreCount c) = 3%nat).
  { vm_compute in Hc. injection Hc as <-. reflexivity. }
  split.
  - assert (Hok : forall i, (i < 3)%nat ->
              @answersText demoCollab demoProbes demoRunning 4%N "rocksdb.stats" i
                (to_string (Z.of_nat i)) (to_string (Z.of_nat i))).
    { intros [|[|[|i]]] Hi; [| | | lia];
        eexists _, _; (split; [reflexivity |]); (split; [reflexivity |]);
        split; reflexivity. }
    destruct (@X18_getAllProperty demoCollab demoProbes 4%N "rocksdb.stats"
                demoRunning c (mkSegmentMgr 3 16)
                (fun i => to_string (Z.of_nat i)) (fun i => to_string (Z.of_nat i))
                3%nat Hc eq_refl Hok) as [Hall _].
    rewrite (Hall (eq_sym Hn)). reflexivity.
  - assert (Hok : forall i, (i < 1)%nat ->
              @answersText shardOneLocked demoProbes demoRunning 4%N "rocksdb.stats" i
                (to_string (Z.of_nat i)) (to_string (Z.of_nat i))).
    { intros [|i] Hi; [| lia].
      eexists _, _; (split; [reflexivity |]); (split; [reflexivity |]);
        split; reflexivity. }
    destruct (@X18_getAllProperty shardOneLocked demoProbes 4%N "rocksdb.stats"
                demoRunning c (mkSegmentMgr 3 16)
                (fun i => to_string (Z.of_nat i)) (fun i => to_string (Z.of_nat i))
                1%nat Hc eq_refl Hok) as [_ Hfirst].
    rewrite Hfirst; [reflexivity | lia |].
    left. eexists. reflexivity.
Defined.

Lemma X19_resetRocksdbStats_witness :
  @resetRocksdbStats shardOneLocked 4%N demoRunning
    = (Done [0%nat; 2%nat], demoRunning,
       [EvGetDb 0 LOCK_IS; EvGetDb 1 LOCK_IS; EvGetDb 2 LOCK_IS]).
Proof.
  destruct (_catalog demoRunning) as [c|] eqn:Hc; [| discriminate Hc].
  assert (Hn : Z.to_nat (cat_kvStoreCount c) = 3%nat).
  { vm_compute in Hc. injection Hc as <-. reflexivity. }
  assert (Hlive : forall i h, (i < Z.to_nat (cat_kvStoreCount c))%nat ->
                              @lockedStore shardOneLocked demoRunning 4%N i = Some h ->
                              is_Some (_kvstores demoRunning !! h)).
  { rewrite Hn. intros [|[|[|i]]] h Hi Hh; [| | | lia];
      try (injection Hh as <-; eexists; reflexivity).
    discriminate Hh. }
  rewrite (@X19_resetRocksdbStats shardOneLocked 4%N demoRunning c (mkSegmentMgr 3 16)
             Hc eq_refl Hlive).
  rewrite Hn. reflexivity.
Defined.

(** ** Startup as a whole *)

Section StartupProps.
Context `{Collab}.

(** X20.  Whenever [startup] returns OK, the catalog is installed
    with [kvStoreCount] as its store count, exactly [kvStoreCount]
    stores are installed, the segment manager is built over that many
    stores, and the store at position [i] has the decimal [i] as its id
    and is open in the very mode the catalog holds for shard [i]. *)
Theorem X20_startup_shards (cfg : ServerParams) (st0 st : State) (s : Status)
    (evs : list event) :
  startup cfg st0 = (Done s, st, evs) ->
  Status_ok s = true ->
  exists c,
    _catalog st = Some c /\
    cat_kvStoreCount c = kvStoreCount cfg /\
    length (_kvstores st) = Z.to_nat (kvStoreCount cfg) /\
    _segmentMgr st = Some (mkSegmentMgr (Z.to_nat (kvStoreCount cfg)) (chunkSize cfg)) /\
    forall i sh, _kvstores st !! i = Some sh ->
      dbId sh = to_string (Z.of_nat i) /\
      cat_metas c !! Z.of_nat i = Some (store_mode sh).
Proof.
  intros Hrun Hok.
  destruct (startup_outcome cfg st0) as (r & st' & evs' & Hrun' & Hcase).
  rewrite Hrun in Hrun'. injection Hrun' as <- <- <-.
  destruct Hcase as [(Hbad & _) | (stores & c & cat & _ & Hopen & _ & _ & _ & _ & _ &
                                   Hcat & Hstores & Hseg & _)].
  { rewrite (Hbad s eq_refl) in Hok. discriminate. }
  destruct (openStores_shape (seq 0 (Z.to_nat (kvStoreCount cfg))) (NoDup_seq _ _)
              (with_catalog (Some (mkCatalog Catalog_on_disk (kvStoreCount cfg)
                                     (chunkSize cfg))) st0))
    as (r1 & st1 & e1 & Hrun1 & _ & _ & Hframe & Heach).
  rewrite Hopen in Hrun1. injection Hrun1 as <- <- <-.
  destruct (Hframe _ eq_refl) as (c' & Hc' & Hcount & _).
  injection Hc' as <-.
  destruct (Heach stores eq_refl) as [Hlen Hshard].
  rewrite length_seq in Hlen.
  exists c. split; [exact Hcat |]. split; [exact Hcount |].
  split; [rewrite Hstores; exact Hlen |].
  split; [rewrite Hseg, Hlen; reflexivity |].
  intros i sh Hsh. rewrite Hstores in Hsh.
  assert (Hi : seq 0 (Z.to_nat (kvStoreCount cfg)) !! i = Some i).
  { apply lookup_seq. split; [reflexivity |].
    rewrite <- Hlen. eapply lookup_lt_Some. exact Hsh. }
  destruct (Hshard i i sh Hi Hsh) as (Hid & c'' & Hc'' & Hmode).
  injection Hc'' as <-. split; assumption.
Qed.

(** X21.  [startup] has two kinds of outcome.  Either it returns OK,
    with the server running, not stopped, the cron thread spawned and
    the network accepting connections; or it returns a failure (or
    stops at a fatal catalog error) having changed neither the running
    nor the stopped flag, spawned no cron thread and left the slow log
    alone. *)
Theorem X21_startup_flags (cfg : ServerParams) (st0 st : State)
    (r : result Status) (evs : list event) :
  startup cfg st0 = (r, st, evs) ->
  (r = Done OK /\
   _isRunning st = true /\ _isStopped st = false /\ _cronThd st = true /\
   (exists n, _network st = Some n /\ net_accepting n = true))
  \/
  ((forall s, r = Done s -> Status_ok s = false) /\
   _isRunning st = _isRunning st0 /\ _isStopped st = _isStopped st0 /\
   _cronThd st = _cronThd st0 /\ _slowLog st = _slowLog st0).
Proof.
  intros Hrun.
  destruct (startup_outcome cfg st0) as (r' & st' & evs' & Hrun' & Hcase).
  rewrite Hrun in Hrun'. injection Hrun' as <- <- <-.
  destruct Hcase as [(Hbad & Hr & Hs & Hcron & Hlog & _) |
                     (stores & c & cat & Hr & _ & _ & _ & Hrunning & Hstopped & Hcron &
                      _ & _ & _ & _ & _ & _ & Hnet & _)].
  - right. repeat split; assumption.
  - left. split; [exact Hr |]. split; [exact Hrunning |]. split; [exact Hstopped |].
    split; [exact Hcron |]. eexists. split; [exact Hnet | reflexivity].
Qed.

(** X22.  When every collaborator of [startup] reports success and a
    processor is detected, [startup] returns OK with the server
    running, whether or not the slow-log file could be opened: the
    result of [initSlowlog] is dropped, and after a failed open the
    stream is as it was before. *)
Theorem X22_startup_succeeds (cfg : ServerParams) (st0 : State) :
  startup_healthy cfg ->
  exists st evs,
    startup cfg st0 = (Done OK, st, evs) /\
    _isRunning st = true /\
    _slowLog st = (if ofstream_open_ok (slowlogPath cfg)
                   then mkOfstream (Some (slowlogPath cfg)) (os_out (_slowLog st0))
                   else _slowLog st0).
Proof.
  intros Hhealthy.
  destruct (startup_outcome cfg st0) as (r & st & evs & Hrun & Hcase).
  destruct Hcase as [(_ & _ & _ & _ & _ & _ & Hsick) |
                     (stores & c & cat & -> & _ & _ & _ & Hrunning & _ & _ &
                      _ & _ & _ & _ & _ & _ & _ & _ & _ & Hlog & _)].
  - contradiction.
  - exists st, evs. split; [exact Hrun |]. split; assumption.
Qed.

(** X23.  The calls of a [startup] that returns OK come in one fixed
    order: the command table is configured; then the store loop reads
    and writes the catalog and calls nothing else; then the worker
    pools [req-exec-0], [req-exec-1], ... are started in order; then
    the network is prepared, the replication manager started, the index
    manager started unless [noexpire] is set, the network set to
    accept, the cron thread spawned and the slow log opened. *)
Theorem X23_startup_order (cfg : ServerParams) (st0 st : State) (s : Status)
    (evs : list event) :
  startup cfg st0 = (Done s, st, evs) ->
  Status_ok s = true ->
  exists cat,
    Forall (fun x => is_catalog_call x = true) cat /\
    evs = startupCalls cfg cat (Z.to_nat (executorCount cfg hardware_concurrency)).
Proof.
  intros Hrun Hok.
  destruct (startup_outcome cfg st0) as (r & st' & evs' & Hrun' & Hcase).
  rewrite Hrun in Hrun'. injection Hrun' as <- <- <-.
  destruct Hcase as [(Hbad & _) | (stores & c & cat & _ & Hopen & _ & Hevs & _)].
  { rewrite (Hbad s eq_refl) in Hok. discriminate. }
  destruct (openStores_shape (seq 0 (Z.to_nat (kvStoreCount cfg))) (NoDup_seq _ _)
              (with_catalog (Some (mkCatalog Catalog_on_disk (kvStoreCount cfg)
                                     (chunkSize cfg))) st0))
    as (r1 & st1 & e1 & Hrun1 & _ & Hcalls & _).
  rewrite Hopen in Hrun1. injection Hrun1 as <- <- <-.
  exists cat. split; assumption.
Qed.

(** X24.  With [noexpire] set, [startup] never creates the index
    manager: whatever its outcome, [_indexMgr] is as it was before, and
    [IndexManager::startup] is not among its calls when it returns
    OK. *)
Theorem X24_startup_noexpire (cfg : ServerParams) (st0 st : State)
    (r : result Status) (evs : list event) :
  noexpire cfg = true ->
  startup cfg st0 = (r, st, evs) ->
  _indexMgr st = _indexMgr st0 /\
  (r = Done OK -> EvIndexStartup ∉ evs).
Proof.
  intros Hno Hrun.
  destruct (startup_outcome cfg st0) as (r' & st' & evs' & Hrun' & Hcase).
  rewrite Hrun in Hrun'. injection Hrun' as <- <- <-.
  destruct Hcase as [(Hbad & _ & _ & _ & _ & Hidx & _) |
                     (stores & c & cat & Hr & Hopen & _ & Hevs & _ & _ & _ &
                      _ & _ & _ & _ & _ & _ & _ & _ & Hidx & _)].
  - split; [exact (Hidx Hno) |]. intros ->. specialize (Hbad OK eq_refl). discriminate.
  - rewrite Hno in Hidx. split; [exact Hidx |]. intros _.
    destruct (openStores_shape (seq 0 (Z.to_nat (kvStoreCount cfg))) (NoDup_seq _ _)
                (with_catalog (Some (mkCatalog Catalog_on_disk (kvStoreCount cfg)
                                       (chunkSize cfg))) st0))
      as (r1 & st1 & e1 & Hrun1 & _ & Hcalls & _).
    rewrite Hopen in Hrun1. injection Hrun1 as <- <- <-.
    rewrite Hevs. unfold startupCalls. rewrite Hno.
    intros Hin.
    repeat (apply elem_of_app in Hin; destruct Hin as [Hin | Hin]).
    + repeat (apply elem_of_cons in Hin; destruct Hin as [Hin | Hin];
              [discriminate |]). inversion Hin.
    + rewrite list.Forall_forall in Hcalls. specialize (Hcalls _ Hin). discriminate.
    + unfold startCalls in Hin. apply list_elem_of_fmap in Hin.
      destruct Hin as (i & Hi & _). discriminate.
    + repeat (apply elem_of_cons in Hin; destruct Hin as [Hin | Hin];
              [discriminate |]). inversion Hin.
    + inversion Hin.
    + repeat (apply elem_of_cons in Hin; destruct Hin as [Hin | Hin];
              [discriminate |]). inversion Hin.
Qed.

End StartupProps.

Lemma demo_startup_ok :
  exists st evs,
    @startup demoCollab demoCfg (newServerEntry demoCfg demoObjs) = (Done OK, st, evs).
Proof.
  destruct (@startup demoCollab demoCfg (newServerEntry demoCfg demoObjs))
    as [[r st] evs] eqn:Hrun.
  exists st, evs. f_equal. f_equal.
  vm_compute in Hrun. injection Hrun as <- _ _. reflexivity.
Qed.

Lemma X20_startup_shards_witness :
  exists st evs c,
    @startup demoCollab demoCfg (newServerEntry demoCfg demoObjs) = (Done OK, st, evs) /\
    _catalog st = Some c /\
    length (_kvstores st) = 3%nat /\
    (forall i sh, _kvstores st !! i = Some sh ->
       dbId sh = to_string (Z.of_nat i) /\
       cat_metas c !! Z.of_nat i = Some (store_mode sh)).
Proof.
  destruct demo_startup_ok as (st & evs & Hrun).
  destruct (@X20_startup_shards demoCollab demoCfg (newServerEntry demoCfg demoObjs)
              st OK evs Hrun eq_refl) as (c & Hc & _ & Hlen & _ & Hshards).
  exists st, evs, c. split; [exact Hrun |]. split; [exact Hc |].
  split; [exact Hlen | exact Hshards].
Defined.

Lemma X21_startup_flags_witness :
  exists st evs,
    @startup demoCollab demoCfg (newServerEntry demoCfg demoObjs) = (Done OK, st, evs) /\
    _isRunning st = true /\ _isStopped st = false /\ _cronThd st = true.
Proof.
  destruct demo_startup_ok as (st & evs & Hrun).
  exists st, evs. split; [exact Hrun |].
  destruct (@X21_startup_flags demoCollab demoCfg (newServerEntry demoCfg demoObjs)
              st (Done OK) evs Hrun)
    as [(_ & Hr & Hs & Hcron & _) | (Hbad & _)].
  - split; [exact Hr |]. split; [exact Hs | exact Hcron].
  - specialize (Hbad OK eq_refl). discriminate Hbad.
Defined.

Lemma noSlowlog_healthy : @startup_healthy noSlowlog demoCfg.
Proof.
  split; [intros; reflexivity |]. split; [intros; reflexivity |].
  split; [cbn; lia |]. split; [intros; reflexivity |].
  split; [reflexivity |]. split; [reflexivity |].
  split; [intros _; reflexivity | reflexivity].
Qed.

Lemma X22_startup_succeeds_witness :
  @startup_healthy noSlowlog demoCfg /\
  exists st evs,
    @startup noSlowlog demoCfg (newServerEntry demoCfg demoObjs) = (Done OK, st, evs) /\
    _isRunning st = true /\
    os_path (_slowLog st) = None.
Proof.
  split; [exact noSlowlog_healthy |].
  destruct (@X22_startup_succeeds noSlowlog demoCfg (newServerEntry demoCfg demoObjs)
              noSlowlog_healthy) as (st & evs & Hrun & Hrunning & Hlog).
  exists st, evs. split; [exact Hrun |]. split; [exact Hrunning |].
  rewrite Hlog. reflexivity.
Defined.

Lemma X23_startup_order_witness :
  exists st evs cat,
    @startup demoCollab demoCfg (newServerEntry demoCfg demoObjs) = (Done OK, st, evs) /\
    Forall (fun x => is_catalog_call x = true) cat /\
    evs =
      [EvSetNoExpire false; EvChangeCommand "rename"; EvChangeCommand "mapping"] ++
      cat ++
      [EvExecutorStartup "req-exec-0" 1; EvExecutorStartup "req-exec-1" 1;
       EvExecutorStartup "req-exec-2" 1; EvExecutorStartup "req-exec-3" 1;
       EvNetworkPrepare "127.0.0.1" 6379 2; EvReplStartup; EvIndexStartup;
       EvNetworkRun; EvCronSpawn; EvSlowlogOpen "slowlog"].
Proof.
  destruct demo_startup_ok as (st & evs & Hrun).
  destruct (@X23_startup_order demoCollab demoCfg (newServerEntry demoCfg demoObjs)
              st OK evs Hrun eq_refl) as (cat & Hcat & Hevs).
  exists st, evs, cat. split; [exact Hrun |]. split; [exact Hcat |].
  rewrite Hevs. reflexivity.
Defined.

Lemma X24_startup_noexpire_witness :
  exists st evs,
    @startup demoCollab demoCfgNoExpire (newServerEntry demoCfgNoExpire demoObjs)
      = (Done OK, st, evs) /\
    _indexMgr st = None /\
    EvIndexStartup ∉ evs.
Proof.
  destruct (@startup demoCollab demoCfgNoExpire (newServerEntry demoCfgNoExpire demoObjs))
    as [[r st] evs] eqn:Hrun.
  assert (Hr : r = Done OK).
  { pose proof Hrun as Hrun'. vm_compute in Hrun'. injection Hrun' as <- _ _.
    reflexivity. }
  subst r.
  destruct (@X24_startup_noexpire demoCollab demoCfgNoExpire
              (newServerEntry demoCfgNoExpire demoObjs) st (Done OK) evs eq_refl Hrun)
    as [Hidx Hcalls].
  exists st, evs. split; [reflexivity |]. split; [exact Hidx | exact (Hcalls eq_refl)].
Defined.

(** ** The slow log over a run of commands *)

Lemma slowlogPush_fast time duration args st cfg :
  _cfg st = Some cfg ->
  duration <= slowlogLogSlowerThan cfg ->
  slowlogPushEntryIfNeeded time duration args st = (Done tt, st, []).
Proof.
  intros Hcfg Hle. unfold slowlogPushEntryIfNeeded.
  rewrite run_bind, (run_deref _ _ _ Hcfg). cbv beta iota.
  destruct (Z.ltb_spec (slowlogLogSlowerThan cfg) duration) as [Hlt | _]; [lia |].
  rewrite run_ret. reflexivity.
Qed.

(** Running a slow command up to the test of the flush interval:
    [st1] is the state after the arguments were inserted. *)
Ltac slow_written Hcfg Hlt st1 Hlog Hid Hcfg1 :=
  unfold slowlogPushEntryIfNeeded;
  rewrite run_bind, (run_deref _ _ _ Hcfg); cbv beta iota;
  match goal with
  | |- context [?a <? ?b] =>
      destruct (Z.ltb_spec a b) as [_ | ?Hge]; [| lia]
  end;
  rewrite run_bind, run_get; cbv beta iota;
  rewrite run_bind, run_slowPut; cbv beta iota;
  rewrite run_bind, run_slowPut; cbv beta iota;
  rewrite run_bind, run_slowPut; cbv beta iota;
  rewrite run_bind;
  match goal with
  | |- context [for_each _ ?args ?s] =>
      destruct (for_each_slowPut (fun a => a +:+ " ") args s)
        as (st1 & ?Hrun & Hlog & Hid & Hcfg1);
      cbv beta in Hrun; rewrite Hrun; cbv beta iota
  end;
  rewrite run_bind, run_slowPut; cbv beta iota;
  rewrite run_bind, run_slowPut; cbv beta iota;
  rewrite run_bind;
  cbn [_slowLog _slowlogId _cfg with_slowLog os_path os_out] in Hlog, Hid, Hcfg1.

Lemma slowlogPush_slow time duration args st cfg :
  _cfg st = Some cfg ->
  slowlogFlushInterval cfg <> 0 ->
  slowlogLogSlowerThan cfg < duration ->
  exists st',
    slowlogPushEntryIfNeeded time duration args st = (Done tt, st', []) /\
    _cfg st' = Some cfg /\
    os_out (_slowLog st') =
      os_out (_slowLog st) ++ recordPuts (_slowlogId st) time duration args ++
      (if _slowlogId st mod slowlogFlushInterval cfg =? 0 then [Flush] else []) /\
    _slowlogId st' = add64 (_slowlogId st) 1.
Proof.
  intros Hcfg Hint Hlt.
  slow_written Hcfg Hlt st1 Hlog Hid Hcfg1.
  destruct (Z.eqb_spec (slowlogFlushInterval cfg) 0) as [Hz | _]; [contradiction |].
  destruct (_slowlogId st mod slowlogFlushInterval cfg =? 0).
  - rewrite run_slowFlush. cbv beta iota. rewrite run_modify.
    eexists. split; [reflexivity |].
    split; [cbn; congruence |].
    split; [cbn; rewrite Hlog; cbn; unfold recordPuts; rewrite <- !app_assoc; reflexivity |].
    cbn. rewrite Hid. reflexivity.
  - rewrite run_ret. cbv beta iota. rewrite run_modify.
    eexists. split; [reflexivity |].
    split; [cbn; congruence |].
    split; [cbn; rewrite Hlog; cbn; unfold recordPuts; rewrite app_nil_r, <- !app_assoc;
            reflexivity |].
    cbn. rewrite Hid. reflexivity.
Qed.

Lemma slowlogPush_zero time duration args st cfg :
  _cfg st = Some cfg ->
  slowlogFlushInterval cfg = 0 ->
  slowlogLogSlowerThan cfg < duration ->
  exists st',
    slowlogPushEntryIfNeeded time duration args st = (Abort DivisionByZero, st', []) /\
    os_out (_slowLog st') =
      os_out (_slowLog st) ++ recordPuts (_slowlogId st) time duration args /\
    _slowlogId st' = _slowlogId st.
Proof.
  intros Hcfg Hzero Hlt.
  slow_written Hcfg Hlt st1 Hlog Hid Hcfg1.
  rewrite Hzero. change (0 =? 0) with true. cbv beta iota. rewrite run_stop.
  eexists. split; [reflexivity |].
  split; [cbn; rewrite Hlog; cbn; unfold recordPuts; rewrite <- !app_assoc; reflexivity |].
  cbn. rewrite Hid. reflexivity.
Qed.

(** X25.  Over any run of commands, with a non-zero flush interval
    and no wrap-around of the counter, the slow log receives one record
    for each command slower than the threshold and nothing for the
    others, in the order of the commands; the records carry the
    consecutive ids [n], [n+1], ... from the value [n] of [_slowlogId]
    before the run; [_slowlogId] ends at [n] plus the number of
    records; and the stream has been flushed once for every id among
    them that is a multiple of the flush interval. *)
Theorem X25_slowlog_ids (entries : list (Z * Z * list string)) (st : State)
    (cfg : ServerParams) :
  _cfg st = Some cfg ->
  slowlogFlushInterval cfg <> 0 ->
  let slow := slowEntries (slowlogLogSlowerThan cfg) entries in
  let n := _slowlogId st in
  0 <= n ->
  n + Z.of_nat (length slow) < U64_MOD ->
  exists st',
    slowlogPushAll entries st = (Done tt, st', []) /\
    stream_text (os_out (_slowLog st')) =
      stream_text (os_out (_slowLog st)) +:+ sconcat (slowlogRecords n slow) /\
    _slowlogId st' = n + Z.of_nat (length slow) /\
    stream_flushes (os_out (_slowLog st')) =
      (stream_flushes (os_out (_slowLog st)) +
       flushesDue (slowlogFlushInterval cfg) n (length slow))%nat.
Proof.
  intros Hcfg Hint. revert st Hcfg.
  induction entries as [|[[time duration] args] entries IH]; intros st Hcfg slow n Hn Hmax.
  - exists st. split; [reflexivity |]. cbn.
    rewrite sapp_nil_r, Z.add_0_r, Nat.add_0_r. repeat split.
  - unfold slowlogPushAll. cbn [for_each fst snd]. fold (slowlogPushAll entries).
    rewrite run_bind.
    unfold slow, slowEntries in *. cbn [List.filter fst snd] in *.
    destruct (Z.ltb_spec (slowlogLogSlowerThan cfg) duration) as [Hlt | Hge].
    + destruct (slowlogPush_slow time duration args st cfg Hcfg Hint Hlt)
        as (st1 & Hrun & Hcfg1 & Hout & Hid).
      rewrite Hrun. cbv beta iota. cbn [length] in Hmax.
      assert (Hid1 : _slowlogId st1 = n + 1).
      { rewrite Hid. unfold add64. apply wrap64_small. fold n. lia. }
      destruct (IH st1 Hcfg1) as (st' & Hrun' & Htext & Hid' & Hfl).
      { rewrite Hid1. lia. }
      { rewrite Hid1. lia. }
      rewrite Hrun'. exists st'. split; [reflexivity |].
      rewrite Hid1 in Htext, Hid', Hfl.
      split; [| split].
      * rewrite Htext, Hout, !stream_text_app, recordPuts_text.
        fold n. cbn [slowlogRecords sconcat foldr fst snd].
        replace (stream_text (if n mod slowlogFlushInterval cfg =? 0 then [Flush] else []))
          with EmptyString by (destruct (_ =? 0); reflexivity).
        rewrite sapp_nil_r, !sapp_assoc. reflexivity.
      * rewrite Hid'. cbn [length]. lia.
      * rewrite Hfl, Hout, !stream_flushes_app, recordPuts_flushes.
        fold n. cbn [flushesDue length].
        destruct (n mod slowlogFlushInterval cfg =? 0); cbn; lia.
    + rewrite (slowlogPush_fast time duration args st cfg Hcfg Hge). cbv beta iota.
      destruct (IH st Hcfg Hn Hmax) as (st' & Hrun' & Hfacts).
      rewrite Hrun'. exists st'. split; [reflexivity | exact Hfacts].
Qed.

Lemma X25_slowlog_ids_witness :
  exists st',
    slowlogPushAll demoEntries demoRunning = (Done tt, st', []) /\
    stream_text (os_out (_slowLog st')) =
      slowlogRecord 0 1700000000 2000 ["SET"; "x"; "1"] +:+
      slowlogRecord 1 1700000002 5000 ["KEYS"; "*"] /\
    _slowlogId st' = 2 /\
    stream_flushes (os_out (_slowLog st')) = 1%nat.
Proof.
  destruct (X25_slowlog_ids demoEntries demoRunning demoCfg eq_refl
              ltac:(cbn; lia) ltac:(vm_compute; discriminate)
              ltac:(vm_compute; reflexivity))
    as (st' & Hrun & Htext & Hid & Hfl).
  exists st'. split; [exact Hrun |].
  split; [rewrite Htext; reflexivity |].
  split; [rewrite Hid; reflexivity | rewrite Hfl; reflexivity].
Defined.

(** X26.  With a flush interval of zero, a command slower than the
    threshold does not come back from [slowlogPushEntryIfNeeded]: its
    complete record has been inserted into the stream when the
    remainder by the interval is taken, nothing is flushed, and
    [_slowlogId] keeps its value.  Commands at or below the threshold
    are not affected. *)
Theorem X26_zero_flush_interval (time duration : Z) (args : list string)
    (st : State) (cfg : ServerParams) :
  _cfg st = Some cfg ->
  slowlogFlushInterval cfg = 0 ->
  (slowlogLogSlowerThan cfg < duration ->
   exists st',
     slowlogPushEntryIfNeeded time duration args st = (Abort DivisionByZero, st', []) /\
     os_out (_slowLog st') =
       os_out (_slowLog st) ++ recordPuts (_slowlogId st) time duration args /\
     stream_text (os_out (_slowLog st')) =
       stream_text (os_out (_slowLog st)) +:+
       slowlogRecord (_slowlogId st) time duration args /\
     stream_flushes (os_out (_slowLog st')) = stream_flushes (os_out (_slowLog st)) /\
     _slowlogId st' = _slowlogId st) /\
  (duration <= slowlogLogSlowerThan cfg ->
   slowlogPushEntryIfNeeded time duration args st = (Done tt, st, [])).
Proof.
  intros Hcfg Hzero. split.
  - intros Hlt.
    destruct (slowlogPush_zero time duration args st cfg Hcfg Hzero Hlt)
      as (st1 & Hrun & Hout & Hid).
    exists st1. split; [exact Hrun |]. rewrite Hout.
    split; [reflexivity |].
    split; [rewrite stream_text_app, recordPuts_text; reflexivity |].
    split; [rewrite stream_flushes_app, recordPuts_flushes; lia | exact Hid].
  - intros Hle. apply (slowlogPush_fast time duration args st cfg Hcfg Hle).
Qed.

Lemma X26_zero_flush_interval_witness :
  exists st',
    slowlogPushEntryIfNeeded 1700000000 2000 ["SET"; "x"; "1"] demoRunningNoFlush
      = (Abort DivisionByZero, st', []) /\
    stream_text (os_out (_slowLog st')) =
      slowlogRecord 0 1700000000 2000 ["SET"; "x"; "1"] /\
    _slowlogId st' = 0.
Proof.
  destruct (X26_zero_flush_interval 1700000000 2000 ["SET"; "x"; "1"]
              demoRunningNoFlush demoCfgNoFlush eq_refl eq_refl) as [Hslow _].
  destruct (Hslow ltac:(cbn; lia)) as (st' & Hrun & _ & Htext & _ & Hid).
  exists st'. split; [exact Hrun |].
  split; [rewrite Htext; reflexivity | rewrite Hid; reflexivity].
Defined.

(** ** The cron thread *)

(** X27.  The gate [run_with_period(ms)] of the cron loop, whose tick
    is 100 ms: a period of at most one tick opens the gate on every
    turn; a longer period opens it exactly on the turns whose number is
    a multiple of [ms/100], so the effective period is [ms] rounded
    down to whole ticks; the divisor is at least 1 wherever the
    remainder is taken; and the gate is open on the first turn whatever
    the period. *)
Theorem X27_run_with_period (cronLoop ms : Z) :
  (ms <= 100 -> run_with_period cronLoop ms = true) /\
  (100 < ms ->
     1 <= ms / 100 /\
     ms / 100 * 100 <= ms < ms / 100 * 100 + 100 /\
     (run_with_period cronLoop ms = true <-> cronLoop mod (ms / 100) = 0)) /\
  run_with_period 0 ms = true /\
  (run_with_period cronLoop 1000 = true <-> cronLoop mod 10 = 0).
Proof.
  unfold run_with_period. change (1000 / cron_hz) with 100.
  split; [| split; [| split]].
  - intros Hle. apply orb_true_iff. left. apply Z.leb_le. exact Hle.
  - intros Hgt.
    assert (Hdiv : 1 <= ms / 100) by (apply Z.div_le_lower_bound; lia).
    split; [exact Hdiv |].
    split.
    { pose proof (Z.div_mod ms 100 ltac:(lia)) as Hdm.
      pose proof (Z.mod_pos_bound ms 100 ltac:(lia)) as Hb. lia. }
    replace (ms <=? 100) with false by (symmetry; apply Z.leb_gt; exact Hgt).
    cbn [orb]. apply Z.eqb_eq.
  - destruct (ms <=? 100); [reflexivity |]. cbn [orb].
    rewrite Zmod_0_l. reflexivity.
  - change (1000 <=? 100) with false. change (1000 / 100) with 10.
    cbn [orb]. apply Z.eqb_eq.
Qed.

(** X28.  One turn of the cron loop on a coordinator with its three
    rate metrics.  Whatever the turn number, the three samplers run, in
    the order command rate, input rate, output rate, fed from
    [processed], [netInputBytes] and [netOutputBytes] as they are at
    the start of the turn; nothing of the coordinator but the samplers
    changes; the turn counter goes up by one; and the three matrix
    snapshots are replaced by the current matrices exactly when
    full-time matrix collection is enabled and the turn number is a
    multiple of 10, and kept otherwise. *)
Theorem X28_serverCron_body (ftmcEnabled : bool) (a b c : Z * Z)
    (cron : CronThread) (st : State) :
  (3 <= length (instMetric (_serverStat st)))%nat ->
  exists s1 s2 s3 cron',
    trackInstantaneousMetric STATS_METRIC_COMMAND (processed (_reqMatrix st))
      (fst a) (snd a) (_serverStat st) = Some s1 /\
    trackInstantaneousMetric STATS_METRIC_NET_INPUT (netInputBytes (_serverStat st))
      (fst b) (snd b) s1 = Some s2 /\
    trackInstantaneousMetric STATS_METRIC_NET_OUTPUT (netOutputBytes (_serverStat st))
      (fst c) (snd c) s2 = Some s3 /\
    serverCron_body ftmcEnabled a b c cron st = Some (with_serverStat s3 st, cron') /\
    cronLoop cron' = add64 (cronLoop cron) 1 /\
    (ftmcEnabled = true -> cronLoop cron mod 10 = 0 ->
       oldNetMatrix cron' = _netMatrix st /\
       oldPoolMatrix cron' = _poolMatrix st /\
       oldReqMatrix cron' = _reqMatrix st) /\
    (ftmcEnabled = false \/ cronLoop cron mod 10 <> 0 ->
       oldNetMatrix cron' = oldNetMatrix cron /\
       oldPoolMatrix cron' = oldPoolMatrix cron /\
       oldReqMatrix cron' = oldReqMatrix cron).
Proof.
  intros Hlen.
  destruct (instMetric (_serverStat st) !! STATS_METRIC_COMMAND) as [m0|] eqn:Hm0.
  2:{ apply lookup_ge_None in Hm0. unfold STATS_METRIC_COMMAND in Hm0. lia. }
  pose proof (track_run STATS_METRIC_COMMAND (processed (_reqMatrix st)) (fst a) (snd a)
                (_serverStat st) m0 Hm0) as Hs1.
  set (s1 := set_instMetric _ (_serverStat st)) in Hs1.
  assert (Hlen1 : length (instMetric s1) = length (instMetric (_serverStat st))).
  { unfold s1. cbn [instMetric set_instMetric]. apply length_insert. }
  destruct (instMetric s1 !! STATS_METRIC_NET_INPUT) as [m1|] eqn:Hm1.
  2:{ apply lookup_ge_None in Hm1. unfold STATS_METRIC_NET_INPUT in Hm1. lia. }
  pose proof (track_run STATS_METRIC_NET_INPUT (netInputBytes s1) (fst b) (snd b)
                s1 m1 Hm1) as Hs2.
  set (s2 := set_instMetric _ s1) in Hs2.
  assert (Hlen2 : length (instMetric s2) = length (instMetric s1)).
  { unfold s2. cbn [instMetric set_instMetric]. apply length_insert. }
  destruct (instMetric s2 !! STATS_METRIC_NET_OUTPUT) as [m2|] eqn:Hm2.
  2:{ apply lookup_ge_None in Hm2. unfold STATS_METRIC_NET_OUTPUT in Hm2. lia. }
  pose proof (track_run STATS_METRIC_NET_OUTPUT (netOutputBytes s2) (fst c) (snd c)
                s2 m2 Hm2) as Hs3.
  set (s3 := set_instMetric _ s2) in Hs3.
  assert (Hgate : run_with_period (cronLoop cron) 100 = true) by reflexivity.
  assert (Hsec : run_with_period (cronLoop cron) 1000 = (cronLoop cron mod 10 =? 0))
    by reflexivity.
  exists s1, s2, s3.
  eexists. split; [exact Hs1 |]. split; [exact Hs2 |]. split; [exact Hs3 |].
  split.
  { unfold serverCron_body. rewrite Hgate, Hs1. cbn [mbind option_bind].
    rewrite Hs2. cbn [mbind option_bind]. rewrite Hs3. cbn [mbind option_bind].
    reflexivity. }
  split; [reflexivity |].
  rewrite Hsec. cbn [oldNetMatrix oldPoolMatrix oldReqMatrix].
  split.
  - intros -> Hz. apply Z.eqb_eq in Hz. rewrite Hz. cbn [andb]. repeat split.
  - intros [-> | Hnz].
    + rewrite andb_false_r. repeat split.
    + apply Z.eqb_neq in Hnz. rewrite Hnz. cbn [andb]. repeat split.
Qed.

Lemma X28_serverCron_body_witness :
  exists st' cron',
    serverCron_body true (1000100, 1000100) (1000100, 1000101) (1000101, 1000101)
      demoCron demoBusy = Some (st', cron') /\
    cronLoop cron' = 11 /\
    oldReqMatrix cron' = mkRequestMatrix 7 7000 70 /\
    _reqMatrix st' = _reqMatrix demoBusy.
Proof.
  destruct (X28_serverCron_body true (1000100, 1000100) (1000100, 1000101)
              (1000101, 1000101) demoCron demoBusy ltac:(vm_compute; lia))
    as (s1 & s2 & s3 & cron' & _ & _ & _ & Hrun & Hloop & Hsnap & _).
  destruct (Hsnap eq_refl eq_refl) as (_ & _ & Hreq).
  eexists _, cron'. split; [exact Hrun |]. split; [rewrite Hloop; reflexivity |].
  split; [rewrite Hreq; reflexivity | reflexivity].
Defined.

(** ** Shutdown *)

Lemma stop_not_running st :
  _isRunning st = false -> ServerEntry_stop st = (Done tt, st, []).
Proof. intros Hr. unfold ServerEntry_stop. rewrite Hr. reflexivity. Qed.

(** Reading a field through the updates [stop] has made so far. *)
Ltac through field st H :=
  match goal with
  | |- context [field ?s] =>
      lazymatch s with
      | st => fail
      | _ => change (field s) with (field st)
      end
  end;
  rewrite H; cbv beta iota.

(** X29.  [stop] on a running coordinator with every subsystem
    installed runs to its end.  Its calls are, in order: wake the
    waiters, stop the network, stop every worker pool, stop the
    replication and the index manager, stop the catalog, stop every
    store, join the cron thread, close the slow log, wake the waiters.
    Afterwards the server is not running and stopped, the session map
    is empty while the monitor list is what it was, the slow log is
    closed, and catalog and stores are still installed.  The seven
    owning handles (network, pools, replication, index, pessimistic
    and lock managers, segment manager) are dropped unless shutdown
    was requested by command, in which case they are all kept.  A
    second [stop] does nothing. *)
Theorem X29_stop (st : State) (net : NetworkAsio) (rm : ReplManager)
    (im : IndexManager) (c : Catalog) :
  _isRunning st = true ->
  _network st = Some net ->
  _replMgr st = Some rm ->
  _indexMgr st = Some im ->
  _catalog st = Some c ->
  _cronThd st = true ->
  exists st',
    ServerEntry_stop st = (Done tt, st', stopCalls (_executorList st) (_kvstores st)) /\
    _isRunning st' = false /\
    _isStopped st' = true /\
    _sessions st' = ∅ /\
    _monitors st' = _monitors st /\
    os_path (_slowLog st') = None /\
    _catalog st' = Some c /\
    _kvstores st' = _kvstores st /\
    (_isShutdowned st = false ->
       _network st' = None /\ _executorList st' = [] /\ _replMgr st' = None /\
       _indexMgr st' = None /\ _pessimisticMgr st' = None /\
       _mgLockMgr st' = None /\ _segmentMgr st' = None) /\
    (_isShutdowned st = true ->
       _network st' = Some (mkNetworkAsio (net_ip net) (net_port net)
                              (net_ioThreads net) false) /\
       _executorList st' = _executorList st /\ _replMgr st' = Some rm /\
       _indexMgr st' = Some im /\ _pessimisticMgr st' = _pessimisticMgr st /\
       _mgLockMgr st' = _mgLockMgr st /\ _segmentMgr st' = _segmentMgr st) /\
    ServerEntry_stop st' = (Done tt, st', []).
Proof.
  intros Hrun Hnet Hrm Him Hc Hcron.
  unfold ServerEntry_stop at 1. rewrite Hrun. cbn [negb]. cbv zeta.
  through _network st Hnet.
  through _replMgr st Hrm.
  through _indexMgr st Him.
  destruct (_isShutdowned st) eqn:Hsd.
  - through _isShutdowned st Hsd.
    through _catalog st Hc.
    through _cronThd st Hcron. cbn [negb].
    eexists. split.
    { unfold stopCalls. rewrite <- !app_assoc. reflexivity. }
    do 4 (split; [reflexivity |]).
    split; [reflexivity |]. split; [exact Hc |]. split; [reflexivity |].
    split; [intros Hx; discriminate Hx |].
    split; [intros _; repeat split; assumption |].
    apply stop_not_running. reflexivity.
  - through _isShutdowned st Hsd.
    through _catalog st Hc.
    through _cronThd st Hcron. cbn [negb].
    eexists. split.
    { unfold stopCalls. rewrite <- !app_assoc. reflexivity. }
    do 4 (split; [reflexivity |]).
    split; [reflexivity |]. split; [exact Hc |]. split; [reflexivity |].
    split; [intros _; repeat split |].
    split; [intros Hx; discriminate Hx |].
    apply stop_not_running. reflexivity.
Qed.

Lemma X29_stop_witness :
  exists st',
    ServerEntry_stop demoMonitoring =
      (Done tt, st',
       [TdNotifyAll; TdNetworkStop;
        TdExecutorStop "req-exec-0"; TdExecutorStop "req-exec-1";
        TdExecutorStop "req-exec-2"; TdExecutorStop "req-exec-3";
        TdReplStop; TdIndexStop; TdCatalogStop;
        TdStoreStop "0"; TdStoreStop "1"; TdStoreStop "2";
        TdCronJoin; TdSlowlogClose; TdNotifyAll]) /\
    _isStopped st' = true /\
    _sessions st' = ∅ /\
    _monitors st' = [6%N] /\
    _replMgr st' = None /\
    ServerEntry_stop st' = (Done tt, st', []).
Proof.
  destruct (_catalog demoMonitoring) as [c|] eqn:Hc; [| discriminate Hc].
  destruct (X29_stop demoMonitoring
              (mkNetworkAsio "127.0.0.1" 6379 2 true) (mkReplManager [] [])
              (mkIndexManager []) c eq_refl eq_refl eq_refl eq_refl Hc eq_refl)
    as (st' & Hrun & _ & Hstopped & Hsess & Hmon & _ & _ & _ & Hdrop & _ & Hagain).
  destruct (Hdrop eq_refl) as (_ & _ & Hrepl & _).
  exists st'. split; [exact Hrun |]. split; [exact Hstopped |].
  split; [exact Hsess |]. split; [exact Hmon |]. split; [exact Hrepl | exact Hagain].
Defined.

Section StopAfterStartup.
Context `{Collab}.

(** X30.  A server that [startup] has brought up with [noexpire] set
    has no index manager, and [stop] calls [_indexMgr->stop()]
    unconditionally: on such a server [stop] clears the running flag,
    stops the network, the worker pools and the replication manager,
    and then goes through the empty handle.  The session map is not
    cleared, no subsystem handle is dropped, the stopped flag is never
    set, and since the server no longer counts as running a second
    [stop] returns at once. *)
Theorem X30_stop_after_noexpire_startup (cfg : ServerParams) (st0 st : State)
    (s : Status) (evs : list event) :
  noexpire cfg = true ->
  _indexMgr st0 = None ->
  startup cfg st0 = (Done s, st, evs) ->
  Status_ok s = true ->
  exists st',
    ServerEntry_stop st =
      (Abort NullPointer, st',
       [TdNotifyAll; TdNetworkStop] ++
       ((fun e => TdExecutorStop (pool_name e)) <$> _executorList st) ++ [TdReplStop]) /\
    _isRunning st' = false /\
    _isStopped st' = false /\
    _sessions st' = _sessions st /\
    _replMgr st' = _replMgr st /\
    _catalog st' = _catalog st /\
    ServerEntry_stop st' = (Done tt, st', []).
Proof.
  intros Hno Hnone Hrun Hok.
  destruct (startup_outcome cfg st0) as (r & st1 & evs1 & Hrun1 & Hcase).
  rewrite Hrun in Hrun1. injection Hrun1 as <- <- <-.
  destruct Hcase as [(Hbad & _) |
                     (stores & c & cat & _ & _ & _ & _ & Hrunning & Hstopped & _ &
                      _ & _ & _ & _ & _ & _ & Hnet & Hrm & Hidx & _)].
  { rewrite (Hbad s eq_refl) in Hok. discriminate. }
  rewrite Hno, Hnone in Hidx.
  unfold ServerEntry_stop at 1. rewrite Hrunning. cbn [negb]. cbv zeta.
  through _network st Hnet.
  through _replMgr st Hrm.
  through _indexMgr st Hidx.
  eexists. split.
  { rewrite <- !app_assoc. reflexivity. }
  split; [reflexivity |]. split; [exact Hstopped |].
  split; [reflexivity |]. split; [exact Hrm |]. split; [reflexivity |].
  apply stop_not_running. reflexivity.
Qed.

End StopAfterStartup.

Lemma X30_stop_after_noexpire_startup_witness :
  exists st evs st',
    @startup demoCollab demoCfgNoExpire (newServerEntry demoCfgNoExpire demoObjs)
      = (Done OK, st, evs) /\
    ServerEntry_stop st =
      (Abort NullPointer, st',
       [TdNotifyAll; TdNetworkStop;
        TdExecutorStop "req-exec-0"; TdExecutorStop "req-exec-1";
        TdExecutorStop "req-exec-2"; TdExecutorStop "req-exec-3"; TdReplStop]) /\
    _isRunning st' = false /\
    _isStopped st' = false.
Proof.
  destruct (@startup demoCollab demoCfgNoExpire (newServerEntry demoCfgNoExpire demoObjs))
    as [[r st] evs] eqn:Hrun.
  assert (Hr : r = Done OK /\
               _executorList st = poolAt <$> seq 0 4).
  { pose proof Hrun as Hrun'. vm_compute in Hrun'. injection Hrun' as <- <- _.
    split; reflexivity. }
  destruct Hr as [-> Hpools].
  destruct (@X30_stop_after_noexpire_startup demoCollab demoCfgNoExpire
              (newServerEntry demoCfgNoExpire demoObjs) st OK evs
              eq_refl eq_refl Hrun eq_refl)
    as (st' & Hstop & Hrunning & Hstopped & _).
  exists st, evs, st'. split; [reflexivity |].
  split; [rewrite Hstop, Hpools; reflexivity |].
  split; [exact Hrunning | exact Hstopped].
Defined.
